(** * togglgo-mcp: the tool layer of the Toggl MCP server

    A shallow embedding of the Go package [app] (utils.go, types.go,
    client.go, handlers.go) and the properties of its parameter
    extraction, response decoder and tool handlers.

    Conventions of the embedding:
    - a Go [int] is a [Z]; the places where the 64-bit range matters
      (the conversion from [float64]) write the range out;
    - a Go [string] is a [string], i.e. a sequence of bytes;
    - a Go [(T, error)] result is a pair of a value and an [option error]
      where the source can return both, and a sum where it returns
      exactly one;
    - [map[string]interface{}] is a [gmap string Value];
    - the argument map and the requests sent are threaded explicitly
      through the handlers (record [World]). *)

From Stdlib Require Import ZArith String Ascii List Bool Lia.
From Stdlib Require Import Numbers.DecimalString Floats.SpecFloat.
From stdpp Require Import base option gmap strings list.

Set Warnings "-register-all".

Local Open Scope string_scope.
Local Open Scope Z_scope.

(** ** Go runtime helpers *)

Module Go.

(** [%d] of [fmt.Sprintf] on an [int]. *)
Definition itoa (z : Z) : string := NilZero.string_of_int (Z.to_int z).

Definition minInt : Z := - 2 ^ 63.
Definition maxInt : Z := 2 ^ 63 - 1.

Definition inInt (z : Z) : bool := (minInt <=? z) && (z <=? maxInt).

(** A [float64] is an IEEE 754 binary64 value; [S754_finite s m e] is
    (-1)^s * m * 2^e. *)
Definition float64 : Type := spec_float.

(** The integer part of a finite float, fraction discarded. *)
Definition trunc (f : float64) : option Z :=
  match f with
  | S754_zero _ => Some 0
  | S754_finite s m e =>
      let a := if 0 <=? e then Z.pos m * 2 ^ e else Z.pos m / 2 ^ (- e) in
      Some (if s then - a else a)
  | S754_infinity _ | S754_nan => None
  end.

(** The conversion [int(val)] of a [float64]: the fraction is discarded
    (truncation toward zero).  When the integer part does not fit an
    [int], or for NaN and infinities, the language leaves the result to
    the implementation; amd64 yields the smallest [int]. *)
Definition int_of_float64 (f : float64) : Z :=
  match trunc f with
  | Some z => if inInt z then z else minInt
  | None => minInt
  end.

(** [strconv.FormatBool]. *)
Definition FormatBool (b : bool) : string := if b then "true" else "false".

End Go.

(** ** The parts of package [encoding/json] the decoder uses *)

Module json.

(** A parsed JSON text.  A number keeps its literal, as the decoder
    converts it only when it knows the target type; a string is held
    unquoted. *)
(** The errors of [Unmarshal]: [*SyntaxError], [*UnmarshalTypeError],
    and what an [UnmarshalJSON] method of a library type (here that of
    [time.Time]) returns. *)
Inductive DecodeError : Type :=
| SyntaxError
| UnmarshalTypeError (value : string) (type : string) (field : string)
| UnmarshalerError (msg : string).

Inductive Json : Type :=
| Null
| Bool (b : bool)
| Number (lit : string)
| Str (s : string)
| Array (elems : list Json)
| Object (members : list (string * Json)).

Definition code (c : ascii) : Z := Z.of_nat (nat_of_ascii c).
Definition char (n : Z) : ascii := ascii_of_nat (Z.to_nat n).

Definition isSpace (c : ascii) : bool :=
  let n := code c in (n =? 32) || (n =? 9) || (n =? 10) || (n =? 13).

Definition isDigit (c : ascii) : bool := (48 <=? code c) && (code c <=? 57).

Definition hexVal (c : ascii) : option Z :=
  let n := code c in
  if (48 <=? n) && (n <=? 57) then Some (n - 48)
  else if (97 <=? n) && (n <=? 102) then Some (n - 87)
  else if (65 <=? n) && (n <=? 70) then Some (n - 55)
  else None.

(** *** Scanning: bytes to tokens *)

Inductive Token : Type :=
| TLBrace | TRBrace | TLBracket | TRBracket | TColon | TComma
| TString (raw : string)   (* the bytes between the quotes, escapes checked *)
| TRun (s : string).       (* a maximal run of literal or number bytes *)

Definition isRun (c : ascii) : bool :=
  let n := code c in
  ((97 <=? n) && (n <=? 122)) || ((65 <=? n) && (n <=? 90)) || isDigit c
  || (n =? 43) || (n =? 45) || (n =? 46).

Inductive Mode : Type :=
| MIdle
| MRun (acc : list ascii)
| MStr (acc : list ascii) (esc : nat).
    (* esc: 0 plain; 1 after a backslash; k+1 with k hex digits to come *)

Definition unrev (acc : list ascii) : string := string_of_list_ascii (rev acc).

Definition idle (c : ascii) (toks : list Token) : option (Mode * list Token) :=
  let n := code c in
  if isSpace c then Some (MIdle, toks)
  else if n =? 123 then Some (MIdle, TLBrace :: toks)
  else if n =? 125 then Some (MIdle, TRBrace :: toks)
  else if n =? 91 then Some (MIdle, TLBracket :: toks)
  else if n =? 93 then Some (MIdle, TRBracket :: toks)
  else if n =? 58 then Some (MIdle, TColon :: toks)
  else if n =? 44 then Some (MIdle, TComma :: toks)
  else if n =? 34 then Some (MStr [] 0, toks)
  else if isRun c then Some (MRun [c], toks)
  else None.

Definition isSimpleEscape (c : ascii) : bool :=
  let n := code c in
  (n =? 34) || (n =? 92) || (n =? 47) || (n =? 98) || (n =? 102)
  || (n =? 110) || (n =? 114) || (n =? 116).

Definition step (m : Mode) (c : ascii) (toks : list Token) : option (Mode * list Token) :=
  match m with
  | MIdle => idle c toks
  | MRun acc =>
      if isRun c then Some (MRun (c :: acc), toks)
      else idle c (TRun (unrev acc) :: toks)
  | MStr acc O =>
      if code c =? 34 then Some (MIdle, TString (unrev acc) :: toks)
      else if code c =? 92 then Some (MStr (c :: acc) 1, toks)
      else if code c <? 32 then None
      else Some (MStr (c :: acc) 0, toks)
  | MStr acc (S O) =>
      if isSimpleEscape c then Some (MStr (c :: acc) 0, toks)
      else if code c =? 117 then Some (MStr (c :: acc) 5, toks)
      else None
  | MStr acc (S (S k)) =>
      match hexVal c with
      | Some _ => Some (MStr (c :: acc) (match k with O => O | S _ => S k end), toks)
      | None => None
      end
  end.

Fixpoint scan (m : Mode) (toks : list Token) (data : string) : option (list Token) :=
  match data with
  | EmptyString =>
      match m with
      | MIdle => Some (rev toks)
      | MRun acc => Some (rev (TRun (unrev acc) :: toks))
      | MStr _ _ => None
      end
  | String c rest =>
      match step m c toks with
      | Some (m', toks') => scan m' toks' rest
      | None => None
      end
  end.

(** *** Number literals *)

Fixpoint skipDigits (s : string) : string :=
  match s with
  | String c rest => if isDigit c then skipDigits rest else s
  | EmptyString => s
  end.

Definition allDigits1 (s : string) : bool :=
  match s with
  | String c rest => isDigit c && String.eqb (skipDigits rest) ""
  | EmptyString => false
  end.

Definition validExp (s : string) : bool :=
  match s with
  | EmptyString => true
  | String c rest =>
      if (code c =? 101) || (code c =? 69) then
        match rest with
        | String d rest' =>
            if (code d =? 43) || (code d =? 45) then allDigits1 rest' else allDigits1 rest
        | EmptyString => false
        end
      else false
  end.

Definition validFrac (s : string) : bool :=
  match s with
  | String c (String d rest) =>
      if code c =? 46 then isDigit d && validExp (skipDigits rest) else validExp s
  | String c EmptyString => if code c =? 46 then false else validExp s
  | EmptyString => true
  end.

Definition validUnsigned (s : string) : bool :=
  match s with
  | String c rest =>
      if code c =? 48 then validFrac rest
      else if isDigit c then validFrac (skipDigits rest)
      else false
  | EmptyString => false
  end.

Definition validNumber (s : string) : bool :=
  match s with
  | String c rest => if code c =? 45 then validUnsigned rest else validUnsigned s
  | EmptyString => false
  end.

(** *** Unquoting a string literal *)

Definition cont (c : ascii) (lo hi : Z) : bool := (lo <=? code c) && (code c <=? hi).

(** The length of the valid UTF-8 sequence at the head of [s], by its
    first two bytes' ranges (0 when there is none). *)
Definition utf8Len (s : string) : nat :=
  match s with
  | String a (String b rest) =>
      let n := code a in
      let two lo hi := cont b lo hi in
      let c3 := match rest with String c _ => cont c 128 191 | _ => false end in
      let c4 := match rest with String c (String d _) => cont c 128 191 && cont d 128 191 | _ => false end in
      if (194 <=? n) && (n <=? 223) then (if two 128 191 then 2%nat else 0%nat)
      else if n =? 224 then (if two 160 191 && c3 then 3%nat else 0%nat)
      else if n =? 237 then (if two 128 159 && c3 then 3%nat else 0%nat)
      else if (225 <=? n) && (n <=? 239) then (if two 128 191 && c3 then 3%nat else 0%nat)
      else if n =? 240 then (if two 144 191 && c4 then 4%nat else 0%nat)
      else if n =? 244 then (if two 128 143 && c4 then 4%nat else 0%nat)
      else if (241 <=? n) && (n <=? 243) then (if two 128 191 && c4 then 4%nat else 0%nat)
      else 0%nat
  | _ => 0%nat
  end.

(** [utf8.EncodeRune]. *)
Definition encodeRune (r : Z) : string :=
  if r <? 128 then String (char r) ""
  else if r <? 2048 then
    String (char (192 + r / 64)) (String (char (128 + r mod 64)) "")
  else if r <? 65536 then
    String (char (224 + r / 4096))
      (String (char (128 + (r / 64) mod 64)) (String (char (128 + r mod 64)) ""))
  else
    String (char (240 + r / 262144))
      (String (char (128 + (r / 4096) mod 64))
         (String (char (128 + (r / 64) mod 64)) (String (char (128 + r mod 64)) ""))).

Definition replacementChar : Z := 65533.

Definition hex4 (a b c d : ascii) : option Z :=
  match hexVal a, hexVal b, hexVal c, hexVal d with
  | Some x, Some y, Some z, Some w => Some (4096 * x + 256 * y + 16 * z + w)
  | _, _, _, _ => None
  end.

Definition isSurrogate (r : Z) : bool := (55296 <=? r) && (r <? 57344).

(** [getu4]: the code unit of a [\uXXXX] escape at the head of [s]. *)
Definition getu4 (s : string) : option Z :=
  match s with
  | String e (String u (String a (String b (String c (String d _))))) =>
      if (code e =? 92) && (code u =? 117) then hex4 a b c d else None
  | _ => None
  end.

Definition unescape (c : ascii) : ascii :=
  let n := code c in
  if n =? 98 then char 8 else if n =? 102 then char 12 else if n =? 110 then char 10
  else if n =? 114 then char 13 else if n =? 116 then char 9 else c.

(** [unquote] on the bytes between the quotes; [skip] bytes are copied
    unchanged first (the tail of a multi-byte sequence or the second
    escape of a surrogate pair, already accounted for). *)
Fixpoint unquoteFrom (skip : nat) (keep : bool) (s : string) : string :=
  match s with
  | EmptyString => EmptyString
  | String c rest =>
      match skip with
      | S k => if keep then String c (unquoteFrom k keep rest) else unquoteFrom k keep rest
      | O =>
          if code c =? 92 then
            match rest with
            | String u (String a (String b (String x (String y rest')))) =>
                if code u =? 117 then
                  match hex4 a b x y with
                  | Some r =>
                      if isSurrogate r then
                        match getu4 rest' with
                        | Some r2 =>
                            if (r <? 56320) && (56320 <=? r2) && (r2 <? 57344) then
                              encodeRune ((r - 55296) * 1024 + (r2 - 56320) + 65536)
                              +:+ unquoteFrom 11 false rest
                            else encodeRune replacementChar +:+ unquoteFrom 5 false rest
                        | None => encodeRune replacementChar +:+ unquoteFrom 5 false rest
                        end
                      else encodeRune r +:+ unquoteFrom 5 false rest
                  | None => unquoteFrom 0 true rest
                  end
                else String (unescape u) (unquoteFrom 1 false rest)
            | String u _ =>
                if code u =? 117 then unquoteFrom 0 true rest
                else String (unescape u) (unquoteFrom 1 false rest)
            | EmptyString => EmptyString
            end
          else if code c <? 128 then String c (unquoteFrom 0 true rest)
          else
            match utf8Len s with
            | O => encodeRune replacementChar +:+ unquoteFrom 0 true rest
            | S k => String c (unquoteFrom k true rest)
            end
      end
  end.

Definition unquote (raw : string) : string := unquoteFrom 0 true raw.

(** *** Parsing: tokens to a value *)

Definition classify (s : string) : option Json :=
  if String.eqb s "true" then Some (Bool true)
  else if String.eqb s "false" then Some (Bool false)
  else if String.eqb s "null" then Some Null
  else if validNumber s then Some (Number s)
  else None.

Inductive Frame : Type :=
| FArr (elems : list Json)
| FObj (members : list (string * Json)) (key : string).

Inductive Phase : Type :=
| PValue         (* a value must follow *)
| PValueOrEnd    (* after [[]: a value or []] *)
| PKeyOrEnd      (* after [{]: a key or [}] *)
| PKey           (* after a comma in an object *)
| PColon         (* after a key *)
| PAfter         (* after a value inside an array or object *)
| PDone (j : Json).

Definition finish (v : Json) (stack : list Frame) : Phase * list Frame :=
  match stack with
  | [] => (PDone v, [])
  | FArr es :: st => (PAfter, FArr (v :: es) :: st)
  | FObj ms k :: st => (PAfter, FObj ((k, v) :: ms) "" :: st)
  end.

Definition endComposite (t : Token) (stack : list Frame) : option (Phase * list Frame) :=
  match t, stack with
  | TRBracket, FArr es :: st => Some (finish (Array (rev es)) st)
  | TRBrace, FObj ms _ :: st => Some (finish (Object (rev ms)) st)
  | _, _ => None
  end.

Definition beginValue (t : Token) (stack : list Frame) : option (Phase * list Frame) :=
  match t with
  | TLBracket => Some (PValueOrEnd, FArr [] :: stack)
  | TLBrace => Some (PKeyOrEnd, FObj [] "" :: stack)
  | TString raw => Some (finish (Str (unquote raw)) stack)
  | TRun s => match classify s with Some v => Some (finish v stack) | None => None end
  | _ => None
  end.

Definition beginKey (t : Token) (stack : list Frame) : option (Phase * list Frame) :=
  match t, stack with
  | TString raw, FObj ms _ :: st => Some (PColon, FObj ms (unquote raw) :: st)
  | _, _ => None
  end.

Definition shift (ph : Phase) (stack : list Frame) (t : Token) : option (Phase * list Frame) :=
  match ph with
  | PValue => beginValue t stack
  | PValueOrEnd => match t with TRBracket => endComposite t stack | _ => beginValue t stack end
  | PKeyOrEnd => match t with TRBrace => endComposite t stack | _ => beginKey t stack end
  | PKey => beginKey t stack
  | PColon => match t with TColon => Some (PValue, stack) | _ => None end
  | PAfter =>
      match t, stack with
      | TComma, FArr _ :: _ => Some (PValue, stack)
      | TComma, FObj _ _ :: _ => Some (PKey, stack)
      | _, _ => endComposite t stack
      end
  | PDone _ => None
  end.

Fixpoint shiftAll (ph : Phase) (stack : list Frame) (toks : list Token) : option Json :=
  match toks with
  | [] => match ph with PDone j => Some j | _ => None end
  | t :: rest =>
      match shift ph stack t with
      | Some (ph', stack') => shiftAll ph' stack' rest
      | None => None
      end
  end.

(** The value of a JSON text; [None] when [checkValid] rejects it. *)
Definition parse (data : string) : option Json :=
  match scan MIdle [] data with
  | Some toks => shiftAll PValue [] toks
  | None => None
  end.

(** *** Decoding into Go values *)

(** A payload shape: the zero value of the Go type, and what storing a
    JSON value into a variable of that type does.  [decode j v] is the
    variable after the store, and the error the decoder saved.  On a
    value that does not fit, the decoder saves an [UnmarshalTypeError],
    skips the value and goes on. *)
Class Shape (T : Type) : Type := {
  zero : T;
  decode : Json -> T -> T * option DecodeError
}.

(** [json.Unmarshal(data, &v)]: the text is checked as a whole before
    anything is stored. *)
Definition Unmarshal {T : Type} `{Shape T} (data : string) (v : T) : T * option DecodeError :=
  match parse data with
  | None => (v, Some SyntaxError)
  | Some j => decode j v
  end.

Definition kind (j : Json) : string :=
  match j with
  | Null => "null" | Bool _ => "bool" | Number _ => "number" | Str _ => "string"
  | Array _ => "array" | Object _ => "object"
  end.

Definition mismatch (j : Json) (type : string) : option DecodeError :=
  Some (UnmarshalTypeError (kind j) type "").

(** An error returned by an [UnmarshalJSON] method stops the decoder
    at once and is the one reported; a type mismatch is saved, the
    earliest one kept, and decoding goes on. *)
Definition fatal (e : option DecodeError) : bool :=
  match e with Some (UnmarshalerError _) => true | _ => false end.

Definition saveError (saved new : option DecodeError) : option DecodeError :=
  if fatal saved then saved
  else if fatal new then new
  else match saved with Some _ => saved | None => new end.

Fixpoint digitsValue (acc : Z) (s : string) : Z :=
  match s with
  | String c rest => digitsValue (10 * acc + (code c - 48)) rest
  | EmptyString => acc
  end.

(** [strconv.ParseInt(lit, 10, 64)] on a number literal. *)
Definition parseInt (lit : string) : option Z :=
  let '(neg, ds) :=
    match lit with
    | String c rest => if code c =? 45 then (true, rest) else (false, lit)
    | EmptyString => (false, lit)
    end in
  if allDigits1 ds then
    let n := digitsValue 0 ds in
    let z := if neg then - n else n in
    if Go.inInt z then Some z else None
  else None.

#[global] Instance ShapeInt : Shape Z := {
  zero := 0;
  decode j v :=
    match j with
    | Null => (v, None)
    | Number lit =>
        match parseInt lit with
        | Some n => (n, None)
        | None => (v, Some (UnmarshalTypeError ("number " +:+ lit) "int" ""))
        end
    | _ => (v, mismatch j "int")
    end
}.

#[global] Instance ShapeString : Shape string := {
  zero := "";
  decode j v :=
    match j with
    | Null => (v, None)
    | Str s => (s, None)
    | _ => (v, mismatch j "string")
    end
}.

#[global] Instance ShapeBool : Shape bool := {
  zero := false;
  decode j v :=
    match j with
    | Null => (v, None)
    | Bool b => (b, None)
    | _ => (v, mismatch j "bool")
    end
}.

(** A pointer field: [null] stores nil, anything else is stored into
    the pointee, allocated when the pointer was nil. *)
#[global] Instance ShapePtr {T : Type} `{Shape T} : Shape (option T) := {
  zero := None;
  decode j v :=
    match j with
    | Null => (None, None)
    | _ => let '(x, e) := decode j (default zero v) in (Some x, e)
    end
}.

(** A slice: the elements of an array are stored one by one, into the
    elements already there and into zero elements beyond them. *)
Fixpoint decodeElems {T : Type} `{Shape T} (es : list Json) (old : list T) : list T * option DecodeError :=
  match es with
  | [] => ([], None)
  | j :: rest =>
      let '(x, e) := decode j (hd zero old) in
      if fatal e then ([x], e)
      else
        let '(xs, e') := decodeElems rest (tl old) in
        (x :: xs, saveError e e')
  end.

#[global] Instance ShapeSlice {T : Type} `{Shape T} : Shape (list T) := {
  zero := [];
  decode j v :=
    match j with
    | Null => ([], None)
    | Array es => decodeElems es v
    | _ => (v, mismatch j "slice")
    end
}.

(** *** Structs *)

Definition upper (c : ascii) : ascii :=
  if (97 <=? code c) && (code c <=? 122) then char (code c - 32) else c.

(** [foldName]: ASCII letters to upper case; of the other runes only
    the Kelvin sign (E2 84 AA) and the long s (C5 BF) fold to an ASCII
    letter. *)
Definition startsWith2 (x y : Z) (s : string) : bool :=
  match s with
  | String a (String b _) => (code a =? x) && (code b =? y)
  | _ => false
  end.

Fixpoint foldFrom (skip : nat) (s : string) : string :=
  match s with
  | EmptyString => EmptyString
  | String a rest =>
      match skip with
      | S k => foldFrom k rest
      | O =>
          if (code a =? 226) && startsWith2 132 170 rest then String "K" (foldFrom 2 rest)
          else if startsWith2 197 191 s then String "S" (foldFrom 1 rest)
          else String (upper a) (foldFrom 0 rest)
      end
  end.

Definition foldName (s : string) : string := foldFrom 0 s.

(** A struct field: its JSON name and the store into it. *)
Record Field (T : Type) : Type := mkField {
  fieldName : string;
  fieldStore : Json -> T -> T * option DecodeError
}.
Arguments mkField {T}.
Arguments fieldName {T}.
Arguments fieldStore {T}.

Definition field {T A : Type} `{Shape A} (name : string) (get : T -> A) (set : T -> A -> T) : Field T :=
  mkField name (fun j v => let '(a, e) := decode j (get v) in (set v a, e)).

(** The field a key names: the exact name first, else the first field
    equal under folding. *)
Definition findField {T : Type} (fields : list (Field T)) (key : string) : option (Field T) :=
  match List.find (fun f => String.eqb (fieldName f) key) fields with
  | Some f => Some f
  | None => List.find (fun f => String.eqb (foldName (fieldName f)) (foldName key)) fields
  end.

Definition withField (name : string) (e : option DecodeError) : option DecodeError :=
  match e with
  | Some (UnmarshalTypeError v t "") => Some (UnmarshalTypeError v t name)
  | Some (UnmarshalTypeError v t sub) => Some (UnmarshalTypeError v t (name +:+ "." +:+ sub))
  | _ => e
  end.

Definition storeMember {T : Type} (fields : list (Field T))
    (acc : T * option DecodeError) (m : string * Json) : T * option DecodeError :=
  if fatal (snd acc) then acc
  else
    match findField fields (fst m) with
    | Some f =>
        let '(v', e) := fieldStore f (snd m) (fst acc) in
        (v', saveError (snd acc) (withField (fieldName f) e))
    | None => acc
    end.

Definition decodeStruct {T : Type} (type : string) (fields : list (Field T))
    (j : Json) (v : T) : T * option DecodeError :=
  match j with
  | Null => (v, None)
  | Object members => fold_left (storeMember fields) members (v, None)
  | _ => (v, mismatch j type)
  end.

End json.

(** ** utils.go *)

(** The dynamic values of an argument map.  The arguments of a tool call
    arrive JSON-decoded into [interface{}], so their dynamic types are
    [nil], [bool], [float64], [string], [[]interface{}] and
    [map[string]interface{}]. *)
Inductive Value : Type :=
| VNil
| VBool (b : bool)
| VFloat64 (f : Go.float64)
| VString (s : string)
| VArray (l : list Value)
| VObject (l : list (string * Value)).

Abbreviation Arguments := (gmap string Value).

(** The errors the package meets.  [fmt.Errorf] without [%w] and
    [errors.New] give an [errorString]; [fmt.Errorf] with a final [%w]
    gives a [wrapError] whose message is the prefix followed by the
    message of the wrapped error; [apiError] is [*APIError] of types.go;
    the others are the errors of the libraries: a failed read or round
    trip, the errors of [json.Unmarshal], and [*time.ParseError]. *)
Record APIError : Type := mkAPIError { StatusCode : Z; Body : string }.

Inductive error : Type :=
| errorString (msg : string)
| wrapError (prefix : string) (inner : error)
| apiError (e : APIError)
| ioError (msg : string)
| jsonError (e : json.DecodeError)
| timeParseError (layout value : string).

(** The type assertions [params[key].(float64)], [.(string)], [.(bool)]:
    a missing key reads as the nil interface, on which every assertion
    fails. *)
Definition assertFloat64 (v : option Value) : option Go.float64 :=
  match v with Some (VFloat64 f) => Some f | _ => None end.

Definition assertString (v : option Value) : option string :=
  match v with Some (VString s) => Some s | _ => None end.

Definition assertBool (v : option Value) : option bool :=
  match v with Some (VBool b) => Some b | _ => None end.

Definition getRequiredNumber (params : Arguments) (key : string) : Z * option error :=
  match assertFloat64 (params !! key) with
  | None => (0, Some (errorString (key +:+ " must be a number")))
  | Some val => (Go.int_of_float64 val, None)
  end.

Definition getOptionalNumber (params : Arguments) (key : string) : option Z :=
  match assertFloat64 (params !! key) with
  | Some val => Some (Go.int_of_float64 val)
  | None => None
  end.

Definition getRequiredString (params : Arguments) (key : string) : string * option error :=
  match assertString (params !! key) with
  | Some val =>
      if String.eqb val "" then ("", Some (errorString (key +:+ " must be a non-empty string")))
      else (val, None)
  | None => ("", Some (errorString (key +:+ " must be a non-empty string")))
  end.

Definition getOptionalString (params : Arguments) (key : string) : string :=
  match assertString (params !! key) with
  | Some val => val
  | None => ""
  end.

(** Go's [/] and [%] on [int] truncate toward zero: [Z.quot] and [Z.rem]. *)
Definition formatDuration (seconds : Z) : string :=
  if seconds <? 0 then "[running]"
  else
    let hours := seconds ÷ 3600 in
    let minutes := Z.rem seconds 3600 ÷ 60 in
    let secs := Z.rem seconds 60 in
    if 0 <? hours then
      "[" +:+ Go.itoa hours +:+ "h " +:+ Go.itoa minutes +:+ "m " +:+ Go.itoa secs +:+ "s]"
    else if 0 <? minutes then
      "[" +:+ Go.itoa minutes +:+ "m " +:+ Go.itoa secs +:+ "s]"
    else
      "[" +:+ Go.itoa secs +:+ "s]".

(** ** The parts of package [time] the handlers use *)

Module time.

(** A [time.Time] at midnight UTC, as [Parse] with a date-only layout
    returns it. *)
Record Time : Type := Date { Year : Z; Month : Z; Day : Z }.

Definition isLeap (year : Z) : bool :=
  (year mod 4 =? 0) && (negb (year mod 100 =? 0) || (year mod 400 =? 0)).

Definition daysIn (m year : Z) : Z :=
  if m =? 2 then (if isLeap year then 29 else 28)
  else if (m =? 4) || (m =? 6) || (m =? 9) || (m =? 11) then 30
  else 31.

Definition isDigit (c : ascii) : bool :=
  (48 <=? Z.of_nat (nat_of_ascii c)) && (Z.of_nat (nat_of_ascii c) <=? 57).

Definition digit (c : ascii) : Z := Z.of_nat (nat_of_ascii c) - 48.

(** The layout element [2006]: exactly four digits. *)
Definition getYear (value : string) : option (Z * string) :=
  match value with
  | String a (String b (String c (String d rest))) =>
      if isDigit a && isDigit b && isDigit c && isDigit d
      then Some (1000 * digit a + 100 * digit b + 10 * digit c + digit d, rest)
      else None
  | _ => None
  end.

(** [getnum(s, true)]: the layout elements [01] and [02], two digits. *)
Definition getnum (value : string) : option (Z * string) :=
  match value with
  | String a (String b rest) =>
      if isDigit a && isDigit b then Some (10 * digit a + digit b, rest) else None
  | _ => None
  end.

(** [skip(value, "-")]. *)
Definition skipDash (value : string) : option string :=
  match value with
  | String c rest => if Ascii.eqb c "-" then Some rest else None
  | EmptyString => None
  end.

Definition layout : string := "2006-01-02".

(** [time.Parse("2006-01-02", value)]. *)
Definition Parse (value : string) : Time + error :=
  let bad := inr (timeParseError layout value) in
  match getYear value with
  | None => bad
  | Some (year, v1) =>
  match skipDash v1 with
  | None => bad
  | Some v2 =>
  match getnum v2 with
  | None => bad
  | Some (month, v3) =>
  if (month <=? 0) || (12 <? month) then bad else
  match skipDash v3 with
  | None => bad
  | Some v4 =>
  match getnum v4 with
  | None => bad
  | Some (day, v5) =>
  match v5 with
  | String _ _ => bad
  | EmptyString =>
      if (day <? 1) || (daysIn month year <? day) then bad
      else inl (Date year month day)
  end end end end end end.

(** [t.AddDate(0, 0, 1)]: [Date(year, month, day+1, ...)], whose day
    overflow is normalised into the next month or year. *)
Definition AddDay (t : Time) : Time :=
  if Day t <? daysIn (Month t) (Year t) then Date (Year t) (Month t) (Day t + 1)
  else if Month t <? 12 then Date (Year t) (Month t + 1) 1
  else Date (Year t + 1) 1 1.

(** [appendInt(b, x, width)] for [0 <= x]: decimal, zero-padded. *)
Fixpoint zeros (n : nat) : string :=
  match n with O => "" | S n => "0" +:+ zeros n end.

Definition appendInt (x : Z) (width : nat) : string :=
  let s := Go.itoa x in zeros (width - String.length s) +:+ s.

(** [t.Format("2006-01-02")]. *)
Definition Format (t : Time) : string :=
  appendInt (Year t) 4 +:+ "-" +:+ appendInt (Month t) 2 +:+ "-" +:+ appendInt (Day t) 2.

(** The day number of a date: days since 0000-12-31 in the proleptic
    Gregorian calendar.  Used to state what adding a calendar day means. *)
Definition daysBefore (m : Z) (leap : bool) : Z :=
  match m with
  | 1 => 0 | 2 => 31 | 3 => 59 | 4 => 90 | 5 => 120 | 6 => 151 | 7 => 181
  | 8 => 212 | 9 => 243 | 10 => 273 | 11 => 304 | _ => 334
  end + (if leap && (2 <? m) then 1 else 0).

Definition dayNumber (t : Time) : Z :=
  let y := Year t - 1 in
  365 * y + y / 4 - y / 100 + y / 400 + daysBefore (Month t) (isLeap (Year t)) + Day t.

End time.

(** ** The parts of package [net/url] the handlers use *)

Module url.

Definition hexDigit (n : Z) : ascii :=
  ascii_of_nat (Z.to_nat (if n <? 10 then 48 + n else 55 + n)).

(** [shouldEscape(c, encodeQueryComponent)]: letters, digits and
    [-_.~] are kept. *)
Definition shouldEscape (c : ascii) : bool :=
  let n := Z.of_nat (nat_of_ascii c) in
  negb (((97 <=? n) && (n <=? 122)) || ((65 <=? n) && (n <=? 90))
        || ((48 <=? n) && (n <=? 57))
        || (n =? 45) || (n =? 95) || (n =? 46) || (n =? 126)).

Fixpoint QueryEscape (s : string) : string :=
  match s with
  | EmptyString => EmptyString
  | String c rest =>
      if Ascii.eqb c " " then String "+" (QueryEscape rest)
      else if shouldEscape c then
        let n := Z.of_nat (nat_of_ascii c) in
        String "%" (String (hexDigit (n / 16)) (String (hexDigit (n mod 16)) (QueryEscape rest)))
      else String c (QueryEscape rest)
  end.

(** [url.Values] as the handlers use it: built by [Set] alone, so one
    value per key.  The pairs are kept in key order, the order in which
    [Encode] emits them. *)
Definition Values : Type := list (string * string).

Fixpoint Set_ (v : Values) (key value : string) : Values :=
  match v with
  | [] => [(key, value)]
  | (k, x) :: rest =>
      if String.eqb k key then (key, value) :: rest
      else if String.ltb key k then (key, value) :: (k, x) :: rest
      else (k, x) :: Set_ rest key value
  end.

Fixpoint Encode (v : Values) : string :=
  match v with
  | [] => ""
  | [(k, x)] => QueryEscape k +:+ "=" +:+ QueryEscape x
  | (k, x) :: rest => QueryEscape k +:+ "=" +:+ QueryEscape x +:+ "&" +:+ Encode rest
  end.

End url.


(** ** types.go *)

Definition APIError_Error (e : APIError) : string :=
  "API error (status " +:+ Go.itoa (StatusCode e) +:+ "): " +:+ Body e.

(** [err.Error()].  The texts of the library errors are schematic. *)
Fixpoint Error (err : error) : string :=
  match err with
  | errorString msg => msg
  | wrapError prefix inner => prefix +:+ Error inner
  | apiError e => APIError_Error e
  | ioError msg => msg
  | jsonError json.SyntaxError => "invalid character in JSON input"
  | jsonError (json.UnmarshalTypeError value type field) =>
      "json: cannot unmarshal " +:+ value +:+ " into Go value of type " +:+ type
  | jsonError (json.UnmarshalerError msg) => msg
  | timeParseError layout value => "parsing time " +:+ value +:+ " as " +:+ layout
  end.

(** [errors.As(err, &apiErr)] with [apiErr] an [*APIError]: the first
    [*APIError] along the chain of wrapped errors. *)
Fixpoint asAPIError (err : error) : option APIError :=
  match err with
  | apiError e => Some e
  | wrapError _ inner => asAPIError inner
  | _ => None
  end.

Record UserInfo : Type := mkUserInfo {
  UserInfo_ID : Z;
  Email : string;
  Fullname : string;
  DefaultWorkspaceID : Z
}.

Section Entities.

(** [time.Time] as a field of the wire types: its values and its
    [UnmarshalJSON] are left to the instance. *)
Context {Timestamp : Type} `{json.Shape Timestamp}.

Record BaseEntity : Type := mkBaseEntity {
  ID : Z;
  WorkspaceID : Z;
  At : Timestamp
}.

Record TimeEntry : Type := mkTimeEntry {
  TimeEntry_Base : BaseEntity;
  ProjectID : option Z;
  Description : string;
  Start : Timestamp;
  Stop : option Timestamp;
  Duration : Z;
  Tags : list string;
  TagIDs : list Z
}.

Record Project : Type := mkProject {
  Project_Base : BaseEntity;
  Name : string;
  Active : bool;
  Color : string;
  ClientID : option Z
}.

Record TimeEntryRequest : Type := mkTimeEntryRequest {
  Req_Description : string;
  Req_Start : Timestamp;
  Req_Duration : Z;
  Req_ProjectID : option Z;
  Req_Tags : list string;
  CreatedWith : string
}.

Definition zeroBase : BaseEntity := mkBaseEntity 0 0 json.zero.

Definition setID (b : BaseEntity) (x : Z) := mkBaseEntity x (WorkspaceID b) (At b).
Definition setWorkspaceID (b : BaseEntity) (x : Z) := mkBaseEntity (ID b) x (At b).
Definition setAt (b : BaseEntity) (x : Timestamp) := mkBaseEntity (ID b) (WorkspaceID b) x.

Definition setEntryBase (e : TimeEntry) (b : BaseEntity) : TimeEntry :=
  mkTimeEntry b (ProjectID e) (Description e) (Start e) (Stop e) (Duration e) (Tags e) (TagIDs e).

Definition setProjectBase (p : Project) (b : BaseEntity) : Project :=
  mkProject b (Name p) (Active p) (Color p) (ClientID p).

(** The fields of the embedded [BaseEntity] are promoted: their keys
    sit beside the struct's own. *)
Definition TimeEntry_fields : list (json.Field TimeEntry) :=
  [ json.field "id" (fun e => ID (TimeEntry_Base e))
      (fun e x => setEntryBase e (setID (TimeEntry_Base e) x));
    json.field "workspace_id" (fun e => WorkspaceID (TimeEntry_Base e))
      (fun e x => setEntryBase e (setWorkspaceID (TimeEntry_Base e) x));
    json.field "at" (fun e => At (TimeEntry_Base e))
      (fun e x => setEntryBase e (setAt (TimeEntry_Base e) x));
    json.field "project_id" ProjectID
      (fun e x => mkTimeEntry (TimeEntry_Base e) x (Description e) (Start e) (Stop e)
                    (Duration e) (Tags e) (TagIDs e));
    json.field "description" Description
      (fun e x => mkTimeEntry (TimeEntry_Base e) (ProjectID e) x (Start e) (Stop e)
                    (Duration e) (Tags e) (TagIDs e));
    json.field "start" Start
      (fun e x => mkTimeEntry (TimeEntry_Base e) (ProjectID e) (Description e) x (Stop e)
                    (Duration e) (Tags e) (TagIDs e));
    json.field "stop" Stop
      (fun e x => mkTimeEntry (TimeEntry_Base e) (ProjectID e) (Description e) (Start e) x
                    (Duration e) (Tags e) (TagIDs e));
    json.field "duration" Duration
      (fun e x => mkTimeEntry (TimeEntry_Base e) (ProjectID e) (Description e) (Start e)
                    (Stop e) x (Tags e) (TagIDs e));
    json.field "tags" Tags
      (fun e x => mkTimeEntry (TimeEntry_Base e) (ProjectID e) (Description e) (Start e)
                    (Stop e) (Duration e) x (TagIDs e));
    json.field "tag_ids" TagIDs
      (fun e x => mkTimeEntry (TimeEntry_Base e) (ProjectID e) (Description e) (Start e)
                    (Stop e) (Duration e) (Tags e) x) ].

#[global] Instance ShapeTimeEntry : json.Shape TimeEntry := {
  zero := mkTimeEntry zeroBase None "" json.zero None 0 [] [];
  decode := json.decodeStruct "app.TimeEntry" TimeEntry_fields
}.

Definition Project_fields : list (json.Field Project) :=
  [ json.field "id" (fun p => ID (Project_Base p))
      (fun p x => setProjectBase p (setID (Project_Base p) x));
    json.field "workspace_id" (fun p => WorkspaceID (Project_Base p))
      (fun p x => setProjectBase p (setWorkspaceID (Project_Base p) x));
    json.field "at" (fun p => At (Project_Base p))
      (fun p x => setProjectBase p (setAt (Project_Base p) x));
    json.field "name" Name
      (fun p x => mkProject (Project_Base p) x (Active p) (Color p) (ClientID p));
    json.field "active" Active
      (fun p x => mkProject (Project_Base p) (Name p) x (Color p) (ClientID p));
    json.field "color" Color
      (fun p x => mkProject (Project_Base p) (Name p) (Active p) x (ClientID p));
    json.field "client_id" ClientID
      (fun p x => mkProject (Project_Base p) (Name p) (Active p) (Color p) x) ].

#[global] Instance ShapeProject : json.Shape Project := {
  zero := mkProject zeroBase "" false "" None;
  decode := json.decodeStruct "app.Project" Project_fields
}.

End Entities.

Arguments BaseEntity : clear implicits.
Arguments TimeEntry : clear implicits.
Arguments Project : clear implicits.
Arguments TimeEntryRequest : clear implicits.

Definition UserInfo_fields : list (json.Field UserInfo) :=
  [ json.field "id" UserInfo_ID
      (fun u x => mkUserInfo x (Email u) (Fullname u) (DefaultWorkspaceID u));
    json.field "email" Email
      (fun u x => mkUserInfo (UserInfo_ID u) x (Fullname u) (DefaultWorkspaceID u));
    json.field "fullname" Fullname
      (fun u x => mkUserInfo (UserInfo_ID u) (Email u) x (DefaultWorkspaceID u));
    json.field "default_workspace_id" DefaultWorkspaceID
      (fun u x => mkUserInfo (UserInfo_ID u) (Email u) (Fullname u) x) ].

#[global] Instance ShapeUserInfo : json.Shape UserInfo := {
  zero := mkUserInfo 0 "" "" 0;
  decode := json.decodeStruct "app.UserInfo" UserInfo_fields
}.

(** ** The collaborators: net/http, io, mcp *)

Module http.

Record Request : Type := mkRequest {
  Method : string;
  URL : string;
  Payload : option string;
  Header : list (string * string);
  BasicAuth : option (string * string)
}.

(** A response body as a reader: the bytes it delivers, and whether the
    stream then fails instead of ending. *)
Record ReadCloser : Type := mkBody { bytes : string; failure : option string }.

Record Response : Type := mkResponse { StatusCode : Z; Body : ReadCloser }.

Definition MethodGet : string := "GET".
Definition MethodPost : string := "POST".
Definition MethodPatch : string := "PATCH".
Definition StatusNotFound : Z := 404.

(** [req.Header.Set(key, value)]. *)
Definition SetHeader (req : Request) (key value : string) : Request :=
  mkRequest (Method req) (URL req) (Payload req)
    ((key, value) :: List.filter (fun kv => negb (String.eqb (fst kv) key)) (Header req))
    (BasicAuth req).

Definition SetBasicAuth (req : Request) (username password : string) : Request :=
  mkRequest (Method req) (URL req) (Payload req) (Header req) (Some (username, password)).

End http.

Module io.

(** [io.ReadAll]. *)
Definition ReadAll (r : http.ReadCloser) : string * option error :=
  (http.bytes r, option_map ioError (http.failure r)).

End io.

Module mcp.

Record CallToolResult : Type := mkResult { Content : list string; IsError : bool }.

Definition NewToolResultText (text : string) : CallToolResult := mkResult [text] false.
Definition NewToolResultError (text : string) : CallToolResult := mkResult [text] true.

End mcp.

(** ** client.go *)

Definition togglAPIBase : string := "https://api.track.toggl.com/api/v9".

(** The client.  Its [*http.Client] is what answers a request, given the
    requests already sent; the answer is a response or, when the round
    trip fails or the context is cancelled, an error. *)
Record TogglClient : Type := mkClient {
  APIToken : string;
  client : list http.Request -> http.Request -> http.Response + error
}.

(** What a tool call works on: the argument map of the request, a Go map
    and so shared with the caller; the requests sent so far; the records
    handed to the logger. *)
Record World : Type := mkWorld {
  arguments : gmap string Value;
  sent : list http.Request;
  logged : list (string * string)
}.

Definition setArguments (w : World) (a : gmap string Value) : World :=
  mkWorld a (sent w) (logged w).

(** What a handler returns: a pair of a [*mcp.CallToolResult] and an [error]. *)
Definition Result : Type := option mcp.CallToolResult * option error.

Definition hardError (err : error) : Result := (None, Some err).
Definition toolResult (r : mcp.CallToolResult) : Result := (Some r, None).

(** [decodeResponse[T]].  The deferred [Close] has no effect on the
    result. *)
Definition decodeResponse {T : Type} `{json.Shape T} (resp : http.Response) : T * option error :=
  let result : T := json.zero in
  let '(body, err) := io.ReadAll (http.Body resp) in
  match err with
  | Some err => (result, Some (wrapError "reading response body: " err))
  | None =>
      if (http.StatusCode resp <? 200) || (http.StatusCode resp >=? 300) then
        (result, Some (apiError (mkAPIError (http.StatusCode resp) body)))
      else
        let '(result, err) := json.Unmarshal body result in
        match err with
        | Some err => (result, Some (wrapError "decoding response: " (jsonError err)))
        | None => (result, None)
        end
  end.

(** The payload of [create_project]: a [map[string]interface{}] holding
    strings, a boolean and an [int]. *)
Inductive Scalar : Type :=
| SString (s : string)
| SBool (b : bool)
| SInt (z : Z).

Definition nl : string := String (ascii_of_nat 10) "".

Section App.

Context {Timestamp : Type} `{json.Shape Timestamp}.

(** [http.NewRequestWithContext] rejects some methods and URLs. *)
Variable requestError : string -> string -> option error.

(** The reading of the clock during the call, and the text of
    [time.Since(start).Round(time.Second)] under [%s]. *)
Variable now : Timestamp.
Variable sinceText : Timestamp -> Timestamp -> string.

(** [json.Marshal] on the two request payloads. *)
Variable marshalEntry : TimeEntryRequest Timestamp -> string * option error.
Variable marshalMap : gmap string Scalar -> string * option error.

Definition makeRequest (c : TogglClient) (method endpoint : string) (body : option string)
    (w : World) : (http.Response + error) * World :=
  match requestError method (togglAPIBase +:+ endpoint) with
  | Some err => (inr (wrapError "creating request: " err), w)
  | None =>
      let req := http.mkRequest method (togglAPIBase +:+ endpoint) body [] None in
      let req := http.SetHeader req "Content-Type" "application/json" in
      let req := http.SetBasicAuth req (APIToken c) "api_token" in
      let w' := mkWorld (arguments w) (sent w ++ [req]) (logged w ++ [(method, endpoint)]) in
      match client c (sent w) req with
      | inr err => (inr (wrapError "executing request: " err), w')
      | inl resp => (inl resp, w')
      end
  end.

(** The common tail of the handlers: an [*APIError] becomes a flagged
    result, any other decode failure a hard error.  (The source repeats
    these lines in each handler.) *)
Definition classify (flagged wrapped : string) (err : error) : Result :=
  match asAPIError err with
  | Some apiErr => toolResult (mcp.NewToolResultError (flagged +:+ APIError_Error apiErr))
  | None => hardError (wrapError wrapped err)
  end.

Definition handleTestConnection (c : TogglClient) (w : World) : Result * World :=
  let '(resp, w) := makeRequest c http.MethodGet "/me" None w in
  match resp with
  | inr err => (hardError (wrapError "connecting to Toggl API: " err), w)
  | inl resp =>
      let '(user, err) := decodeResponse (T := UserInfo) resp in
      match err with
      | Some err => (classify "Authentication failed: " "parsing user info: " err, w)
      | None =>
          (toolResult (mcp.NewToolResultText
             ("✅ Authentication successful!" +:+ nl +:+ "User: " +:+ Fullname user
              +:+ nl +:+ "Email: " +:+ Email user
              +:+ nl +:+ "Default Workspace ID: " +:+ Go.itoa (DefaultWorkspaceID user))), w)
      end
  end.

Definition handleStartTimeEntry (c : TogglClient) (w : World) : Result * World :=
  let '(description, err) := getRequiredString (arguments w) "description" in
  match err with
  | Some err => (hardError (wrapError "invalid description: " err), w)
  | None =>
  let '(workspaceID, err) := getRequiredNumber (arguments w) "workspace_id" in
  match err with
  | Some err => (hardError (wrapError "invalid workspace_id: " err), w)
  | None =>
  let entry :=
    mkTimeEntryRequest description now (-1)
      (getOptionalNumber (arguments w) "project_id") [] "toggl-mcp" in
  let '(payload, err) := marshalEntry entry in
  match err with
  | Some err => (hardError (wrapError "marshaling request: " err), w)
  | None =>
  let '(resp, w) :=
    makeRequest c http.MethodPost
      ("/workspaces/" +:+ Go.itoa workspaceID +:+ "/time_entries") (Some payload) w in
  match resp with
  | inr err => (hardError (wrapError "starting time entry: " err), w)
  | inl resp =>
  let '(result, err) := decodeResponse (T := TimeEntry Timestamp) resp in
  match err with
  | Some err => (classify "Failed to start time entry: " "decoding response: " err, w)
  | None =>
      (toolResult (mcp.NewToolResultText
         ("Started time entry: " +:+ Description result +:+ " (ID: "
          +:+ Go.itoa (ID (TimeEntry_Base result)) +:+ ")")), w)
  end end end end end.

Definition handleStopTimeEntry (c : TogglClient) (w : World) : Result * World :=
  let '(workspaceID, err) := getRequiredNumber (arguments w) "workspace_id" in
  match err with
  | Some err => (hardError (wrapError "invalid workspace_id: " err), w)
  | None =>
  let '(resp, w) := makeRequest c http.MethodGet "/me/time_entries/current" None w in
  match resp with
  | inr err => (hardError (wrapError "getting current time entry: " err), w)
  | inl resp =>
  if http.StatusCode resp =? http.StatusNotFound then
    (toolResult (mcp.NewToolResultText "No running time entry found"), w)
  else
  let '(current, err) := decodeResponse (T := TimeEntry Timestamp) resp in
  match err with
  | Some err => (hardError (wrapError "parsing current entry: " err), w)
  | None =>
  let '(stopResp, w) :=
    makeRequest c http.MethodPatch
      ("/workspaces/" +:+ Go.itoa workspaceID +:+ "/time_entries/"
       +:+ Go.itoa (ID (TimeEntry_Base current)) +:+ "/stop") None w in
  match stopResp with
  | inr err => (hardError (wrapError "stopping time entry: " err), w)
  | inl stopResp =>
  let '(_, err) := decodeResponse (T := TimeEntry Timestamp) stopResp in
  match err with
  | Some err => (classify "Failed to stop time entry: " "decoding stop response: " err, w)
  | None =>
      (toolResult (mcp.NewToolResultText
         ("Stopped time entry: " +:+ Description current +:+ " (ID: "
          +:+ Go.itoa (ID (TimeEntry_Base current)) +:+ ")")), w)
  end end end end end.

Definition handleGetCurrentTimeEntry (c : TogglClient) (w : World) : Result * World :=
  let '(resp, w) := makeRequest c http.MethodGet "/me/time_entries/current" None w in
  match resp with
  | inr err => (hardError (wrapError "getting current time entry: " err), w)
  | inl resp =>
  if http.StatusCode resp =? http.StatusNotFound then
    (toolResult (mcp.NewToolResultText "No running time entry found"), w)
  else
  let '(current, err) := decodeResponse (T := TimeEntry Timestamp) resp in
  match err with
  | Some err => (classify "Failed to get current entry: " "parsing response: " err, w)
  | None =>
      let duration := sinceText now (Start current) in
      (toolResult (mcp.NewToolResultText
         ("Current time entry: " +:+ Description current +:+ " (ID: "
          +:+ Go.itoa (ID (TimeEntry_Base current)) +:+ ", Running for: " +:+ duration +:+ ")")), w)
  end end.

(** One line of the listing of [get_time_entries]. *)
Definition entryLine (entry : TimeEntry Timestamp) : string :=
  let duration := formatDuration (Duration entry) in
  let projectInfo :=
    match ProjectID entry with
    | Some p => " (Project ID: " +:+ Go.itoa p +:+ ")"
    | None => ""
    end in
  "- " +:+ Description entry +:+ " (ID: " +:+ Go.itoa (ID (TimeEntry_Base entry)) +:+ ")"
  +:+ projectInfo +:+ " " +:+ duration +:+ nl.

Definition noEntriesText : string :=
  nl +:+ "No time entries found. This could be because:" +:+ nl
  +:+ "- No time entries exist in the specified date range" +:+ nl
  +:+ "- You need to specify a date range (start_date, end_date)" +:+ nl
  +:+ "- The default query only returns recent entries" +:+ nl.

(** The text written when no entry came back and both dates are the
    same non-empty string. *)
Definition sameDateText (startDate : string) : string :=
  nl +:+ "⚠️  LIKELY ISSUE: You used the same date for start_date and end_date!" +:+ nl
  +:+ "To get entries for " +:+ startDate +:+ ", use:" +:+ nl
  +:+ "  start_date: " +:+ startDate +:+ nl
  +:+ match time.Parse startDate with
      | inl date =>
          let nextDay := time.Format (time.AddDay date) in
          "  end_date: " +:+ nextDay +:+ nl
          +:+ "OR use the 'get_time_entries_for_day' tool with date: " +:+ startDate +:+ nl
      | inr _ => ""
      end.

Definition handleGetTimeEntries (c : TogglClient) (w : World) : Result * World :=
  let endpoint := "/me/time_entries" in
  let params : url.Values := [] in
  let startDate := getOptionalString (arguments w) "start_date" in
  let endDate := getOptionalString (arguments w) "end_date" in
  match (if String.eqb startDate "" then inl params
         else match time.Parse startDate with
              | inr err => inr (wrapError "invalid start_date format (use YYYY-MM-DD): " err)
              | inl _ => inl (url.Set_ params "start_date" startDate)
              end) with
  | inr err => (hardError err, w)
  | inl params =>
  match (if String.eqb endDate "" then inl params
         else match time.Parse endDate with
              | inr err => inr (wrapError "invalid end_date format (use YYYY-MM-DD): " err)
              | inl _ => inl (url.Set_ params "end_date" endDate)
              end) with
  | inr err => (hardError err, w)
  | inl params =>
  let endpoint :=
    match params with
    | [] => endpoint
    | _ :: _ => endpoint +:+ "?" +:+ url.Encode params
    end in
  let '(resp, w) := makeRequest c http.MethodGet endpoint None w in
  match resp with
  | inr err => (hardError (wrapError "getting time entries: " err), w)
  | inl resp =>
  let '(entries, err) := decodeResponse (T := list (TimeEntry Timestamp)) resp in
  match err with
  | Some err => (classify "Failed to get time entries: " "decoding response: " err, w)
  | None =>
      let header :=
        "Found " +:+ Go.itoa (Z.of_nat (List.length entries)) +:+ " time entries:" +:+ nl in
      let body :=
        match entries with
        | [] =>
            noEntriesText
            +:+ (if negb (String.eqb startDate "") && negb (String.eqb endDate "")
                    && String.eqb startDate endDate
                 then sameDateText startDate else "")
        | _ :: _ => String.concat "" (List.map entryLine entries)
        end in
      (toolResult (mcp.NewToolResultText (header +:+ body)), w)
  end end end end.

Definition handleGetTimeEntriesForDay (c : TogglClient) (w : World) : Result * World :=
  let '(date, err) := getRequiredString (arguments w) "date" in
  match err with
  | Some err => (hardError (wrapError "invalid date: " err), w)
  | None =>
  match time.Parse date with
  | inr err => (hardError (wrapError "invalid date format (use YYYY-MM-DD): " err), w)
  | inl startDate =>
      let endDate := time.AddDay startDate in
      let endDateStr := time.Format endDate in
      let w := setArguments w (<["start_date" := VString date]> (arguments w)) in
      let w := setArguments w (<["end_date" := VString endDateStr]> (arguments w)) in
      handleGetTimeEntries c w
  end end.

Definition handleCreateProject (c : TogglClient) (w : World) : Result * World :=
  let '(name, err) := getRequiredString (arguments w) "name" in
  match err with
  | Some err => (hardError (wrapError "invalid name: " err), w)
  | None =>
  let '(workspaceID, err) := getRequiredNumber (arguments w) "workspace_id" in
  match err with
  | Some err => (hardError (wrapError "invalid workspace_id: " err), w)
  | None =>
  let project : gmap string Scalar := {[ "name" := SString name; "active" := SBool true ]} in
  let color := getOptionalString (arguments w) "color" in
  let project := if String.eqb color "" then project else <["color" := SString color]> project in
  let project :=
    match getOptionalNumber (arguments w) "client_id" with
    | Some clientID => <["client_id" := SInt clientID]> project
    | None => project
    end in
  let '(payload, err) := marshalMap project in
  match err with
  | Some err => (hardError (wrapError "marshaling request: " err), w)
  | None =>
  let '(resp, w) :=
    makeRequest c http.MethodPost
      ("/workspaces/" +:+ Go.itoa workspaceID +:+ "/projects") (Some payload) w in
  match resp with
  | inr err => (hardError (wrapError "creating project: " err), w)
  | inl resp =>
  let '(result, err) := decodeResponse (T := Project Timestamp) resp in
  match err with
  | Some err => (classify "Failed to create project: " "decoding response: " err, w)
  | None =>
      (toolResult (mcp.NewToolResultText
         ("Created project: " +:+ Name result +:+ " (ID: "
          +:+ Go.itoa (ID (Project_Base result)) +:+ ")")), w)
  end end end end end.

Definition projectLine (project : Project Timestamp) : string :=
  let status := if Active project then "active" else "inactive" in
  "- " +:+ Name project +:+ " (ID: " +:+ Go.itoa (ID (Project_Base project)) +:+ ", "
  +:+ status +:+ ")" +:+ nl.

Definition handleGetProjects (c : TogglClient) (w : World) : Result * World :=
  let '(workspaceID, err) := getRequiredNumber (arguments w) "workspace_id" in
  match err with
  | Some err => (hardError (wrapError "invalid workspace_id: " err), w)
  | None =>
  let endpoint := "/workspaces/" +:+ Go.itoa workspaceID +:+ "/projects" in
  let params : url.Values := [] in
  let params :=
    match assertBool (arguments w !! "active") with
    | Some active => url.Set_ params "active" (Go.FormatBool active)
    | None => params
    end in
  let endpoint :=
    match params with
    | [] => endpoint
    | _ :: _ => endpoint +:+ "?" +:+ url.Encode params
    end in
  let '(resp, w) := makeRequest c http.MethodGet endpoint None w in
  match resp with
  | inr err => (hardError (wrapError "getting projects: " err), w)
  | inl resp =>
  let '(projects, err) := decodeResponse (T := list (Project Timestamp)) resp in
  match err with
  | Some err => (classify "Failed to get projects: " "decoding response: " err, w)
  | None =>
      (toolResult (mcp.NewToolResultText
         ("Found " +:+ Go.itoa (Z.of_nat (List.length projects)) +:+ " projects:" +:+ nl
          +:+ String.concat "" (List.map projectLine projects))), w)
  end end end.

(** The tools as [SetupTools] registers them. *)
Inductive Tool : Type :=
| test_connection | start_time_entry | stop_time_entry | get_current_time_entry
| get_time_entries | get_time_entries_for_day | create_project | get_projects.

Definition handler (t : Tool) : TogglClient -> World -> Result * World :=
  match t with
  | test_connection => handleTestConnection
  | start_time_entry => handleStartTimeEntry
  | stop_time_entry => handleStopTimeEntry
  | get_current_time_entry => handleGetCurrentTimeEntry
  | get_time_entries => handleGetTimeEntries
  | get_time_entries_for_day => handleGetTimeEntriesForDay
  | create_project => handleCreateProject
  | get_projects => handleGetProjects
  end.

End App.

(** ** Test doubles, after the package's tests *)

Module Fixture.

Definition quote : string := String (ascii_of_nat 34) "".

(** [q s] is [s] between double quotes. *)
Definition q (s : string) : string := quote +:+ s +:+ quote.

(** [testResponse] of [TestDecodeResponse]. *)
Record testResponse : Type := mkTestResponse { tr_ID : Z; tr_Name : string }.

#[global] Instance ShapeTestResponse : json.Shape testResponse := {
  zero := mkTestResponse 0 "";
  decode :=
    json.decodeStruct "app.testResponse"
      [ json.field "id" tr_ID (fun r x => mkTestResponse x (tr_Name r));
        json.field "name" tr_Name (fun r x => mkTestResponse (tr_ID r) x) ]
}.

(** A time stamp kept as its RFC 3339 text, taken as it comes. *)
Definition Timestamp : Type := string.

Definition respond (status : Z) (body : string) : http.Response :=
  http.mkResponse status (http.mkBody body None).

(** [testServer]: a client whose transport hands every request to
    [handler]. *)
Definition testServer (handler : http.Request -> http.Response) : TogglClient :=
  mkClient "test-token" (fun _ req => inl (handler req)).

Definition requestError (method url : string) : option error := None.
Definition now : Timestamp := "2025-01-15T10:00:00Z".
Definition sinceText (t start : Timestamp) : string := "30m0s".
Definition marshalEntry (e : TimeEntryRequest Timestamp) : string * option error := ("{}", None).
Definition marshalMap (m : gmap string Scalar) : string * option error := ("{}", None).

(** A call with the given arguments, nothing sent yet. *)
Definition call (args : gmap string Value) : World := mkWorld args [] [].

(** 42.7 and 456 as [float64]. *)
Definition f42_7 : Go.float64 := S754_finite false 6009490752772506 (-47).
Definition f456 : Go.float64 := S754_finite false 456 0.

(** A server that gives every request the same answer. *)
Definition always (status : Z) (body : string) : TogglClient :=
  testServer (fun _ => respond status body).

Definition workspaceCall : World := call {[ "workspace_id" := VFloat64 f456 ]}.

(** A well-formed body with id 123 and, for the name, the number 5
    where [testResponse] has a string. *)
Definition mismatchedBody : string :=
  "{" +:+ q "id" +:+ ": 123, " +:+ q "name" +:+ ": 5}".

(** A well-formed body with id 7 and [true] for the email. *)
Definition mismatchedUser : string :=
  "{" +:+ q "id" +:+ ": 7, " +:+ q "email" +:+ ": true}".

Definition badRequestBody : string :=
  "{" +:+ q "error" +:+ ": " +:+ q "Bad Request" +:+ "}".

Definition dayCall : World := call {[ "date" := VString "2025-01-31" ]}.

Definition sameDateCall : World :=
  call {[ "start_date" := VString "2025-01-15"; "end_date" := VString "2025-01-15" ]}.

Definition badDateCall : World := call {[ "start_date" := VString "15-01-2025" ]}.

Definition overriddenCall : World :=
  call {[ "date" := VString "2025-01-31"; "start_date" := VString "1999-01-01";
                  "limit" := VFloat64 f456 ]}.

Definition activeTextCall : World :=
  call {[ "workspace_id" := VFloat64 f456; "active" := VString "true" ]}.

End Fixture.

(** ** handlers.go: the tool registry *)

(** A tool as [mcp.NewTool] declares it: its name, its description and
    its parameters, each with a type and whether it is required. *)
Inductive ParamType : Type := PString | PNumber | PBoolean.

Record Property : Type := mkProperty {
  propName : string;
  propType : ParamType;
  propRequired : bool
}.

Record ToolDecl : Type := mkToolDecl {
  declName : string;
  declDescription : string;
  declProperties : list Property
}.

Definition WithString (name : string) (required : bool) : Property := mkProperty name PString required.
Definition WithNumber (name : string) (required : bool) : Property := mkProperty name PNumber required.
Definition WithBoolean (name : string) (required : bool) : Property := mkProperty name PBoolean required.

(** What the server calls for a tool: the handler, given the call. *)
Definition ToolHandler : Type := World -> Result * World.

(** The server's table of tools, keyed by name: [AddTool] stores under
    the tool's name, replacing what was there. *)
Definition AddTool (s : gmap string (ToolDecl * ToolHandler)) (tool : ToolDecl) (h : ToolHandler)
    : gmap string (ToolDecl * ToolHandler) :=
  <[declName tool := (tool, h)]> s.

Definition wrapHandler (client : TogglClient) (h : TogglClient -> World -> Result * World)
    : ToolHandler :=
  fun req => h client req.

Section Registry.

Context {Timestamp : Type} `{json.Shape Timestamp}.
Variable requestError : string -> string -> option error.
Variable now : Timestamp.
Variable sinceText : Timestamp -> Timestamp -> string.
Variable marshalEntry : TimeEntryRequest Timestamp -> string * option error.
Variable marshalMap : gmap string Scalar -> string * option error.

(** The table [tools] of [SetupTools]. *)
Definition tools (togglClient : TogglClient) : list (ToolDecl * ToolHandler) :=
  [ (mkToolDecl "test_connection" "Test the Toggl API connection and authentication" [],
     wrapHandler togglClient (handleTestConnection requestError));
    (mkToolDecl "start_time_entry" "Start a new time entry"
       [WithString "description" true; WithNumber "workspace_id" true;
        WithNumber "project_id" false],
     wrapHandler togglClient (handleStartTimeEntry requestError now marshalEntry));
    (mkToolDecl "stop_time_entry" "Stop the current running time entry"
       [WithNumber "workspace_id" true],
     wrapHandler togglClient (handleStopTimeEntry requestError));
    (mkToolDecl "get_current_time_entry" "Get the currently running time entry" [],
     wrapHandler togglClient (handleGetCurrentTimeEntry requestError now sinceText));
    (mkToolDecl "get_time_entries"
       "Get time entries with optional date filtering. Note: To get entries for a single day (e.g., July 9th), use start_date=2025-07-09 and end_date=2025-07-10. The API uses inclusive start, exclusive end date logic."
       [WithString "start_date" false; WithString "end_date" false],
     wrapHandler togglClient (handleGetTimeEntries requestError));
    (mkToolDecl "get_time_entries_for_day"
       "Get time entries for a specific day (automatically handles the date range correctly)"
       [WithString "date" true],
     wrapHandler togglClient (handleGetTimeEntriesForDay requestError));
    (mkToolDecl "create_project" "Create a new project"
       [WithString "name" true; WithNumber "workspace_id" true;
        WithString "color" false; WithNumber "client_id" false],
     wrapHandler togglClient (handleCreateProject requestError marshalMap));
    (mkToolDecl "get_projects" "Get projects in a workspace"
       [WithNumber "workspace_id" true; WithBoolean "active" false],
     wrapHandler togglClient (handleGetProjects requestError)) ].

(** [SetupTools]: every tool of the table is added, in order; there is
    no failure. *)
Definition SetupTools (s : gmap string (ToolDecl * ToolHandler)) (togglClient : TogglClient)
    : gmap string (ToolDecl * ToolHandler) * option error :=
  (fold_left (fun s t => AddTool s (fst t) (snd t)) (tools togglClient) s, None).

End Registry.

(** ** client.go: construction *)

Module construct.

(** The objects behind the pointers of the client: an [*http.Client] is
    an address in a store of [http.Client] values, of which the package
    touches the [Timeout]; a [*slog.Logger] is an address.  A nil
    pointer is [None]. *)
Record Client : Type := mkHTTPClient {
  Timeout : Z;           (* a [time.Duration], in nanoseconds *)
  Transport : positive   (* the other fields, which the package leaves alone *)
}.

Definition Second : Z := 1000000000.
Definition defaultTimeout : Z := 30 * Second.

Record TogglClient : Type := mkTogglClient {
  APIToken : string;
  client : option positive;
  logger : option positive
}.

(** A [ClientOption] acts on the client under construction and on the
    store; [None] is the panic of a nil dereference. *)
Definition ClientOption : Type :=
  TogglClient -> gmap positive Client -> option (TogglClient * gmap positive Client).

Definition WithHTTPClient (p : option positive) : ClientOption :=
  fun c h => Some (mkTogglClient (APIToken c) p (logger c), h).

Definition WithLogger (l : option positive) : ClientOption :=
  fun c h => Some (mkTogglClient (APIToken c) (client c) l, h).

Definition WithTimeout (timeout : Z) : ClientOption :=
  fun c h =>
    match client c with
    | None => None
    | Some p =>
        match h !! p with
        | Some obj => Some (c, <[p := mkHTTPClient timeout (Transport obj)]> h)
        | None => None
        end
    end.

Fixpoint applyOptions (opts : list ClientOption) (c : TogglClient) (h : gmap positive Client)
    : option (TogglClient * gmap positive Client) :=
  match opts with
  | [] => Some (c, h)
  | opt :: rest =>
      match opt c h with
      | Some (c', h') => applyOptions rest c' h'
      | None => None
      end
  end.

(** [NewTogglClient]: a fresh [http.Client] with the default timeout
    ([defaultTransport] stands for its zero fields), the default logger
    [slogDefault], then the options in order. *)
Definition NewTogglClient (defaultTransport : positive) (slogDefault : option positive)
    (apiToken : string) (opts : list ClientOption) (h : gmap positive Client)
    : option (TogglClient * gmap positive Client) :=
  let p := fresh (dom h) in
  let c := mkTogglClient apiToken (Some p) slogDefault in
  applyOptions opts c (<[p := mkHTTPClient defaultTimeout defaultTransport]> h).

(** The options the package offers. *)
Inductive Opt : Type :=
| OptHTTPClient (p : option positive)
| OptLogger (l : option positive)
| OptTimeout (timeout : Z).

Definition option_of (o : Opt) : ClientOption :=
  match o with
  | OptHTTPClient p => WithHTTPClient p
  | OptLogger l => WithLogger l
  | OptTimeout t => WithTimeout t
  end.

End construct.

(** ** The vocabulary of the properties *)

Definition isNumber (v : Value) : Prop := exists f, v = VFloat64 f.
Definition isString (v : Value) : Prop := exists s, v = VString s.

(** The rendering the documentation describes: hours, minutes and
    seconds between brackets, the hours left out when zero, the minutes
    too when both are zero. *)
Definition durationText (h m s : Z) : string :=
  "[" +:+ (if h =? 0 then "" else Go.itoa h +:+ "h ")
  +:+ (if (h =? 0) && (m =? 0) then "" else Go.itoa m +:+ "m ")
  +:+ Go.itoa s +:+ "s]".

Definition successStatus (status : Z) : Prop := 200 <= status < 300.

(** A decode error: what [json.Unmarshal] returned, wrapped. *)
Definition isDecodeError (err : error) : Prop :=
  exists e, err = wrapError "decoding response: " (jsonError e).

(** A body-read error: what the reader returned, wrapped. *)
Definition isReadError (err : error) : Prop :=
  exists msg, err = wrapError "reading response body: " (ioError msg).

(** The form YYYY-MM-DD: four digits, two digits, two digits, joined by
    dashes. *)
Definition hasDateForm (s : string) : bool :=
  match s with
  | String y1 (String y2 (String y3 (String y4 (String d1 (String m1 (String m2
      (String d2 (String e1 (String e2 EmptyString))))))))) =>
      time.isDigit y1 && time.isDigit y2 && time.isDigit y3 && time.isDigit y4
      && Ascii.eqb d1 "-" && time.isDigit m1 && time.isDigit m2
      && Ascii.eqb d2 "-" && time.isDigit e1 && time.isDigit e2
  | _ => false
  end.

(** The endpoint of [get_time_entries] with both dates. *)
Definition dateEndpoint (d e : string) : string :=
  "/me/time_entries?end_date=" +:+ e +:+ "&start_date=" +:+ d.

Definition noRunningEntry : Result :=
  (Some (mcp.mkResult ["No running time entry found"] false), None).

(** The map [get_time_entries_for_day] hands on. *)
Definition dayArguments (a : gmap string Value) (d : string) (t : time.Time) : gmap string Value :=
  <["end_date" := VString (time.Format (time.AddDay t))]> (<["start_date" := VString d]> a).

(** The text of the same-date warning, with the end date to use
    instead. *)
Definition sameDateWarning (d next : string) : string :=
  nl +:+ "⚠️  LIKELY ISSUE: You used the same date for start_date and end_date!" +:+ nl
  +:+ "To get entries for " +:+ d +:+ ", use:" +:+ nl
  +:+ "  start_date: " +:+ d +:+ nl
  +:+ "  end_date: " +:+ next +:+ nl
  +:+ "OR use the 'get_time_entries_for_day' tool with date: " +:+ d +:+ nl.

(** A service that answers every request, and refuses it: the status
    is a failure other than 404 and the body can be read. *)
Definition refusesAll (c : TogglClient) : Prop :=
  forall (history : list http.Request) (req : http.Request),
    exists resp, client c history req = inl resp /\
      http.failure (http.Body resp) = None /\
      ~ successStatus (http.StatusCode resp) /\
      http.StatusCode resp <> 404.

(** The result flagged as an error whose text holds the status and
    body of [a]. *)
Definition flaggedWith (r : Result) (a : APIError) : Prop :=
  exists prefix,
    r = (Some (mcp.mkResult
                 [prefix +:+ "API error (status " +:+ Go.itoa (StatusCode a) +:+ "): " +:+ Body a]
                 true), None).

(** The [APIError] that the answer to the first request of a call
    decodes to. *)
Definition firstRefusal (c : TogglClient) (w w' : World) (a : APIError) : Prop :=
  exists req resp, sent w' = (sent w ++ [req])%list /\
    client c (sent w) req = inl resp /\
    a = mkAPIError (http.StatusCode resp) (http.bytes (http.Body resp)).

(** The request [makeRequest] builds. *)
Definition builtRequest (c : TogglClient) (method endpoint : string) (body : option string)
    : http.Request :=
  http.SetBasicAuth
    (http.SetHeader (http.mkRequest method (togglAPIBase +:+ endpoint) body [] None)
       "Content-Type" "application/json")
    (APIToken c) "api_token".

(** A value fit for a declared parameter: a non-empty string, a number,
    a boolean. *)
Definition fits (ty : ParamType) (v : option Value) : bool :=
  match ty, v with
  | PString, Some (VString s) => negb (String.eqb s "")
  | PNumber, Some (VFloat64 _) => true
  | PBoolean, Some (VBool _) => true
  | _, _ => false
  end.

(** A transport on which every round trip fails. *)
Definition failsAll (c : TogglClient) : Prop :=
  forall (history : list http.Request) (req : http.Request),
    exists err, client c history req = inr err.

(** A service that answers every request with a success status and a
    body that is not JSON. *)
Definition garblesAll (c : TogglClient) : Prop :=
  forall (history : list http.Request) (req : http.Request),
    exists resp, client c history req = inl resp /\
      http.failure (http.Body resp) = None /\
      successStatus (http.StatusCode resp) /\
      json.parse (http.bytes (http.Body resp)) = None.

(** A service that answers every request with a failure status, 404
    included, and a body that can be read. *)
Definition rejectsAll (c : TogglClient) : Prop :=
  forall (history : list http.Request) (req : http.Request),
    exists resp, client c history req = inl resp /\
      http.failure (http.Body resp) = None /\
      ~ successStatus (http.StatusCode resp).

(** What [makeRequest] adds to the world for the requests [new]: the
    requests themselves, each one built by the client, and one log
    record for each, holding its method and endpoint. *)
Definition requestsAdded (c : TogglClient) (w w' : World) (new : list http.Request) : Prop :=
  sent w' = (sent w ++ new)%list /\
  exists calls : list (string * string * option string),
    new = map (fun m => builtRequest c (fst (fst m)) (snd (fst m)) (snd m)) calls /\
    logged w' = (logged w ++ map fst calls)%list.

(** The most requests a tool sends. *)
Definition maxRequests (name : string) : nat :=
  if String.eqb name "stop_time_entry" then 2%nat else 1%nat.

(** The map [create_project] marshals. *)
Definition projectPayload (a : gmap string Value) (name : string) : gmap string Scalar :=
  let project : gmap string Scalar := {[ "name" := SString name; "active" := SBool true ]} in
  let color := getOptionalString a "color" in
  let project := if String.eqb color "" then project else <["color" := SString color]> project in
  match getOptionalNumber a "client_id" with
  | Some clientID => <["client_id" := SInt clientID]> project
  | None => project
  end.

(** The entry [start_time_entry] marshals. *)
Definition startPayload {Timestamp : Type} (a : gmap string Value) (description : string)
    (now : Timestamp) : TimeEntryRequest Timestamp :=
  mkTimeEntryRequest description now (-1) (getOptionalNumber a "project_id") [] "toggl-mcp".

(** A date absent for [get_time_entries]: no entry, an entry that is not
    a string, or the empty string. *)
Definition noDate (a : gmap string Value) (key : string) : Prop :=
  getOptionalString a key = "".

(** A date of the calendar: a month of the year and a day of that
    month. *)
Definition isCalendarDate (t : time.Time) : Prop :=
  1 <= time.Month t <= 12 /\
  1 <= time.Day t <= time.daysIn (time.Month t) (time.Year t).

(** [t'] is [t] plus one calendar day: the date of the calendar whose
    day number is the next one. *)
Definition nextCalendarDay (t t' : time.Time) : Prop :=
  isCalendarDate t' /\ time.dayNumber t' = time.dayNumber t + 1.

(** [z] is the float [f] truncated toward zero: the integer of the
    sign of [f] with [|z| <= |f| < |z| + 1], where a finite [f] is
    (-1)^s * m * 2^e.  NaN and the infinities have no truncation. *)
Definition truncatedTowardZero (f : Go.float64) (z : Z) : Prop :=
  match f with
  | S754_zero _ => z = 0
  | S754_finite s m e =>
      (if s then z <= 0 else 0 <= z) /\
      (if 0 <=? e then Z.abs z <= Z.pos m * 2 ^ e < Z.abs z + 1
       else Z.abs z * 2 ^ (- e) <= Z.pos m < (Z.abs z + 1) * 2 ^ (- e))
  | S754_infinity _ | S754_nan => False
  end.

(** A float that is a number: zero or finite. *)
Definition isFinite (f : Go.float64) : Prop :=
  match f with
  | S754_zero _ | S754_finite _ _ _ => True
  | S754_infinity _ | S754_nan => False
  end.

(** The endpoints of [stop_time_entry]. *)
Definition stopEndpoint (workspaceID entryID : Z) : string :=
  "/workspaces/" +:+ Go.itoa workspaceID +:+ "/time_entries/" +:+ Go.itoa entryID +:+ "/stop".

Definition currentEndpoint : string := "/me/time_entries/current".

(** The ten digits, and the digit of a number below ten. *)
Definition digitChars : list ascii :=
  ["0"; "1"; "2"; "3"; "4"; "5"; "6"; "7"; "8"; "9"]%char.

Definition digitChar (n : Z) : ascii := ascii_of_nat (Z.to_nat (48 + n)).

(** The logger and the client the options choose: the last one given,
    or the default. *)
Fixpoint chosenLogger (os : list construct.Opt) (l : option positive) : option positive :=
  match os with
  | [] => l
  | construct.OptLogger l' :: rest => chosenLogger rest l'
  | _ :: rest => chosenLogger rest l
  end.

Fixpoint chosenClient (os : list construct.Opt) (p : option positive) : option positive :=
  match os with
  | [] => p
  | construct.OptHTTPClient p' :: rest => chosenClient rest p'
  | _ :: rest => chosenClient rest p
  end.

(** The clients handed in by [WithHTTPClient]. *)
Fixpoint passedClients (os : list construct.Opt) : list positive :=
  match os with
  | [] => []
  | construct.OptHTTPClient (Some p) :: rest => p :: passedClients rest
  | _ :: rest => passedClients rest
  end.

(** ** Further test doubles *)

Module Scenario.

(** The tools of a client, with the doubles of [Fixture]. *)
Definition toolsOf (c : TogglClient) : list (ToolDecl * ToolHandler) :=
  tools (Timestamp := Fixture.Timestamp) Fixture.requestError Fixture.now Fixture.sinceText
    Fixture.marshalEntry Fixture.marshalMap c.

(** A client whose transport fails on every round trip. *)
Definition unreachable : TogglClient :=
  mkClient "test-token" (fun _ _ => inr (errorString "connection refused")).

(** The body of a time entry with id 789, as the handlers' tests serve
    it. *)
Definition entryBody : string :=
  "{" +:+ Fixture.q "id" +:+ ": 789, " +:+ Fixture.q "description" +:+ ": "
  +:+ Fixture.q "Test task" +:+ ", " +:+ Fixture.q "start" +:+ ": "
  +:+ Fixture.q "2025-01-15T09:30:00Z" +:+ ", " +:+ Fixture.q "duration" +:+ ": -1}".

(** The entry that body decodes to. *)
Definition runningEntry : TimeEntry Fixture.Timestamp :=
  mkTimeEntry (mkBaseEntity 789 0 "") None "Test task" "2025-01-15T09:30:00Z" None (-1) [] [].

(** A server with a running entry that cannot be stopped any more: the
    lookup finds it, the stop request is answered 404. *)
Definition goneOnStop : TogglClient :=
  Fixture.testServer (fun req =>
    if String.eqb (http.Method req) "GET" then Fixture.respond 200 entryBody
    else Fixture.respond 404 "Not Found").

Definition startCall : World :=
  Fixture.call {[ "description" := VString "Test task"; "workspace_id" := VFloat64 Fixture.f456 ]}.

Definition projectCall : World :=
  Fixture.call {[ "name" := VString "Test Project"; "workspace_id" := VFloat64 Fixture.f456 ]}.

Definition activeCall : World :=
  Fixture.call {[ "workspace_id" := VFloat64 Fixture.f456; "active" := VBool true ]}.

Definition lastDayCall : World := Fixture.call {[ "date" := VString "9999-12-31" ]}.

(** A response whose body fails to be read, as the [errorReader] of the
    client's tests makes it. *)
Definition unreadable (status : Z) : http.Response :=
  http.mkResponse status (http.mkBody "" (Some "read error")).

(** 1e19, beyond the largest [int], and -42.7. *)
Definition f1e19 : Go.float64 := S754_finite false 19073486328125 19.
Definition fMinus42_7 : Go.float64 := S754_finite true 6009490752772506 (-47).

(** 20250115 as a [float64]: a date given as a number. *)
Definition f20250115 : Go.float64 := S754_finite false 20250115 0.

Definition numberDateCall : World := Fixture.call {[ "start_date" := VFloat64 f20250115 ]}.

Definition yearEndCall : World := Fixture.call {[ "date" := VString "2025-12-31" ]}.

End Scenario.

(** * Properties *)

(** ** Helpers *)

Lemma append_assoc (a b c : string) : (a +:+ b) +:+ c = a +:+ b +:+ c.
Proof. induction a as [|x a IH]; [reflexivity | exact (f_equal (String x) IH)]. Qed.

Lemma append_nil_r (a : string) : a +:+ "" = a.
Proof. induction a as [|x a IH]; [reflexivity | exact (f_equal (String x) IH)]. Qed.

(** ** Parameter extraction *)

(** [trunc] discards the fraction: its result lies between zero and the
    value of the float, less than one away from it. *)
Lemma trunc_toward_zero (s : bool) (m : positive) (e : Z) :
  exists z, Go.trunc (S754_finite s m e) = Some z /\
    (0 <= e -> Z.abs z = Z.pos m * 2 ^ e) /\
    (e < 0 -> Z.abs z * 2 ^ (- e) <= Z.pos m < (Z.abs z + 1) * 2 ^ (- e)) /\
    (if s then z <= 0 else 0 <= z).
Proof.
  unfold Go.trunc. destruct (Z.leb_spec 0 e) as [He|He].
  - exists (if s then - (Z.pos m * 2 ^ e) else Z.pos m * 2 ^ e).
    assert (0 < 2 ^ e) by (apply Z.pow_pos_nonneg; lia).
    destruct s; repeat split; try lia; nia.
  - set (d := 2 ^ (- e)). assert (Hd : 0 < d) by (apply Z.pow_pos_nonneg; lia).
    exists (if s then - (Z.pos m / d) else Z.pos m / d).
    assert (Hq : 0 <= Z.pos m / d) by (apply Z.div_pos; lia).
    pose proof (Z.mul_div_le (Z.pos m) d Hd) as Hlo.
    pose proof (Z.mul_succ_div_gt (Z.pos m) d Hd) as Hhi.
    destruct s; repeat split; try lia;
      intros _; rewrite ?Z.abs_opp, Z.abs_eq by lia; nia.
Qed.

Lemma getRequiredNumber_number (params : gmap string Value) (key : string) (f : Go.float64) :
  params !! key = Some (VFloat64 f) ->
  getRequiredNumber params key = (Go.int_of_float64 f, None).
Proof. intros Hk. unfold getRequiredNumber. now rewrite Hk. Qed.

Lemma getRequiredNumber_other (params : gmap string Value) (key : string) :
  (forall f, params !! key <> Some (VFloat64 f)) ->
  getRequiredNumber params key = (0, Some (errorString (key +:+ " must be a number"))).
Proof.
  intros Hk. unfold getRequiredNumber.
  destruct (params !! key) as [[]|]; try reflexivity. now destruct (Hk f).
Qed.

Lemma getRequiredString_string (params : gmap string Value) (key s : string) :
  params !! key = Some (VString s) -> s <> "" ->
  getRequiredString params key = (s, None).
Proof.
  intros Hk Hs. unfold getRequiredString. rewrite Hk. cbn.
  now destruct (String.eqb_spec s "").
Qed.

Lemma getRequiredString_other (params : gmap string Value) (key : string) :
  (forall s, params !! key = Some (VString s) -> s = "") ->
  getRequiredString params key = ("", Some (errorString (key +:+ " must be a non-empty string"))).
Proof.
  intros Hk. unfold getRequiredString.
  destruct (params !! key) as [[]|]; try reflexivity. cbn.
  destruct (String.eqb_spec s ""); [reflexivity|]. now specialize (Hk s eq_refl).
Qed.

(** The value under a key is a number, or the key is absent, null or
    holds something else. *)
Lemma number_or_not (params : gmap string Value) (key : string) :
  (exists f, params !! key = Some (VFloat64 f)) \/
  (forall f, params !! key <> Some (VFloat64 f)).
Proof. destruct (params !! key) as [[]|]; eauto; right; congruence. Qed.

Lemma string_or_not (params : gmap string Value) (key : string) :
  (exists s, params !! key = Some (VString s) /\ s <> "") \/
  (forall s, params !! key = Some (VString s) -> s = "").
Proof.
  destruct (params !! key) as [[| | |s| |]|]; try (right; congruence).
  destruct (String.eqb_spec s ""); [right; congruence | left; eauto].
Qed.

(** What [trunc] returns is the truncation toward zero, and the only
    one. *)
Lemma trunc_truncates (f : Go.float64) (z : Z) :
  Go.trunc f = Some z -> truncatedTowardZero f z.
Proof.
  destruct f as [s|s| |s m e]; try discriminate.
  - intros [= <-]. reflexivity.
  - destruct (trunc_toward_zero s m e) as (z' & Ht & Hpos & Hneg & Hsign).
    rewrite Ht. intros [= <-]. cbn. split; [exact Hsign|].
    destruct (Z.leb_spec 0 e) as [He|He]; [rewrite (Hpos He); lia | exact (Hneg He)].
Qed.

Lemma truncation_unique (f : Go.float64) (z : Z) :
  truncatedTowardZero f z -> Go.trunc f = Some z.
Proof.
  destruct f as [s|s| |s m e]; cbn [truncatedTowardZero]; try contradiction.
  - intros ->. reflexivity.
  - intros [Hsign Hz]. unfold Go.trunc. f_equal.
    destruct (Z.leb_spec 0 e) as [He|He].
    + destruct s; lia.
    + set (d := 2 ^ (- e)) in *. assert (Hd : 0 < d) by (apply Z.pow_pos_nonneg; lia).
      assert (Hq : Z.pos m / d = Z.abs z).
      { symmetry. apply (Z.div_unique_pos (Z.pos m) d (Z.abs z) (Z.pos m - d * Z.abs z)); nia. }
      rewrite Hq. destruct s; lia.
Qed.

Lemma truncation_exists (f : Go.float64) :
  isFinite f -> exists z, truncatedTowardZero f z.
Proof.
  destruct f as [s|s| |s m e]; cbn [isFinite]; try contradiction; intros _.
  - exists 0. reflexivity.
  - destruct (trunc_toward_zero s m e) as (z & Ht & _). exists z. now apply trunc_truncates.
Qed.

(** C7, as the code has it.  [getRequiredNumber] fails, naming the
    field, exactly when the key is absent, null or holds something that
    is not a number; for every number it succeeds.  What it returns is
    the number truncated toward zero whenever the truncation fits an
    [int], zero included; when the truncation lies outside the range of
    [int] the call succeeds all the same, with the smallest [int].
    [getRequiredString] fails exactly when the key is absent, null, not a
    string or the empty string; otherwise it returns the string. *)
Theorem required_parameters (params : gmap string Value) (key : string) :
  (snd (getRequiredNumber params key) <> None <->
     params !! key = None \/ params !! key = Some VNil \/
     exists v, params !! key = Some v /\ ~ isNumber v) /\
  (snd (getRequiredNumber params key) <> None ->
     getRequiredNumber params key = (0, Some (errorString (key +:+ " must be a number")))) /\
  (forall f, params !! key = Some (VFloat64 f) ->
     getRequiredNumber params key = (Go.int_of_float64 f, None) /\
     (isFinite f -> exists z, truncatedTowardZero f z) /\
     (forall z, truncatedTowardZero f z -> Go.minInt <= z <= Go.maxInt ->
        getRequiredNumber params key = (z, None)) /\
     (forall z, truncatedTowardZero f z -> ~ Go.minInt <= z <= Go.maxInt ->
        getRequiredNumber params key = (Go.minInt, None)) /\
     (forall z, Go.trunc f = Some z -> Go.inInt z = true -> Go.int_of_float64 f = z)) /\
  (forall s, params !! key = Some (VFloat64 (S754_zero s)) ->
     getRequiredNumber params key = (0, None)) /\
  (snd (getRequiredString params key) <> None <->
     params !! key = None \/ params !! key = Some VNil \/
     (exists v, params !! key = Some v /\ ~ isString v) \/
     params !! key = Some (VString "")) /\
  (snd (getRequiredString params key) <> None ->
     getRequiredString params key
     = ("", Some (errorString (key +:+ " must be a non-empty string")))) /\
  (forall s, params !! key = Some (VString s) -> s <> "" ->
     getRequiredString params key = (s, None)).
Proof.
  split; [|split; [|split; [|split; [|split; [|split]]]]].
  - destruct (number_or_not params key) as [[f Hf]|Hn].
    + rewrite (getRequiredNumber_number _ _ _ Hf). cbn. split; [congruence|].
      intros [Hk|[Hk|(v & Hk & Hv)]]; try congruence.
      rewrite Hf in Hk. injection Hk as <-. destruct Hv. now exists f.
    + rewrite (getRequiredNumber_other _ _ Hn). cbn. split; [intros _|congruence].
      destruct (params !! key) as [v|] eqn:Hk; [|now left].
      right; right. exists v. split; [reflexivity|]. intros [f ->]. now apply (Hn f).
  - destruct (number_or_not params key) as [[f Hf]|Hn].
    + rewrite (getRequiredNumber_number _ _ _ Hf). cbn. congruence.
    + intros _. now apply getRequiredNumber_other.
  - intros f Hf. rewrite (getRequiredNumber_number _ _ _ Hf).
    split; [reflexivity|]. split; [apply truncation_exists|]. split; [|split].
    + intros z Hz Hin. apply truncation_unique in Hz.
      unfold Go.int_of_float64. rewrite Hz.
      replace (Go.inInt z) with true; [reflexivity|].
      symmetry. unfold Go.inInt. apply andb_true_iff. lia.
    + intros z Hz Hout. apply truncation_unique in Hz.
      unfold Go.int_of_float64. rewrite Hz.
      replace (Go.inInt z) with false; [reflexivity|].
      symmetry. unfold Go.inInt. apply andb_false_iff. lia.
    + intros z Ht Hz. unfold Go.int_of_float64. now rewrite Ht, Hz.
  - intros s Hs. now rewrite (getRequiredNumber_number _ _ _ Hs).
  - destruct (string_or_not params key) as [(s & Hs & Hne)|Hn].
    + rewrite (getRequiredString_string _ _ _ Hs Hne). cbn. split; [congruence|].
      intros [Hk|[Hk|[(v & Hk & Hv)|Hk]]]; try congruence.
      rewrite Hs in Hk. injection Hk as <-. destruct Hv. now exists s.
    + rewrite (getRequiredString_other _ _ Hn). cbn. split; [intros _|congruence].
      destruct (params !! key) as [v|] eqn:Hk; [|now left].
      destruct v as [| | |s| |];
        try (right; right; left; eexists; split; [reflexivity|]; intros [? ?]; discriminate);
        try (right; now left).
      right; right; right. now rewrite (Hn s eq_refl).
  - destruct (string_or_not params key) as [(s & Hs & Hne)|Hn].
    + rewrite (getRequiredString_string _ _ _ Hs Hne). cbn. congruence.
    + intros _. now apply getRequiredString_other.
  - intros s Hs Hne. now apply getRequiredString_string.
Qed.

(** C7, as stated, fails: a number whose truncation does not fit an
    [int] is accepted, and what is returned is not the truncated value.
    For 1e19 under [workspace_id] the truncation is 10^19 and the call
    returns the smallest [int], with no error. *)
Lemma required_number_truncation_counterexample :
  ~ (forall (params : gmap string Value) (key : string) (f : Go.float64) (z : Z),
       params !! key = Some (VFloat64 f) -> truncatedTowardZero f z ->
       getRequiredNumber params key = (z, None)).
Proof.
  intros Hall.
  specialize (Hall {[ "workspace_id" := VFloat64 Scenario.f1e19 ]} "workspace_id"
                Scenario.f1e19 (10 ^ 19) eq_refl).
  assert (Ht : truncatedTowardZero Scenario.f1e19 (10 ^ 19))
    by (split; [vm_compute; discriminate | vm_compute; split; [discriminate | reflexivity]]).
  specialize (Hall Ht).
  assert (Hv : getRequiredNumber {[ "workspace_id" := VFloat64 Scenario.f1e19 ]} "workspace_id"
               = (-9223372036854775808, None)) by (vm_compute; reflexivity).
  rewrite Hv in Hall. discriminate Hall.
Qed.

Example getRequiredNumber_beyond_int :
  getRequiredNumber {[ "workspace_id" := VFloat64 Scenario.f1e19 ]} "workspace_id"
  = (-9223372036854775808, None).
Proof. vm_compute. reflexivity. Qed.

(** Toward zero, not downward: -42.7 gives -42. *)
Example getRequiredNumber_negative :
  getRequiredNumber {[ "offset" := VFloat64 Scenario.fMinus42_7 ]} "offset" = (-42, None).
Proof. vm_compute. reflexivity. Qed.


(** ** Duration formatting *)

Lemma duration_parts (seconds : Z) :
  0 <= seconds ->
  0 <= seconds ÷ 3600 /\
  0 <= Z.rem seconds 3600 ÷ 60 < 60 /\
  0 <= Z.rem seconds 60 < 60 /\
  seconds = 3600 * (seconds ÷ 3600) + 60 * (Z.rem seconds 3600 ÷ 60) + Z.rem seconds 60.
Proof.
  intros Hs.
  rewrite !Z.quot_div_nonneg, !Z.rem_mod_nonneg by
    (try lia; rewrite ?Z.rem_mod_nonneg by lia; apply Z.mod_pos_bound; lia).
  Z.div_mod_to_equations. lia.
Qed.

(** C8. A negative duration reads "[running]"; any other reads its
    hours, minutes and seconds, got by truncating division by 3600 and
    60, with the leading zero components left out and the seconds always
    there. *)
Theorem formatDuration_spec (seconds : Z) :
  (seconds < 0 -> formatDuration seconds = "[running]") /\
  (0 <= seconds ->
     let h := seconds ÷ 3600 in
     let m := Z.rem seconds 3600 ÷ 60 in
     let s := Z.rem seconds 60 in
     formatDuration seconds = durationText h m s /\
     seconds = 3600 * h + 60 * m + s /\ 0 <= h /\ 0 <= m < 60 /\ 0 <= s < 60) /\
  formatDuration (-1) = "[running]" /\
  formatDuration 0 = "[0s]" /\
  formatDuration 60 = "[1m 0s]" /\
  formatDuration 3600 = "[1h 0m 0s]" /\
  formatDuration 3665 = "[1h 1m 5s]" /\
  formatDuration 90061 = "[25h 1m 1s]".
Proof.
  split; [|split; [|repeat split; reflexivity]].
  - intros Hs. unfold formatDuration. now destruct (Z.ltb_spec seconds 0); [|lia].
  - intros Hs h m s.
    destruct (duration_parts seconds Hs) as (Hh & Hm & Hsec & Hsum).
    fold h m s in Hh, Hm, Hsec, Hsum.
    split; [|repeat split; lia].
    unfold formatDuration, durationText. fold h m s.
    destruct (Z.ltb_spec seconds 0); [lia|].
    destruct (Z.ltb_spec 0 h), (Z.eqb_spec h 0); try lia; cbn [andb].
    + now rewrite !append_assoc.
    + destruct (Z.ltb_spec 0 m), (Z.eqb_spec m 0); try lia; cbn [andb].
      * now rewrite !append_assoc.
      * reflexivity.
Qed.

Lemma formatDuration_spec_witness :
  formatDuration 3665 = durationText 1 1 5 /\ formatDuration (-7) = "[running]".
Proof.
  split.
  - apply (proj1 (proj1 (proj2 (formatDuration_spec 3665)) ltac:(lia))).
  - apply (proj1 (formatDuration_spec (-7))). lia.
Defined.

Lemma required_parameters_witness :
  getRequiredNumber {[ "count" := VFloat64 Fixture.f42_7 ]} "count" = (42, None) /\
  getRequiredString {[ "name" := VString "test" ]} "name" = ("test", None) /\
  getRequiredNumber {[ "count" := VString "42" ]} "count"
  = (0, Some (errorString "count must be a number")) /\
  getRequiredNumber {[ "offset" := VFloat64 Scenario.fMinus42_7 ]} "offset" = (-42, None) /\
  getRequiredNumber {[ "workspace_id" := VFloat64 Scenario.f1e19 ]} "workspace_id"
  = (Go.minInt, None).
Proof.
  split; [|split; [|split; [|split]]].
  - destruct (required_parameters {[ "count" := VFloat64 Fixture.f42_7 ]} "count")
      as (_ & _ & H & _).
    destruct (H Fixture.f42_7 eq_refl) as (_ & _ & H2 & _).
    apply (H2 42).
    + split; [intros E; discriminate E|]. split; [intros E; discriminate E | reflexivity].
    + split; intros E; discriminate E.
  - destruct (required_parameters {[ "name" := VString "test" ]} "name")
      as (_ & _ & _ & _ & _ & _ & H).
    apply H; [reflexivity | discriminate].
  - destruct (required_parameters {[ "count" := VString "42" ]} "count")
      as (_ & H & _).
    apply H. cbn. discriminate.
  - destruct (required_parameters {[ "offset" := VFloat64 Scenario.fMinus42_7 ]} "offset")
      as (_ & _ & H & _).
    destruct (H Scenario.fMinus42_7 eq_refl) as (_ & _ & H2 & _).
    apply (H2 (-42)).
    + split; [intros E; discriminate E|]. split; [intros E; discriminate E | reflexivity].
    + split; intros E; discriminate E.
  - destruct (required_parameters {[ "workspace_id" := VFloat64 Scenario.f1e19 ]} "workspace_id")
      as (_ & _ & H & _).
    destruct (H Scenario.f1e19 eq_refl) as (_ & _ & _ & H3 & _).
    apply (H3 (10 ^ 19)).
    + split; [intros E; discriminate E|]. split; [intros E; discriminate E | reflexivity].
    + intros [_ Hle]. apply Hle. reflexivity.
Defined.

(** ** The response decoder *)

Section Decoder.

Context {T : Type} `{json.Shape T}.

Lemma status_test (status : Z) :
  (status <? 200) || (status >=? 300) = false <-> successStatus status.
Proof. unfold successStatus. rewrite orb_false_iff. lia. Qed.

Lemma decodeResponse_read_error (resp : http.Response) (msg : string) :
  http.failure (http.Body resp) = Some msg ->
  decodeResponse (T := T) resp
  = (json.zero, Some (wrapError "reading response body: " (ioError msg))).
Proof. intros Hr. unfold decodeResponse, io.ReadAll. now rewrite Hr. Qed.

Lemma decodeResponse_api_error (resp : http.Response) :
  http.failure (http.Body resp) = None ->
  ~ successStatus (http.StatusCode resp) ->
  decodeResponse (T := T) resp
  = (json.zero,
     Some (apiError (mkAPIError (http.StatusCode resp) (http.bytes (http.Body resp))))).
Proof.
  intros Hr Hs. unfold decodeResponse, io.ReadAll. rewrite Hr. cbn.
  destruct ((http.StatusCode resp <? 200) || (http.StatusCode resp >=? 300)) eqn:E;
    [reflexivity|]. now apply status_test in E.
Qed.

Lemma decodeResponse_success_status (resp : http.Response) :
  http.failure (http.Body resp) = None ->
  successStatus (http.StatusCode resp) ->
  decodeResponse (T := T) resp
  = match json.Unmarshal (http.bytes (http.Body resp)) json.zero with
    | (v, Some e) => (v, Some (wrapError "decoding response: " (jsonError e)))
    | (v, None) => (v, None)
    end.
Proof.
  intros Hr Hs. unfold decodeResponse, io.ReadAll. rewrite Hr. cbn.
  apply status_test in Hs. rewrite Hs.
  now destruct (json.Unmarshal _ _) as [v [e|]].
Qed.

(** The three ways a response is decoded. *)
Lemma decodeResponse_cases (resp : http.Response) :
  (exists msg, http.failure (http.Body resp) = Some msg) \/
  (http.failure (http.Body resp) = None /\ ~ successStatus (http.StatusCode resp)) \/
  (http.failure (http.Body resp) = None /\ successStatus (http.StatusCode resp)).
Proof.
  destruct (http.failure (http.Body resp)) as [msg|]; [left; eauto|right].
  unfold successStatus.
  destruct (Z_lt_ge_dec (http.StatusCode resp) 200); [left; split; [reflexivity|lia]|].
  destruct (Z_lt_ge_dec (http.StatusCode resp) 300); [right|left]; split; auto; lia.
Qed.

(** C3, as the code has it.  The body is read before the status is
    looked at.  A response read to its end with a status outside
    [200,300) gives an [APIError] holding the status and the very bytes
    of the body; with a status inside and a body [json.Unmarshal]
    rejects, it gives the wrapped decode error, in which no [APIError]
    is found.  A response whose body cannot be read gives the wrapped
    read error, whatever its status: neither an [APIError] nor a decode
    error.  Whatever the response, the error returned is never of two
    kinds. *)
Theorem decodeResponse_error_kinds (resp : http.Response) :
  (http.failure (http.Body resp) = None ->
   ~ successStatus (http.StatusCode resp) ->
   exists a, decodeResponse (T := T) resp = (json.zero, Some (apiError a)) /\
     StatusCode a = http.StatusCode resp /\ Body a = http.bytes (http.Body resp)) /\
  (http.failure (http.Body resp) = None ->
   successStatus (http.StatusCode resp) ->
   forall e, snd (json.Unmarshal (T := T) (http.bytes (http.Body resp)) json.zero) = Some e ->
     snd (decodeResponse (T := T) resp) = Some (wrapError "decoding response: " (jsonError e)) /\
     asAPIError (wrapError "decoding response: " (jsonError e)) = None) /\
  (forall err, snd (decodeResponse (T := T) resp) = Some err ->
     (forall a, asAPIError err = Some a ->
        err = apiError a /\ ~ isDecodeError err /\
        ~ successStatus (http.StatusCode resp) /\
        Body a = http.bytes (http.Body resp)) /\
     (isDecodeError err ->
        asAPIError err = None /\ successStatus (http.StatusCode resp))) /\
  (forall msg, http.failure (http.Body resp) = Some msg ->
     decodeResponse (T := T) resp
     = (json.zero, Some (wrapError "reading response body: " (ioError msg))) /\
     asAPIError (wrapError "reading response body: " (ioError msg)) = None /\
     ~ isDecodeError (wrapError "reading response body: " (ioError msg))) /\
  (forall err, snd (decodeResponse (T := T) resp) = Some err ->
     isReadError err <-> http.failure (http.Body resp) <> None).
Proof.
  split; [|split; [|split; [|split]]]; cycle 3.
  - intros msg Hr. rewrite (decodeResponse_read_error resp msg Hr).
    split; [reflexivity|]. split; [reflexivity|]. intros [e He]. discriminate.
  - intros err Herr.
    destruct (decodeResponse_cases resp) as [[msg Hr]|[[Hr Hs]|[Hr Hs]]].
    + rewrite (decodeResponse_read_error resp msg Hr) in Herr. cbn in Herr.
      injection Herr as <-. rewrite Hr. split; [discriminate | intros _; now exists msg].
    + rewrite (decodeResponse_api_error resp Hr Hs) in Herr. cbn in Herr.
      injection Herr as <-. rewrite Hr. split; [intros [msg Hm]; discriminate | congruence].
    + rewrite (decodeResponse_success_status resp Hr Hs) in Herr.
      destruct (json.Unmarshal _ _) as [v [e'|]]; cbn in Herr; [|discriminate].
      injection Herr as <-. rewrite Hr. split; [intros [msg Hm]; discriminate | congruence].
  - intros Hr Hs. eexists. rewrite (decodeResponse_api_error resp Hr Hs). now cbn.
  - intros Hr Hs e He. rewrite (decodeResponse_success_status resp Hr Hs).
    destruct (json.Unmarshal _ _) as [v [e'|]]; cbn in *; [|discriminate].
    now injection He as ->.
  - intros err Herr.
    destruct (decodeResponse_cases resp) as [[msg Hr]|[[Hr Hs]|[Hr Hs]]].
    + rewrite (decodeResponse_read_error resp msg Hr) in Herr. cbn in Herr.
      injection Herr as <-. split; [discriminate|]. intros [e He]. discriminate.
    + rewrite (decodeResponse_api_error resp Hr Hs) in Herr. cbn in Herr.
      injection Herr as <-. split.
      * intros a Ha. cbn in Ha. injection Ha as <-. repeat split; auto.
        intros [e He]. discriminate.
      * intros [e He]. discriminate.
    + rewrite (decodeResponse_success_status resp Hr Hs) in Herr.
      destruct (json.Unmarshal _ _) as [v [e'|]]; cbn in Herr; [|discriminate].
      injection Herr as <-. split; [discriminate|]. intros _. now split.
Qed.

(** C2, as the code has it.  Exactly one component is meaningful: with
    no error the value is what [json.Unmarshal] stored from a body read
    to its end under a status in [200,300); with a body-read error or
    an [APIError] the value is the zero value; with a decode error the
    value is what [json.Unmarshal] left in the result, which is the
    zero value when the body is not well-formed JSON. *)
Theorem decodeResponse_value (resp : http.Response) :
  (snd (decodeResponse (T := T) resp) = None ->
     http.failure (http.Body resp) = None /\ successStatus (http.StatusCode resp) /\
     json.Unmarshal (http.bytes (http.Body resp)) json.zero
     = (fst (decodeResponse (T := T) resp), None)) /\
  (forall err, snd (decodeResponse (T := T) resp) = Some err ->
     isReadError err \/ (exists a, err = apiError a) \/ isDecodeError err) /\
  (forall err, snd (decodeResponse (T := T) resp) = Some err ->
     isReadError err \/ (exists a, err = apiError a) ->
     fst (decodeResponse (T := T) resp) = json.zero) /\
  (forall err, snd (decodeResponse (T := T) resp) = Some err ->
     isDecodeError err ->
     fst (decodeResponse (T := T) resp)
     = fst (json.Unmarshal (http.bytes (http.Body resp)) json.zero) /\
     (json.parse (http.bytes (http.Body resp)) = None ->
      fst (decodeResponse (T := T) resp) = json.zero)).
Proof.
  destruct (decodeResponse_cases resp) as [[msg Hr]|[[Hr Hs]|[Hr Hs]]].
  - rewrite (decodeResponse_read_error resp msg Hr). cbn.
    split; [discriminate|]. split; [|split].
    + intros err [= <-]. left. now exists msg.
    + reflexivity.
    + intros err [= <-] [e He]. discriminate.
  - rewrite (decodeResponse_api_error resp Hr Hs). cbn.
    split; [discriminate|]. split; [|split].
    + intros err [= <-]. right; left. eauto.
    + reflexivity.
    + intros err [= <-] [e He]. discriminate.
  - rewrite (decodeResponse_success_status resp Hr Hs).
    destruct (json.Unmarshal _ _) as [v [e|]] eqn:Hu; cbn.
    + split; [discriminate|]. split; [|split].
      * intros err [= <-]. right; right. now exists e.
      * intros err [= <-] [[msg Hm]|[a Ha]]; discriminate.
      * intros err _ _. split; [reflexivity|].
        intros Hp. unfold json.Unmarshal in Hu. rewrite Hp in Hu. now injection Hu as <- _.
    + split; [auto|]. split; [|split]; intros err; discriminate.
Qed.

End Decoder.

(** C2, as stated, fails: on a decode error the value need not be the
    zero value.  Status 200 with the body above gives a decode error and
    a value whose [ID] is already 123. *)
Lemma decodeResponse_zero_on_error_counterexample :
  ~ (forall (T : Type) (S : json.Shape T) (resp : http.Response),
       snd (decodeResponse (T := T) resp) <> None ->
       fst (decodeResponse (T := T) resp) = json.zero).
Proof.
  intros Hall.
  specialize (Hall Fixture.testResponse _ (Fixture.respond 200 Fixture.mismatchedBody)).
  assert (Hv : fst (decodeResponse (T := Fixture.testResponse) (Fixture.respond 200 Fixture.mismatchedBody))
               = Fixture.mkTestResponse 123 "") by (vm_compute; reflexivity).
  rewrite Hv in Hall. discriminate Hall. vm_compute. discriminate.
Qed.

(** C3, as stated, fails: a failure status does not always give an
    [APIError].  With status 500 and a body that cannot be read, as the
    [errorReader] of the tests, the error is the read error. *)
Lemma decodeResponse_unread_body_counterexample :
  ~ (forall (T : Type) (S : json.Shape T) (resp : http.Response),
       ~ successStatus (http.StatusCode resp) ->
       exists a, snd (decodeResponse (T := T) resp) = Some (apiError a) /\
         Body a = http.bytes (http.Body resp)).
Proof.
  intros Hall.
  destruct (Hall Fixture.testResponse _ (Scenario.unreadable 500)) as (a & Ha & _).
  - unfold successStatus. cbn. lia.
  - discriminate Ha.
Qed.

Example decodeResponse_unread_body :
  decodeResponse (T := Fixture.testResponse) (Scenario.unreadable 500)
  = (json.zero, Some (wrapError "reading response body: " (ioError "read error"))).
Proof. reflexivity. Qed.

Example decodeResponse_mismatched_body :
  decodeResponse (T := Fixture.testResponse) (Fixture.respond 200 Fixture.mismatchedBody)
  = (Fixture.mkTestResponse 123 "",
     Some (wrapError "decoding response: "
             (jsonError (json.UnmarshalTypeError "number" "string" "name")))).
Proof. vm_compute. reflexivity. Qed.

(** The same with a shape of the package: a [UserInfo] whose id arrived
    before the mismatch on the email. *)
Example decodeResponse_user_info_partial :
  decodeResponse (T := UserInfo) (Fixture.respond 200 Fixture.mismatchedUser)
  = (mkUserInfo 7 "" "" 0,
     Some (wrapError "decoding response: "
             (jsonError (json.UnmarshalTypeError "bool" "string" "email")))).
Proof. vm_compute. reflexivity. Qed.

(** The cases of [TestDecodeResponse]. *)
Example decodeResponse_bad_request :
  decodeResponse (T := Fixture.testResponse) (Fixture.respond 400 Fixture.badRequestBody)
  = (json.zero, Some (apiError (mkAPIError 400 Fixture.badRequestBody))).
Proof. vm_compute. reflexivity. Qed.

Example decodeResponse_broken_json :
  decodeResponse (T := Fixture.testResponse) (Fixture.respond 200 "{broken json")
  = (json.zero, Some (wrapError "decoding response: " (jsonError json.SyntaxError))).
Proof. vm_compute. reflexivity. Qed.

Example decodeResponse_empty_object :
  decodeResponse (T := Fixture.testResponse) (Fixture.respond 200 "{}")
  = (Fixture.mkTestResponse 0 "", None).
Proof. vm_compute. reflexivity. Qed.

Example decodeResponse_not_an_object :
  decodeResponse (T := Fixture.testResponse) (Fixture.respond 200 (Fixture.q "not an object"))
  = (json.zero,
     Some (wrapError "decoding response: "
             (jsonError (json.UnmarshalTypeError "string" "app.testResponse" "")))).
Proof. vm_compute. reflexivity. Qed.

Lemma decodeResponse_error_kinds_witness :
  (exists a, decodeResponse (T := Fixture.testResponse) (Fixture.respond 400 Fixture.badRequestBody)
             = (json.zero, Some (apiError a)) /\
     StatusCode a = 400 /\ Body a = Fixture.badRequestBody) /\
  snd (decodeResponse (T := Fixture.testResponse) (Fixture.respond 200 "{broken json"))
  = Some (wrapError "decoding response: " (jsonError json.SyntaxError)) /\
  decodeResponse (T := Fixture.testResponse) (Scenario.unreadable 500)
  = (json.zero, Some (wrapError "reading response body: " (ioError "read error"))).
Proof.
  split; [|split].
  - apply (proj1 (decodeResponse_error_kinds (T := Fixture.testResponse)
                    (Fixture.respond 400 Fixture.badRequestBody))); [reflexivity|].
    unfold successStatus; cbn; lia.
  - apply (proj1 (proj2 (decodeResponse_error_kinds (T := Fixture.testResponse)
                           (Fixture.respond 200 "{broken json")))).
    + reflexivity.
    + unfold successStatus; cbn; lia.
    + reflexivity.
  - apply (proj1 (proj2 (proj2 (proj2 (decodeResponse_error_kinds (T := Fixture.testResponse)
                                         (Scenario.unreadable 500)))))).
    reflexivity.
Defined.

Lemma decodeResponse_value_witness :
  fst (decodeResponse (T := Fixture.testResponse) (Fixture.respond 400 Fixture.badRequestBody))
  = json.zero /\
  fst (decodeResponse (T := Fixture.testResponse) (Fixture.respond 200 Fixture.mismatchedBody))
  = fst (json.Unmarshal Fixture.mismatchedBody json.zero).
Proof.
  split.
  - apply (proj1 (proj2 (proj2 (decodeResponse_value (T := Fixture.testResponse)
                                   (Fixture.respond 400 Fixture.badRequestBody))))
             (apiError (mkAPIError 400 Fixture.badRequestBody))); [reflexivity|].
    right. eexists. reflexivity.
  - apply (proj2 (proj2 (proj2 (decodeResponse_value (T := Fixture.testResponse)
                                   (Fixture.respond 200 Fixture.mismatchedBody))))
             (wrapError "decoding response: "
                (jsonError (json.UnmarshalTypeError "number" "string" "name")))).
    + reflexivity.
    + eexists. reflexivity.
Defined.

(** ** Dates *)

Lemma isDigit_digit (a : ascii) : time.isDigit a = true -> 0 <= time.digit a <= 9.
Proof. unfold time.isDigit, time.digit. lia. Qed.

Lemma getYear_bounds (v rest : string) (y : Z) :
  time.getYear v = Some (y, rest) -> 0 <= y <= 9999.
Proof.
  destruct v as [|a [|b [|x [|d r]]]]; try discriminate. cbn.
  destruct (time.isDigit a) eqn:Ha, (time.isDigit b) eqn:Hb,
           (time.isDigit x) eqn:Hx, (time.isDigit d) eqn:Hd; try discriminate.
  intros [= <- _].
  apply isDigit_digit in Ha, Hb, Hx, Hd. lia.
Qed.

(** What [Parse] accepts is a date of the calendar. *)
Lemma Parse_valid (d : string) (t : time.Time) :
  time.Parse d = inl t ->
  0 <= time.Year t <= 9999 /\ 1 <= time.Month t <= 12 /\
  1 <= time.Day t <= time.daysIn (time.Month t) (time.Year t).
Proof.
  unfold time.Parse.
  destruct (time.getYear d) as [[year v1]|] eqn:Hy; [|discriminate].
  destruct (time.skipDash v1) as [v2|]; [|discriminate].
  destruct (time.getnum v2) as [[month v3]|]; [|discriminate].
  destruct ((month <=? 0) || (12 <? month)) eqn:Hm; [discriminate|].
  destruct (time.skipDash v3) as [v4|]; [|discriminate].
  destruct (time.getnum v4) as [[day v5]|]; [|discriminate].
  destruct v5; [|discriminate].
  destruct ((day <? 1) || (time.daysIn month year <? day)) eqn:Hd; [discriminate|].
  intros [= <-]. cbn. apply getYear_bounds in Hy.
  apply orb_false_iff in Hm, Hd. lia.
Qed.

Lemma Parse_nonempty (t : time.Time) : time.Parse "" <> inl t.
Proof. discriminate. Qed.

Lemma leap_year_length (y : Z) :
  (y / 4 - y / 100 + y / 400) - ((y - 1) / 4 - (y - 1) / 100 + (y - 1) / 400)
  = if time.isLeap y then 1 else 0.
Proof.
  unfold time.isLeap.
  destruct (Z.eqb_spec (y mod 4) 0), (Z.eqb_spec (y mod 100) 0), (Z.eqb_spec (y mod 400) 0);
    cbn; Z.div_mod_to_equations; lia.
Qed.

Lemma daysBefore_next (m y : Z) :
  1 <= m < 12 ->
  time.daysBefore (m + 1) (time.isLeap y) = time.daysBefore m (time.isLeap y) + time.daysIn m y.
Proof.
  intros Hm. unfold time.daysIn. generalize (time.isLeap y) as l. intros l.
  assert (Hcases : m = 1 \/ m = 2 \/ m = 3 \/ m = 4 \/ m = 5 \/ m = 6 \/ m = 7
                   \/ m = 8 \/ m = 9 \/ m = 10 \/ m = 11) by lia.
  destruct Hcases as [->|[->|[->|[->|[->|[->|[->|[->|[->|[->| ->]]]]]]]]]];
    destruct l; reflexivity.
Qed.

Lemma daysBefore_december (l : bool) : time.daysBefore 12 l = 334 + if l then 1 else 0.
Proof. now destruct l. Qed.

Lemma daysBefore_january (l : bool) : time.daysBefore 1 l = 0.
Proof. now destruct l. Qed.

(** [AddDay] is calendar day addition: it moves a date of the calendar
    to the date whose day number is one more, across the ends of months
    and years. *)
Lemma AddDay_dayNumber (t : time.Time) :
  1 <= time.Month t <= 12 ->
  1 <= time.Day t <= time.daysIn (time.Month t) (time.Year t) ->
  time.dayNumber (time.AddDay t) = time.dayNumber t + 1.
Proof.
  destruct t as [y m d]. cbn [time.Year time.Month time.Day]. intros Hm Hd.
  unfold time.AddDay. cbn [time.Year time.Month time.Day].
  destruct (Z.ltb_spec d (time.daysIn m y)) as [Hlt|Hge].
  - unfold time.dayNumber. cbn [time.Year time.Month time.Day]. lia.
  - assert (d = time.daysIn m y) by lia. subst d.
    destruct (Z.ltb_spec m 12) as [Hm12|Hm12].
    + unfold time.dayNumber. cbn [time.Year time.Month time.Day].
      rewrite (daysBefore_next m y) by lia. lia.
    + assert (m = 12) by lia. subst m.
      unfold time.dayNumber. cbn [time.Year time.Month time.Day].
      pose proof (leap_year_length y) as Hl.
      replace (y + 1 - 1) with y by lia.
      rewrite daysBefore_december, daysBefore_january.
      change (time.daysIn 12 y) with 31.
      destruct (time.isLeap y); lia.
Qed.

Lemma AddDay_valid (t : time.Time) :
  1 <= time.Month t <= 12 ->
  1 <= time.Day t <= time.daysIn (time.Month t) (time.Year t) ->
  1 <= time.Month (time.AddDay t) <= 12 /\
  1 <= time.Day (time.AddDay t)
  <= time.daysIn (time.Month (time.AddDay t)) (time.Year (time.AddDay t)).
Proof.
  destruct t as [y m d]. cbn [time.Year time.Month time.Day]. intros Hm Hd.
  unfold time.AddDay. cbn [time.Year time.Month time.Day].
  destruct (Z.ltb_spec d (time.daysIn m y)); [cbn; lia|].
  destruct (Z.ltb_spec m 12); cbn [time.Year time.Month time.Day].
  - split; [lia|]. unfold time.daysIn.
    repeat match goal with |- context [if ?b then _ else _] => destruct b end; lia.
  - split; [lia|]. unfold time.daysIn. cbn. lia.
Qed.

(** A date [Parse] accepts passes [QueryEscape] unchanged. *)
Lemma QueryEscape_digit (a : ascii) (rest : string) :
  time.isDigit a = true ->
  url.QueryEscape (String a rest) = String a (url.QueryEscape rest).
Proof.
  intros Ha. cbn.
  destruct (Ascii.eqb_spec a " ") as [->|_]; [discriminate|].
  unfold url.shouldEscape. unfold time.isDigit in Ha.
  replace ((48 <=? Z.of_nat (nat_of_ascii a)) && (Z.of_nat (nat_of_ascii a) <=? 57)) with true.
  now rewrite !orb_true_r.
Qed.

Lemma QueryEscape_dash (rest : string) :
  url.QueryEscape (String "-" rest) = String "-" (url.QueryEscape rest).
Proof. reflexivity. Qed.

Lemma Parse_QueryEscape (d : string) (t : time.Time) :
  time.Parse d = inl t -> url.QueryEscape d = d.
Proof.
  unfold time.Parse.
  destruct d as [|a [|b [|x [|y v1]]]]; try discriminate. cbn [time.getYear].
  destruct (time.isDigit a) eqn:Ha, (time.isDigit b) eqn:Hb,
           (time.isDigit x) eqn:Hx, (time.isDigit y) eqn:Hy; try discriminate.
  cbn [andb].
  destruct v1 as [|d1 v2]; [discriminate|]. cbn [time.skipDash].
  destruct (Ascii.eqb_spec d1 "-") as [->|_]; [|discriminate].
  destruct v2 as [|m1 [|m2 v3]]; try discriminate. cbn [time.getnum].
  destruct (time.isDigit m1) eqn:Hm1, (time.isDigit m2) eqn:Hm2; try discriminate.
  cbn [andb]. destruct (_ || _); [discriminate|].
  destruct v3 as [|d2 v4]; [discriminate|]. cbn [time.skipDash].
  destruct (Ascii.eqb_spec d2 "-") as [->|_]; [|discriminate].
  destruct v4 as [|e1 [|e2 v5]]; try discriminate. cbn [time.getnum].
  destruct (time.isDigit e1) eqn:He1, (time.isDigit e2) eqn:He2; try discriminate.
  cbn [andb]. destruct v5; [|discriminate]. intros _.
  rewrite !QueryEscape_digit, QueryEscape_dash, !QueryEscape_digit, QueryEscape_dash,
    !QueryEscape_digit by assumption.
  reflexivity.
Qed.

Example next_day_examples :
  (forall t, time.Parse "2025-01-15" = inl t -> time.Format (time.AddDay t) = "2025-01-16") /\
  (forall t, time.Parse "2025-01-31" = inl t -> time.Format (time.AddDay t) = "2025-02-01") /\
  (forall t, time.Parse "2024-02-28" = inl t -> time.Format (time.AddDay t) = "2024-02-29") /\
  (forall t, time.Parse "2025-02-28" = inl t -> time.Format (time.AddDay t) = "2025-03-01") /\
  (forall t, time.Parse "2025-12-31" = inl t -> time.Format (time.AddDay t) = "2026-01-01").
Proof. repeat split; intros t [= <-]; reflexivity. Qed.

Lemma Parse_date_form (d : string) (t : time.Time) :
  time.Parse d = inl t -> hasDateForm d = true.
Proof.
  unfold time.Parse.
  destruct d as [|a [|b [|x [|y v1]]]]; try discriminate. cbn [time.getYear].
  destruct (time.isDigit a) eqn:Ha, (time.isDigit b) eqn:Hb,
           (time.isDigit x) eqn:Hx, (time.isDigit y) eqn:Hy; try discriminate.
  cbn [andb].
  destruct v1 as [|d1 v2]; [discriminate|]. cbn [time.skipDash].
  destruct (Ascii.eqb_spec d1 "-") as [->|_]; [|discriminate].
  destruct v2 as [|m1 [|m2 v3]]; try discriminate. cbn [time.getnum].
  destruct (time.isDigit m1) eqn:Hm1, (time.isDigit m2) eqn:Hm2; try discriminate.
  cbn [andb]. destruct (_ || _); [discriminate|].
  destruct v3 as [|d2 v4]; [discriminate|]. cbn [time.skipDash].
  destruct (Ascii.eqb_spec d2 "-") as [->|_]; [|discriminate].
  destruct v4 as [|e1 [|e2 v5]]; try discriminate. cbn [time.getnum].
  destruct (time.isDigit e1) eqn:He1, (time.isDigit e2) eqn:He2; try discriminate.
  cbn [andb]. destruct v5; [|discriminate]. intros _.
  cbn [hasDateForm]. now rewrite Ha, Hb, Hx, Hy, Hm1, Hm2, He1, He2.
Qed.

(** A string not of the form YYYY-MM-DD is not parsed. *)
Lemma not_date_form_rejected (d : string) :
  hasDateForm d = false -> forall t, time.Parse d <> inl t.
Proof. intros Hf t Hp. apply Parse_date_form in Hp. congruence. Qed.

Lemma date_query (d e : string) (t t' : time.Time) :
  time.Parse d = inl t -> time.Parse e = inl t' ->
  "/me/time_entries" +:+ "?" +:+ url.Encode [("end_date", e); ("start_date", d)]
  = dateEndpoint d e.
Proof.
  intros Hd He. unfold url.Encode.
  rewrite (Parse_QueryEscape d t Hd), (Parse_QueryEscape e t' He).
  change (url.QueryEscape "end_date") with "end_date".
  change (url.QueryEscape "start_date") with "start_date".
  reflexivity.
Qed.

(** *** Reading and writing agree *)

Lemma isDigit_In (a : ascii) : time.isDigit a = true -> In a digitChars.
Proof.
  destruct a as [[] [] [] [] [] [] [] []]; intros Hd;
    first [ discriminate Hd | cbn; tauto ].
Qed.

Lemma appendInt_four_digits : 
  forallb (fun a => forallb (fun b => forallb (fun x => forallb (fun y =>
    String.eqb
      (time.appendInt (1000 * time.digit a + 100 * time.digit b + 10 * time.digit x
                       + time.digit y) 4)
      (String a (String b (String x (String y ""))))) digitChars) digitChars) digitChars)
    digitChars = true.
Proof. vm_compute. reflexivity. Qed.

Lemma appendInt_two_digits :
  forallb (fun a => forallb (fun b =>
    String.eqb (time.appendInt (10 * time.digit a + time.digit b) 2)
      (String a (String b ""))) digitChars) digitChars = true.
Proof. vm_compute. reflexivity. Qed.

Lemma appendInt_year (a b x y : ascii) :
  time.isDigit a = true -> time.isDigit b = true ->
  time.isDigit x = true -> time.isDigit y = true ->
  time.appendInt (1000 * time.digit a + 100 * time.digit b + 10 * time.digit x + time.digit y) 4
  = String a (String b (String x (String y ""))).
Proof.
  intros Ha Hb Hx Hy. apply isDigit_In in Ha, Hb, Hx, Hy.
  pose proof appendInt_four_digits as Hall.
  rewrite forallb_forall in Hall. specialize (Hall a Ha).
  rewrite forallb_forall in Hall. specialize (Hall b Hb).
  rewrite forallb_forall in Hall. specialize (Hall x Hx).
  rewrite forallb_forall in Hall. specialize (Hall y Hy).
  now apply String.eqb_eq in Hall.
Qed.

Lemma appendInt_pair (a b : ascii) :
  time.isDigit a = true -> time.isDigit b = true ->
  time.appendInt (10 * time.digit a + time.digit b) 2 = String a (String b "").
Proof.
  intros Ha Hb. apply isDigit_In in Ha, Hb.
  pose proof appendInt_two_digits as Hall.
  rewrite forallb_forall in Hall. specialize (Hall a Ha).
  rewrite forallb_forall in Hall. specialize (Hall b Hb).
  now apply String.eqb_eq in Hall.
Qed.

(** Writing a date that was read gives back the text that was read. *)
Lemma Format_Parse (d : string) (t : time.Time) :
  time.Parse d = inl t -> time.Format t = d.
Proof.
  unfold time.Parse.
  destruct d as [|a [|b [|x [|y v1]]]]; try discriminate. cbn [time.getYear].
  destruct (time.isDigit a) eqn:Ha, (time.isDigit b) eqn:Hb,
           (time.isDigit x) eqn:Hx, (time.isDigit y) eqn:Hy; try discriminate.
  cbn [andb].
  destruct v1 as [|d1 v2]; [discriminate|]. cbn [time.skipDash].
  destruct (Ascii.eqb_spec d1 "-") as [->|_]; [|discriminate].
  destruct v2 as [|m1 [|m2 v3]]; try discriminate. cbn [time.getnum].
  destruct (time.isDigit m1) eqn:Hm1, (time.isDigit m2) eqn:Hm2; try discriminate.
  cbn [andb]. destruct (_ || _); [discriminate|].
  destruct v3 as [|d2 v4]; [discriminate|]. cbn [time.skipDash].
  destruct (Ascii.eqb_spec d2 "-") as [->|_]; [|discriminate].
  destruct v4 as [|e1 [|e2 v5]]; try discriminate. cbn [time.getnum].
  destruct (time.isDigit e1) eqn:He1, (time.isDigit e2) eqn:He2; try discriminate.
  cbn [andb]. destruct v5; [|discriminate].
  destruct (_ || _); [discriminate|]. intros [= <-].
  unfold time.Format. cbn [time.Year time.Month time.Day].
  rewrite (appendInt_year a b x y Ha Hb Hx Hy), (appendInt_pair m1 m2 Hm1 Hm2),
    (appendInt_pair e1 e2 He1 He2).
  reflexivity.
Qed.

Lemma digitChar_spec (n : Z) :
  0 <= n <= 9 -> time.isDigit (digitChar n) = true /\ time.digit (digitChar n) = n.
Proof.
  intros Hn. rewrite <- (Z2Nat.id n) by lia.
  assert (Hk : (Z.to_nat n < 10)%nat) by lia.
  revert Hk. generalize (Z.to_nat n). intros k Hk.
  do 10 (destruct k as [|k]; [split; reflexivity|]). lia.
Qed.

(** Reading a date of the calendar that was written, its year having at
    most four digits, gives back the date. *)
Lemma Parse_Format (t : time.Time) :
  0 <= time.Year t <= 9999 ->
  1 <= time.Month t <= 12 ->
  1 <= time.Day t <= time.daysIn (time.Month t) (time.Year t) ->
  time.Parse (time.Format t) = inl t.
Proof.
  destruct t as [y m d]. cbn [time.Year time.Month time.Day]. intros Hy Hm Hd.
  assert (Hd31 : d <= 31).
  { unfold time.daysIn in Hd.
    repeat match goal with H : context [if ?b then _ else _] |- _ => destruct b end; lia. }
  destruct (digitChar_spec (y / 1000)) as [Ha Ya]; [Z.div_mod_to_equations; lia|].
  destruct (digitChar_spec (y / 100 mod 10)) as [Hb Yb]; [Z.div_mod_to_equations; lia|].
  destruct (digitChar_spec (y / 10 mod 10)) as [Hx Yx]; [Z.div_mod_to_equations; lia|].
  destruct (digitChar_spec (y mod 10)) as [Hz Yz]; [Z.div_mod_to_equations; lia|].
  destruct (digitChar_spec (m / 10)) as [Hm1 Ym1]; [Z.div_mod_to_equations; lia|].
  destruct (digitChar_spec (m mod 10)) as [Hm2 Ym2]; [Z.div_mod_to_equations; lia|].
  destruct (digitChar_spec (d / 10)) as [Hd1 Yd1]; [Z.div_mod_to_equations; lia|].
  destruct (digitChar_spec (d mod 10)) as [Hd2 Yd2]; [Z.div_mod_to_equations; lia|].
  assert (Ey : 1000 * time.digit (digitChar (y / 1000))
               + 100 * time.digit (digitChar (y / 100 mod 10))
               + 10 * time.digit (digitChar (y / 10 mod 10))
               + time.digit (digitChar (y mod 10)) = y)
    by (rewrite Ya, Yb, Yx, Yz; Z.div_mod_to_equations; lia).
  assert (Em : 10 * time.digit (digitChar (m / 10)) + time.digit (digitChar (m mod 10)) = m)
    by (rewrite Ym1, Ym2; Z.div_mod_to_equations; lia).
  assert (Ed : 10 * time.digit (digitChar (d / 10)) + time.digit (digitChar (d mod 10)) = d)
    by (rewrite Yd1, Yd2; Z.div_mod_to_equations; lia).
  unfold time.Format. cbn [time.Year time.Month time.Day].
  rewrite <- Ey at 1. rewrite <- Em at 1. rewrite <- Ed at 1.
  rewrite (appendInt_year _ _ _ _ Ha Hb Hx Hz), (appendInt_pair _ _ Hm1 Hm2),
    (appendInt_pair _ _ Hd1 Hd2).
  unfold time.Parse.
  cbv beta iota delta [String.append time.getYear time.skipDash time.getnum].
  rewrite Ha, Hb, Hx, Hz. cbn [andb]. rewrite Ey.
  cbn [Ascii.eqb Bool.eqb]. rewrite Hm1, Hm2. cbn [andb]. rewrite Em.
  replace ((m <=? 0) || (12 <? m)) with false by (symmetry; apply orb_false_iff; lia).
  cbn [Ascii.eqb Bool.eqb andb]. rewrite Hd1, Hd2. cbn [andb]. rewrite Ed.
  replace ((d <? 1) || (time.daysIn m y <? d)) with false
    by (symmetry; apply orb_false_iff; lia).
  reflexivity.
Qed.

(** The day after a date that was read can be read in its turn, unless
    the date is the last day of the year 9999. *)
Lemma next_day_parses (d : string) (t : time.Time) :
  time.Parse d = inl t ->
  d <> "9999-12-31" ->
  time.Parse (time.Format (time.AddDay t)) = inl (time.AddDay t).
Proof.
  intros Hp Hd.
  destruct (Parse_valid d t Hp) as (Hy & Hm & Hday).
  destruct (AddDay_valid t Hm Hday) as [Hm' Hday'].
  apply Parse_Format; [|exact Hm'|exact Hday'].
  destruct t as [y m dd]. cbn [time.Year time.Month time.Day] in *.
  unfold time.AddDay. cbn [time.Year time.Month time.Day].
  destruct (Z.ltb_spec dd (time.daysIn m y)); [cbn; lia|].
  destruct (Z.ltb_spec m 12); [cbn; lia|]. cbn [time.Year].
  assert (m = 12) by lia. subst m.
  assert (dd = 31) by (change (time.daysIn 12 y) with 31 in *; lia). subst dd.
  destruct (Z.eq_dec y 9999) as [->|]; [|lia].
  apply Format_Parse in Hp. now destruct Hd.
Qed.

(** *** The next day of the calendar *)

Lemma month_cases (P : Z -> Prop) (m : Z) :
  1 <= m <= 12 ->
  (forall k : nat, (k < 12)%nat -> P (Z.of_nat (S k))) -> P m.
Proof.
  intros Hm HP. replace m with (Z.of_nat (S (Z.to_nat (m - 1)))) by lia.
  apply HP. lia.
Qed.

(** The days of a year before a month, and the day of the year. *)
Lemma dayOfYear_bounds (y m d : Z) :
  isCalendarDate (time.Date y m d) ->
  1 <= time.daysBefore m (time.isLeap y) + d <= 365 + (if time.isLeap y then 1 else 0).
Proof.
  unfold isCalendarDate. cbn [time.Year time.Month time.Day]. intros [Hm Hd].
  revert Hd. apply (month_cases (fun m => _ -> _) m Hm). clear m Hm. intros k Hk.
  unfold time.daysIn, time.daysBefore.
  do 12 (destruct k as [|k];
         [destruct (time.isLeap y); cbv [Z.of_nat Pos.of_succ_nat Pos.succ]; cbn; lia|]).
  lia.
Qed.

Lemma dayOfYear_injective (y m1 d1 m2 d2 : Z) :
  isCalendarDate (time.Date y m1 d1) -> isCalendarDate (time.Date y m2 d2) ->
  time.daysBefore m1 (time.isLeap y) + d1 = time.daysBefore m2 (time.isLeap y) + d2 ->
  m1 = m2 /\ d1 = d2.
Proof.
  unfold isCalendarDate. cbn [time.Year time.Month time.Day]. intros [Hm1 Hd1] [Hm2 Hd2].
  revert Hd1. pattern m1. apply (month_cases _ m1 Hm1). clear m1 Hm1. intros k1 Hk1 Hd1.
  revert Hd2. pattern m2. apply (month_cases _ m2 Hm2). clear m2 Hm2. intros k2 Hk2 Hd2.
  revert Hd1 Hd2.
  unfold time.daysIn, time.daysBefore.
  do 12 (destruct k1 as [|k1];
         [do 12 (destruct k2 as [|k2];
                 [destruct (time.isLeap y); cbv [Z.of_nat Pos.of_succ_nat Pos.succ]; cbn; lia|]);
          lia|]).
  lia.
Qed.

(** The day number of the first of January grows with the year. *)
Lemma yearStart_monotone (a b : Z) :
  a <= b ->
  365 * a + a / 4 - a / 100 + a / 400 <= 365 * b + b / 4 - b / 100 + b / 400.
Proof. intros Hab. Z.div_mod_to_equations. lia. Qed.

Lemma dayNumber_year (y1 m1 d1 y2 m2 d2 : Z) :
  isCalendarDate (time.Date y1 m1 d1) -> isCalendarDate (time.Date y2 m2 d2) ->
  y1 < y2 ->
  time.dayNumber (time.Date y1 m1 d1) < time.dayNumber (time.Date y2 m2 d2).
Proof.
  intros H1 H2 Hy.
  pose proof (dayOfYear_bounds y1 m1 d1 H1) as B1.
  pose proof (dayOfYear_bounds y2 m2 d2 H2) as B2.
  pose proof (leap_year_length y1) as Hl.
  pose proof (yearStart_monotone y1 (y2 - 1) ltac:(lia)) as Hmono.
  unfold time.dayNumber. cbn [time.Year time.Month time.Day].
  destruct (time.isLeap y1); lia.
Qed.

(** Two dates of the calendar with the same day number are the same. *)
Lemma dayNumber_injective (t1 t2 : time.Time) :
  isCalendarDate t1 -> isCalendarDate t2 ->
  time.dayNumber t1 = time.dayNumber t2 -> t1 = t2.
Proof.
  destruct t1 as [y1 m1 d1], t2 as [y2 m2 d2]. intros H1 H2 Hn.
  destruct (Z.lt_trichotomy y1 y2) as [Hy|[Hy|Hy]].
  - pose proof (dayNumber_year _ _ _ _ _ _ H1 H2 Hy). lia.
  - subst y2. unfold time.dayNumber in Hn. cbn [time.Year time.Month time.Day] in Hn.
    destruct (dayOfYear_injective y1 m1 d1 m2 d2 H1 H2) as [-> ->]; [lia | reflexivity].
  - pose proof (dayNumber_year _ _ _ _ _ _ H2 H1 Hy). lia.
Qed.

(** [AddDay] gives the next day of the calendar, and nothing else is. *)
Lemma AddDay_next (t : time.Time) :
  isCalendarDate t -> nextCalendarDay t (time.AddDay t).
Proof.
  intros [Hm Hd]. split; [exact (AddDay_valid t Hm Hd) | exact (AddDay_dayNumber t Hm Hd)].
Qed.

Lemma nextCalendarDay_unique (t t' : time.Time) :
  isCalendarDate t -> nextCalendarDay t t' -> t' = time.AddDay t.
Proof.
  intros Ht [Hc Hn]. destruct (AddDay_next t Ht) as [Hc' Hn'].
  apply dayNumber_injective; [exact Hc | exact Hc' | lia].
Qed.

(** The three cases of the next day: within the month, across the end
    of a month, across the end of the year. *)
Lemma AddDay_cases (t : time.Time) :
  isCalendarDate t ->
  (time.Day t < time.daysIn (time.Month t) (time.Year t) ->
     time.AddDay t = time.Date (time.Year t) (time.Month t) (time.Day t + 1)) /\
  (time.Day t = time.daysIn (time.Month t) (time.Year t) -> time.Month t < 12 ->
     time.AddDay t = time.Date (time.Year t) (time.Month t + 1) 1) /\
  (time.Day t = 31 -> time.Month t = 12 ->
     time.AddDay t = time.Date (time.Year t + 1) 1 1).
Proof.
  intros [Hm Hd]. unfold time.AddDay. repeat split.
  - intros Hlt. destruct (Z.ltb_spec (time.Day t) (time.daysIn (time.Month t) (time.Year t)));
      [reflexivity | lia].
  - intros He Hm12. destruct (Z.ltb_spec (time.Day t) (time.daysIn (time.Month t) (time.Year t)));
      [lia|]. destruct (Z.ltb_spec (time.Month t) 12); [reflexivity | lia].
  - intros He Hm12. rewrite He, Hm12. reflexivity.
Qed.

(** What is said of the day after in the properties below. *)
Lemma day_after (d : string) (t : time.Time) :
  time.Parse d = inl t ->
  time.Format t = d /\
  isCalendarDate t /\
  nextCalendarDay t (time.AddDay t) /\
  (forall t', nextCalendarDay t t' -> t' = time.AddDay t) /\
  (time.Day t < time.daysIn (time.Month t) (time.Year t) ->
     time.AddDay t = time.Date (time.Year t) (time.Month t) (time.Day t + 1)) /\
  (time.Day t = time.daysIn (time.Month t) (time.Year t) -> time.Month t < 12 ->
     time.AddDay t = time.Date (time.Year t) (time.Month t + 1) 1) /\
  (time.Day t = 31 -> time.Month t = 12 ->
     time.AddDay t = time.Date (time.Year t + 1) 1 1) /\
  (d <> "9999-12-31" ->
     time.Parse (time.Format (time.AddDay t)) = inl (time.AddDay t)).
Proof.
  intros Hp. assert (Hc : isCalendarDate t) by (split; apply (Parse_valid d t Hp)).
  split; [exact (Format_Parse d t Hp)|]. split; [exact Hc|].
  split; [exact (AddDay_next t Hc)|]. split; [intros t'; exact (nextCalendarDay_unique t t' Hc)|].
  destruct (AddDay_cases t Hc) as (H1 & H2 & H3).
  split; [exact H1|]. split; [exact H2|]. split; [exact H3|].
  exact (next_day_parses d t Hp).
Qed.

(** The next day at the ends of months and years. *)
Lemma day_after_examples :
  map (fun d => match time.Parse d with
                | inl t => time.Format (time.AddDay t)
                | inr _ => ""
                end)
    ["2025-01-15"; "2025-01-31"; "2025-04-30"; "2024-02-28"; "2024-02-29"; "2025-02-28";
     "1900-02-28"; "2000-02-28"; "2025-12-31"; "1999-12-31"]
  = ["2025-01-16"; "2025-02-01"; "2025-05-01"; "2024-02-29"; "2024-03-01"; "2025-03-01";
     "1900-03-01"; "2000-02-29"; "2026-01-01"; "2000-01-01"].
Proof. reflexivity. Qed.

(** ** The handlers *)

Section Handlers.

Context {Timestamp : Type} `{json.Shape Timestamp}.
Variable requestError : string -> string -> option error.
Variable now : Timestamp.
Variable sinceText : Timestamp -> Timestamp -> string.
Variable marshalEntry : TimeEntryRequest Timestamp -> string * option error.
Variable marshalMap : gmap string Scalar -> string * option error.
Variable c : TogglClient.

(** *** Requests *)

(** A request leaves the argument map alone, and its outcome does not
    depend on it. *)
Lemma makeRequest_setArguments (method endpoint : string) (body : option string)
    (w : World) (a : gmap string Value) :
  makeRequest requestError c method endpoint body (setArguments w a)
  = (fst (makeRequest requestError c method endpoint body w),
     setArguments (snd (makeRequest requestError c method endpoint body w)) a).
Proof.
  unfold makeRequest. destruct (requestError _ _); [reflexivity|]. cbn.
  now destruct (client c (sent w) _).
Qed.

Lemma makeRequest_arguments (method endpoint : string) (body : option string) (w : World) :
  arguments (snd (makeRequest requestError c method endpoint body w)) = arguments w.
Proof.
  unfold makeRequest. destruct (requestError _ _); [reflexivity|].
  now destruct (client c (sent w) _).
Qed.

(** A response comes only from a request that was sent. *)
Lemma makeRequest_response (method endpoint : string) (body : option string)
    (w : World) (resp : http.Response) :
  fst (makeRequest requestError c method endpoint body w) = inl resp ->
  exists req, sent (snd (makeRequest requestError c method endpoint body w)) = (sent w ++ [req])%list /\
    http.Method req = method /\ http.URL req = togglAPIBase +:+ endpoint /\
    http.Payload req = body /\ client c (sent w) req = inl resp.
Proof.
  unfold makeRequest. destruct (requestError _ _); [discriminate|].
  destruct (client c (sent w) _) as [r|e] eqn:E; [|discriminate].
  cbn. intros [= <-]. eexists. split; [reflexivity|]. repeat split. exact E.
Qed.

(** *** Error classification *)

(** The text an [APIError] contributes to a flagged result holds the
    status and the body. *)
Lemma classify_api_error (flagged wrapped : string) (a : APIError) :
  classify flagged wrapped (apiError a)
  = (Some (mcp.mkResult
             [flagged +:+ "API error (status " +:+ Go.itoa (StatusCode a) +:+ "): " +:+ Body a]
             true), None).
Proof. reflexivity. Qed.

Lemma classify_other (flagged wrapped : string) (err : error) :
  asAPIError err = None ->
  classify flagged wrapped err = (None, Some (wrapError wrapped err)).
Proof. intros Ha. unfold classify. now rewrite Ha. Qed.

(** *** The current-entry lookup *)

(** C4. When the lookup of the current entry answers 404, both
    [stop_time_entry] (its workspace id being valid, so that the lookup
    is made) and [get_current_time_entry] return the text "No running
    time entry found" as an ordinary result: no error, no error flag. *)
Theorem lookup_not_found (w : World) (resp : http.Response) :
  fst (makeRequest requestError c http.MethodGet "/me/time_entries/current" None w) = inl resp ->
  http.StatusCode resp = 404 ->
  (forall id, getRequiredNumber (arguments w) "workspace_id" = (id, None) ->
     fst (handleStopTimeEntry requestError c w) = noRunningEntry) /\
  fst (handleGetCurrentTimeEntry requestError now sinceText c w) = noRunningEntry.
Proof.
  intros Hreq Hst. split.
  - intros id Hid. unfold handleStopTimeEntry. rewrite Hid.
    destruct (makeRequest _ _ _ _ _ _) as [r w']. cbn in Hreq. subst r.
    now rewrite Hst.
  - unfold handleGetCurrentTimeEntry.
    destruct (makeRequest _ _ _ _ _ _) as [r w']. cbn in Hreq. subst r.
    now rewrite Hst.
Qed.

(** *** What an [APIError] becomes *)

(** In [get_current_time_entry] a lookup answered with a failure status
    other than 404 gives a flagged result. *)
Lemma get_current_api_error (w : World) (resp : http.Response) :
  fst (makeRequest requestError c http.MethodGet "/me/time_entries/current" None w) = inl resp ->
  http.failure (http.Body resp) = None ->
  ~ successStatus (http.StatusCode resp) ->
  http.StatusCode resp <> 404 ->
  fst (handleGetCurrentTimeEntry requestError now sinceText c w)
  = classify "Failed to get current entry: " "parsing response: "
      (apiError (mkAPIError (http.StatusCode resp) (http.bytes (http.Body resp)))).
Proof.
  intros Hreq Hr Hs Hn. unfold handleGetCurrentTimeEntry.
  destruct (makeRequest _ _ _ _ _ _) as [r w']. cbn in Hreq. subst r.
  destruct (Z.eqb_spec (http.StatusCode resp) http.StatusNotFound) as [E|_]; [easy|].
  now rewrite (decodeResponse_api_error resp Hr Hs).
Qed.

(** In [stop_time_entry] the same answer to the same lookup gives a
    hard error: the handler wraps whatever [decodeResponse] returns and
    does not look for an [APIError] in it. *)
Lemma stop_lookup_api_error (w : World) (resp : http.Response) (id : Z) :
  getRequiredNumber (arguments w) "workspace_id" = (id, None) ->
  fst (makeRequest requestError c http.MethodGet "/me/time_entries/current" None w) = inl resp ->
  http.failure (http.Body resp) = None ->
  ~ successStatus (http.StatusCode resp) ->
  http.StatusCode resp <> 404 ->
  fst (handleStopTimeEntry requestError c w)
  = (None,
     Some (wrapError "parsing current entry: "
             (apiError (mkAPIError (http.StatusCode resp) (http.bytes (http.Body resp)))))).
Proof.
  intros Hid Hreq Hr Hs Hn. unfold handleStopTimeEntry. rewrite Hid.
  destruct (makeRequest _ _ _ _ _ _) as [r w']. cbn in Hreq. subst r.
  destruct (Z.eqb_spec (http.StatusCode resp) http.StatusNotFound) as [E|_]; [easy|].
  now rewrite (decodeResponse_api_error resp Hr Hs).
Qed.

(** *** Time entries by date *)

(** [get_time_entries] reads two entries of the argument map, as
    strings, and nothing else of it; it leaves the map alone. *)
Lemma handleGetTimeEntries_setArguments (w : World) (a a' : gmap string Value) :
  getOptionalString a "start_date" = getOptionalString a' "start_date" ->
  getOptionalString a "end_date" = getOptionalString a' "end_date" ->
  handleGetTimeEntries requestError c (setArguments w a)
  = (fst (handleGetTimeEntries requestError c (setArguments w a')),
     setArguments (snd (handleGetTimeEntries requestError c (setArguments w a'))) a).
Proof.
  intros Hs He. unfold handleGetTimeEntries. cbn [arguments setArguments].
  rewrite Hs, He.
  destruct (if String.eqb (getOptionalString a' "start_date") "" then _ else _)
    as [params|err]; [|reflexivity].
  destruct (if String.eqb (getOptionalString a' "end_date") "" then _ else _)
    as [params'|err]; [|reflexivity].
  change (mkWorld a (sent w) (logged w)) with (setArguments w a).
  change (mkWorld a' (sent w) (logged w)) with (setArguments w a').
  rewrite !makeRequest_setArguments.
  destruct (makeRequest requestError c _ _ _ w) as [[resp|err] w']; [|reflexivity].
  cbn [fst snd].
  destruct (decodeResponse resp) as [entries [err|]]; reflexivity.
Qed.

Lemma handleGetTimeEntries_arguments (w : World) :
  arguments (snd (handleGetTimeEntries requestError c w)) = arguments w.
Proof.
  destruct w as [a s l].
  change (mkWorld a s l) with (setArguments (mkWorld a s l) a).
  now rewrite (handleGetTimeEntries_setArguments _ a a).
Qed.

Lemma handleGetTimeEntriesForDay_valid (w : World) (d : string) (t : time.Time) :
  arguments w !! "date" = Some (VString d) ->
  time.Parse d = inl t ->
  handleGetTimeEntriesForDay requestError c w
  = handleGetTimeEntries requestError c (setArguments w (dayArguments (arguments w) d t)).
Proof.
  intros Hd Hp. unfold handleGetTimeEntriesForDay.
  assert (Hne : d <> "") by (intros ->; discriminate).
  rewrite (getRequiredString_string _ _ _ Hd Hne), Hp. reflexivity.
Qed.

(** C5. With a date [d] that [Parse] accepts, [get_time_entries_for_day]
    does what [get_time_entries] does when called with [start_date = d]
    and [end_date] the day after [d]: the same result, the same
    requests sent.  The day after is the next day of the calendar, and
    the only one: the day number grows by one and the date stays a date
    of the calendar, so that the day goes on within the month, the month
    goes on after its last day, and the year after the 31st of December;
    its text is the date written as YYYY-MM-DD. *)
Theorem for_day_is_get_time_entries (w : World) (d : string) (t : time.Time) :
  arguments w !! "date" = Some (VString d) ->
  time.Parse d = inl t ->
  let next := time.Format (time.AddDay t) in
  let w' := setArguments w {[ "start_date" := VString d; "end_date" := VString next ]} in
  fst (handleGetTimeEntriesForDay requestError c w)
  = fst (handleGetTimeEntries requestError c w') /\
  sent (snd (handleGetTimeEntriesForDay requestError c w))
  = sent (snd (handleGetTimeEntries requestError c w')) /\
  time.dayNumber (time.AddDay t) = time.dayNumber t + 1 /\
  (forall t', time.Parse "2025-01-31" = inl t' -> time.Format (time.AddDay t') = "2025-02-01") /\
  time.Format t = d /\
  isCalendarDate t /\
  nextCalendarDay t (time.AddDay t) /\
  (forall t', nextCalendarDay t t' -> t' = time.AddDay t) /\
  (time.Day t < time.daysIn (time.Month t) (time.Year t) ->
     time.AddDay t = time.Date (time.Year t) (time.Month t) (time.Day t + 1)) /\
  (time.Day t = time.daysIn (time.Month t) (time.Year t) -> time.Month t < 12 ->
     time.AddDay t = time.Date (time.Year t) (time.Month t + 1) 1) /\
  (time.Day t = 31 -> time.Month t = 12 ->
     time.AddDay t = time.Date (time.Year t + 1) 1 1) /\
  (d <> "9999-12-31" -> time.Parse next = inl (time.AddDay t)) /\
  (forall t', time.Parse "2024-02-28" = inl t' -> time.Format (time.AddDay t') = "2024-02-29") /\
  (forall t', time.Parse "2025-02-28" = inl t' -> time.Format (time.AddDay t') = "2025-03-01") /\
  (forall t', time.Parse "2025-12-31" = inl t' -> time.Format (time.AddDay t') = "2026-01-01").
Proof.
  intros Hd Hp next w'.
  rewrite (handleGetTimeEntriesForDay_valid w d t Hd Hp).
  rewrite (handleGetTimeEntries_setArguments w (dayArguments (arguments w) d t)
             {[ "start_date" := VString d; "end_date" := VString next ]}).
  - cbn [fst snd]. split; [reflexivity|]. split; [reflexivity|].
    split; [apply AddDay_dayNumber; apply (Parse_valid d t Hp)|].
    split; [intros t' [= <-]; reflexivity|].
    destruct (day_after d t Hp) as (H1 & H2 & H3 & H4 & H5 & H6 & H7 & H8).
    repeat (split; [assumption|]).
    repeat split; intros t' [= <-]; reflexivity.
  - unfold getOptionalString, dayArguments. now simplify_map_eq.
  - unfold getOptionalString, dayArguments. now simplify_map_eq.
Qed.

(** The request sent for two dates that [Parse] accepts: a GET of the
    endpoint with both in its query, under the client's credentials. *)
Lemma get_time_entries_request (w : World) (d e : string) (t t' : time.Time) :
  getOptionalString (arguments w) "start_date" = d ->
  getOptionalString (arguments w) "end_date" = e ->
  time.Parse d = inl t -> time.Parse e = inl t' ->
  requestError http.MethodGet (togglAPIBase +:+ dateEndpoint d e) = None ->
  exists req,
    sent (snd (handleGetTimeEntries requestError c w)) = (sent w ++ [req])%list /\
    http.Method req = "GET" /\
    http.URL req = togglAPIBase +:+ dateEndpoint d e /\
    http.BasicAuth req = Some (APIToken c, "api_token").
Proof.
  intros Hs He Hp Hp' Hreq. unfold handleGetTimeEntries. rewrite Hs, He.
  assert (Hd : String.eqb d "" = false) by (apply String.eqb_neq; intros ->; discriminate).
  assert (Hd' : String.eqb e "" = false) by (apply String.eqb_neq; intros ->; discriminate).
  rewrite Hd, Hd', Hp, Hp'. cbv beta iota zeta.
  change (url.Set_ (url.Set_ [] "start_date" d) "end_date" e)
    with [("end_date", e); ("start_date", d)].
  cbv beta iota. rewrite (date_query d e t t' Hp Hp').
  unfold makeRequest. rewrite Hreq.
  destruct (client c (sent w) _) as [resp|err].
  - destruct (decodeResponse resp) as [entries [err|]]; eexists; cbn; repeat split.
  - eexists; cbn; repeat split.
Qed.

Lemma sameDateText_parsed (d : string) (t : time.Time) :
  time.Parse d = inl t ->
  sameDateText d = sameDateWarning d (time.Format (time.AddDay t)).
Proof.
  intros Hp. unfold sameDateText, sameDateWarning. now rewrite Hp.
Qed.

Lemma malformed_start_date (w : World) :
  getOptionalString (arguments w) "start_date" <> "" ->
  (forall t, time.Parse (getOptionalString (arguments w) "start_date") <> inl t) ->
  exists err, handleGetTimeEntries requestError c w = (hardError err, w).
Proof.
  intros Hne Hp. unfold handleGetTimeEntries.
  apply String.eqb_neq in Hne. rewrite Hne.
  destruct (time.Parse _) as [t|err]; [now destruct (Hp t)|]. eauto.
Qed.

Lemma malformed_end_date (w : World) :
  getOptionalString (arguments w) "end_date" <> "" ->
  (forall t, time.Parse (getOptionalString (arguments w) "end_date") <> inl t) ->
  exists err, handleGetTimeEntries requestError c w = (hardError err, w).
Proof.
  intros Hne Hp. unfold handleGetTimeEntries.
  apply String.eqb_neq in Hne. rewrite Hne.
  destruct (if String.eqb (getOptionalString (arguments w) "start_date") "" then _ else _)
    as [params|err]; [|eauto].
  destruct (time.Parse (getOptionalString (arguments w) "end_date")) as [t|err];
    [now destruct (Hp t)|]. eauto.
Qed.

(** A date that is not a string counts as no date: the call is the
    call without the key. *)
Lemma date_not_a_string (w : World) (key : string) (v : Value) :
  key = "start_date" \/ key = "end_date" ->
  arguments w !! key = Some v -> ~ isString v ->
  getOptionalString (arguments w) key = "" /\
  handleGetTimeEntries requestError c w
  = (fst (handleGetTimeEntries requestError c (setArguments w (delete key (arguments w)))),
     setArguments
       (snd (handleGetTimeEntries requestError c (setArguments w (delete key (arguments w)))))
       (arguments w)).
Proof.
  intros Hkey Hv Hns.
  assert (Hopt : getOptionalString (arguments w) key = "").
  { unfold getOptionalString. rewrite Hv.
    destruct v; try reflexivity. destruct Hns. now eexists. }
  split; [exact Hopt|].
  destruct w as [a s l]. cbn [arguments] in *.
  change (mkWorld a s l) with (setArguments (mkWorld a s l) a) at 1.
  apply handleGetTimeEntries_setArguments.
  - destruct Hkey as [-> | ->].
    + rewrite Hopt. unfold getOptionalString. now rewrite lookup_delete_eq.
    + unfold getOptionalString. now rewrite lookup_delete_ne by discriminate.
  - destruct Hkey as [-> | ->].
    + unfold getOptionalString. now rewrite lookup_delete_ne by discriminate.
    + rewrite Hopt. unfold getOptionalString. now rewrite lookup_delete_eq.
Qed.

(** C6, as the code has it.  A start or end date given as a string, not
    empty and not accepted by [Parse] (in particular one not of the
    form YYYY-MM-DD) makes [get_time_entries] return a hard error with
    nothing sent.  A date given as something else than a string is not
    looked at: the call goes on as if the key were absent.  When both
    dates are the same accepted date and the response decodes to no
    entries, the text ends with the same-date warning, whose suggested
    end date is the day after the start date: the next day of the
    calendar, written as YYYY-MM-DD. *)
Theorem get_time_entries_dates (w : World) :
  (forall key, key = "start_date" \/ key = "end_date" ->
     getOptionalString (arguments w) key <> "" ->
     (forall t, time.Parse (getOptionalString (arguments w) key) <> inl t) ->
     exists err, handleGetTimeEntries requestError c w = (hardError err, w)) /\
  (forall key, key = "start_date" \/ key = "end_date" ->
     getOptionalString (arguments w) key <> "" ->
     hasDateForm (getOptionalString (arguments w) key) = false ->
     exists err, handleGetTimeEntries requestError c w = (hardError err, w)) /\
  (forall d t resp,
     getOptionalString (arguments w) "start_date" = d ->
     getOptionalString (arguments w) "end_date" = d ->
     time.Parse d = inl t ->
     fst (makeRequest requestError c http.MethodGet (dateEndpoint d d) None w) = inl resp ->
     decodeResponse (T := list (TimeEntry Timestamp)) resp = ([], None) ->
     fst (handleGetTimeEntries requestError c w)
     = (Some (mcp.mkResult
                ["Found 0 time entries:" +:+ nl +:+ noEntriesText
                 +:+ sameDateWarning d (time.Format (time.AddDay t))] false), None) /\
     time.dayNumber (time.AddDay t) = time.dayNumber t + 1) /\
  (forall t, time.Parse "2025-01-15" = inl t -> time.Format (time.AddDay t) = "2025-01-16") /\
  (forall key s, key = "start_date" \/ key = "end_date" ->
     arguments w !! key = Some (VString s) -> s <> "" ->
     (hasDateForm s = false \/ forall t, time.Parse s <> inl t) ->
     exists err, handleGetTimeEntries requestError c w = (hardError err, w)) /\
  (forall key v, key = "start_date" \/ key = "end_date" ->
     arguments w !! key = Some v -> ~ isString v ->
     let w' := setArguments w (delete key (arguments w)) in
     fst (handleGetTimeEntries requestError c w)
     = fst (handleGetTimeEntries requestError c w') /\
     sent (snd (handleGetTimeEntries requestError c w))
     = sent (snd (handleGetTimeEntries requestError c w'))) /\
  (forall d t,
     getOptionalString (arguments w) "start_date" = d ->
     getOptionalString (arguments w) "end_date" = d ->
     time.Parse d = inl t ->
     time.Format t = d /\
     isCalendarDate t /\
     nextCalendarDay t (time.AddDay t) /\
     (forall t', nextCalendarDay t t' -> t' = time.AddDay t) /\
     (time.Day t < time.daysIn (time.Month t) (time.Year t) ->
        time.AddDay t = time.Date (time.Year t) (time.Month t) (time.Day t + 1)) /\
     (time.Day t = time.daysIn (time.Month t) (time.Year t) -> time.Month t < 12 ->
        time.AddDay t = time.Date (time.Year t) (time.Month t + 1) 1) /\
     (time.Day t = 31 -> time.Month t = 12 ->
        time.AddDay t = time.Date (time.Year t + 1) 1 1) /\
     (d <> "9999-12-31" ->
        time.Parse (time.Format (time.AddDay t)) = inl (time.AddDay t))) /\
  (forall t, time.Parse "2025-01-31" = inl t -> time.Format (time.AddDay t) = "2025-02-01") /\
  (forall t, time.Parse "2024-02-28" = inl t -> time.Format (time.AddDay t) = "2024-02-29") /\
  (forall t, time.Parse "2025-12-31" = inl t -> time.Format (time.AddDay t) = "2026-01-01").
Proof.
  assert (HA : forall key, key = "start_date" \/ key = "end_date" ->
     getOptionalString (arguments w) key <> "" ->
     (forall t, time.Parse (getOptionalString (arguments w) key) <> inl t) ->
     exists err, handleGetTimeEntries requestError c w = (hardError err, w)).
  { intros key [->| ->] Hne Hp;
      [now apply malformed_start_date | now apply malformed_end_date]. }
  split; [exact HA|]. split; [|split; [|split; [|split; [|split; [|split]]]]].
  - intros key Hk Hne Hf. apply (HA key Hk Hne). now apply not_date_form_rejected.
  - intros d t resp Hs He Hp Hreq Hdec. split; [|apply AddDay_dayNumber; apply (Parse_valid d t Hp)].
    unfold handleGetTimeEntries. rewrite Hs, He.
    assert (Hd : String.eqb d "" = false) by (apply String.eqb_neq; intros ->; discriminate).
    rewrite Hd, Hp. cbv beta iota zeta.
    change (url.Set_ (url.Set_ [] "start_date" d) "end_date" d)
      with [("end_date", d); ("start_date", d)].
    cbv beta iota. rewrite (date_query d d t t Hp Hp).
    destruct (makeRequest _ _ _ _ _ _) as [r w']. cbn in Hreq. subst r.
    rewrite Hdec. rewrite String.eqb_refl. cbn [negb andb].
    rewrite (sameDateText_parsed d t Hp). cbn [List.length Z.of_nat].
    unfold toolResult, mcp.NewToolResultText. now rewrite !append_assoc.
  - intros t [= <-]. reflexivity.
  - intros key s Hk Hs Hne Hbad.
    assert (Hopt : getOptionalString (arguments w) key = s)
      by (unfold getOptionalString; now rewrite Hs).
    apply (HA key Hk); rewrite Hopt; [exact Hne|].
    destruct Hbad as [Hf|Hp]; [now apply not_date_form_rejected | exact Hp].
  - intros key v Hk Hv Hns w'.
    destruct (date_not_a_string w key v Hk Hv Hns) as [_ ->]. now split.
  - intros d t _ _ Hp. exact (day_after d t Hp).
  - repeat split; intros t [= <-]; reflexivity.
Qed.

(** *** The argument map of [get_time_entries_for_day] *)

Lemma dayArguments_overwrite (a : gmap string Value) (v1 v2 : Value) (d : string) (t : time.Time) :
  dayArguments (<["start_date" := v1]> (<["end_date" := v2]> a)) d t = dayArguments a d t.
Proof.
  unfold dayArguments. apply map_eq. intros k.
  destruct (decide (k = "end_date")) as [->|He]; [now simplify_map_eq|].
  destruct (decide (k = "start_date")) as [->|Hs]; now simplify_map_eq.
Qed.

(** C9. With a date [d] that [Parse] accepts, [get_time_entries_for_day]
    writes into the argument map it was given: afterwards [start_date]
    is [d] and [end_date] the day after, every other entry is as
    before, and what the caller had put under the two keys plays no
    part in the outcome. *)
Theorem for_day_writes_arguments (w : World) (d : string) (t : time.Time) :
  arguments w !! "date" = Some (VString d) ->
  time.Parse d = inl t ->
  let after := arguments (snd (handleGetTimeEntriesForDay requestError c w)) in
  after !! "start_date" = Some (VString d) /\
  after !! "end_date" = Some (VString (time.Format (time.AddDay t))) /\
  (forall k, k <> "start_date" -> k <> "end_date" -> after !! k = arguments w !! k) /\
  (forall v1 v2,
     handleGetTimeEntriesForDay requestError c
       (setArguments w (<["start_date" := v1]> (<["end_date" := v2]> (arguments w))))
     = handleGetTimeEntriesForDay requestError c w).
Proof.
  intros Hd Hp after. subst after.
  rewrite (handleGetTimeEntriesForDay_valid w d t Hd Hp).
  rewrite handleGetTimeEntries_arguments. cbn [arguments setArguments].
  unfold dayArguments. split; [now simplify_map_eq|]. split; [now simplify_map_eq|].
  split; [intros k Hs He; now simplify_map_eq|].
  intros v1 v2.
  rewrite (handleGetTimeEntriesForDay_valid _ d t); [|cbn; now simplify_map_eq|exact Hp].
  cbn [arguments setArguments]. fold (dayArguments (arguments w) d t).
  now rewrite dayArguments_overwrite.
Qed.

(** *** Projects *)

(** [get_projects] reads the workspace id and, as a boolean, [active],
    and nothing else of the argument map. *)
Lemma handleGetProjects_setArguments (w : World) (a a' : gmap string Value) :
  getRequiredNumber a "workspace_id" = getRequiredNumber a' "workspace_id" ->
  assertBool (a !! "active") = assertBool (a' !! "active") ->
  handleGetProjects requestError c (setArguments w a)
  = (fst (handleGetProjects requestError c (setArguments w a')),
     setArguments (snd (handleGetProjects requestError c (setArguments w a'))) a).
Proof.
  intros Hid Hact. unfold handleGetProjects. cbn [arguments setArguments].
  rewrite Hid, Hact.
  destruct (getRequiredNumber a' "workspace_id") as [id [err|]]; [reflexivity|].
  change (mkWorld a (sent w) (logged w)) with (setArguments w a).
  change (mkWorld a' (sent w) (logged w)) with (setArguments w a').
  rewrite !makeRequest_setArguments.
  destruct (makeRequest requestError c _ _ _ w) as [[resp|err] w']; [|reflexivity].
  cbn [fst snd].
  destruct (decodeResponse resp) as [projects [err|]]; reflexivity.
Qed.

(** C10. When [active] is present and not a boolean, [get_projects]
    does what it does when [active] is absent: the same result and the
    same request, whose endpoint carries no query. *)
Theorem get_projects_active_not_bool (w : World) (v : Value) :
  arguments w !! "active" = Some v ->
  (forall b, v <> VBool b) ->
  let w0 := setArguments w (delete "active" (arguments w)) in
  fst (handleGetProjects requestError c w) = fst (handleGetProjects requestError c w0) /\
  sent (snd (handleGetProjects requestError c w))
  = sent (snd (handleGetProjects requestError c w0)) /\
  (forall id,
     getRequiredNumber (arguments w) "workspace_id" = (id, None) ->
     requestError http.MethodGet
       (togglAPIBase +:+ "/workspaces/" +:+ Go.itoa id +:+ "/projects") = None ->
     exists req,
       sent (snd (handleGetProjects requestError c w)) = (sent w ++ [req])%list /\
       http.URL req = togglAPIBase +:+ "/workspaces/" +:+ Go.itoa id +:+ "/projects").
Proof.
  intros Hv Hnb w0.
  assert (Hact : assertBool (arguments w !! "active") = None).
  { rewrite Hv. destruct v; try reflexivity. now destruct (Hnb b). }
  split; [|split].
  - destruct w as [a s l]. cbn [arguments] in *.
    change (mkWorld a s l) with (setArguments (mkWorld a s l) a) at 1.
    rewrite (handleGetProjects_setArguments _ a (delete "active" a)); [reflexivity| |].
    + unfold getRequiredNumber. now rewrite lookup_delete_ne.
    + now rewrite Hact, lookup_delete_eq.
  - destruct w as [a s l]. cbn [arguments] in *.
    change (mkWorld a s l) with (setArguments (mkWorld a s l) a) at 1.
    rewrite (handleGetProjects_setArguments _ a (delete "active" a)); [reflexivity| |].
    + unfold getRequiredNumber. now rewrite lookup_delete_ne.
    + now rewrite Hact, lookup_delete_eq.
  - intros id Hid Hreq.
    unfold handleGetProjects. rewrite Hid, Hact.
    cbv beta iota zeta. unfold makeRequest. rewrite Hreq.
    destruct (client c _ _) as [resp|err].
    + destruct (decodeResponse resp) as [projects [err|]]; eexists; cbn; repeat split.
    + eexists; cbn; repeat split.
Qed.

(** *** The error policy, handler by handler *)

Ltac refuse Hc fin :=
  let resp := fresh "resp" in
  let E := fresh "E" in
  let Hr := fresh "Hr" in
  let Hs := fresh "Hs" in
  let Hn := fresh "Hn" in
  let Hx := fresh "Hx" in
  unfold makeRequest;
  match goal with
  | |- context [requestError ?m ?u] =>
      destruct (requestError m u); [cbn; intros Hx; now destruct Hx|]
  end;
  match goal with
  | |- context [client c ?h ?r] =>
      destruct (Hc h r) as (resp & E & Hr & Hs & Hn); rewrite E
  end;
  cbv beta iota zeta;
  try (destruct (Z.eqb_spec (http.StatusCode resp) http.StatusNotFound);
       [now destruct Hn|]);
  rewrite (decodeResponse_api_error resp Hr Hs); cbn [fst snd sent];
  intros _; eexists; split; [do 2 eexists; repeat split; exact E | fin].

(** Against such a service, every tool but [stop_time_entry] that gets
    as far as sending its request returns a result flagged as an error,
    with the status and body in its text. *)
Lemma api_error_flagged (t : Tool) (w : World) :
  refusesAll c ->
  t <> stop_time_entry ->
  let out := handler requestError now sinceText marshalEntry marshalMap t c w in
  sent (snd out) <> sent w ->
  exists a, firstRefusal c w (snd out) a /\ flaggedWith (fst out) a.
Proof.
  intros Hc Ht out. subst out.
  destruct t; try (now destruct Ht); clear Ht; unfold handler.
  - unfold handleTestConnection. refuse Hc ltac:(eexists; reflexivity).
  - unfold handleStartTimeEntry.
    destruct (getRequiredString _ _) as [? [?|]]; [cbn; intros Hx; now destruct Hx|].
    destruct (getRequiredNumber _ _) as [? [?|]]; [cbn; intros Hx; now destruct Hx|].
    destruct (marshalEntry _) as [? [?|]]; [cbn; intros Hx; now destruct Hx|].
    refuse Hc ltac:(eexists; reflexivity).
  - unfold handleGetCurrentTimeEntry. refuse Hc ltac:(eexists; reflexivity).
  - unfold handleGetTimeEntries.
    destruct (if String.eqb (getOptionalString (arguments w) "start_date") "" then _ else _)
      as [params|err]; [|cbn; intros Hx; now destruct Hx].
    destruct (if String.eqb (getOptionalString (arguments w) "end_date") "" then _ else _)
      as [params'|err]; [|cbn; intros Hx; now destruct Hx].
    refuse Hc ltac:(eexists; reflexivity).
  - unfold handleGetTimeEntriesForDay.
    destruct (getRequiredString _ _) as [? [?|]]; [cbn; intros Hx; now destruct Hx|].
    destruct (time.Parse _) as [?|?]; [|cbn; intros Hx; now destruct Hx].
    cbv beta iota zeta. unfold handleGetTimeEntries.
    destruct (if String.eqb (getOptionalString _ "start_date") "" then _ else _)
      as [params|err]; [|cbn; intros Hx; now destruct Hx].
    destruct (if String.eqb (getOptionalString _ "end_date") "" then _ else _)
      as [params'|err]; [|cbn; intros Hx; now destruct Hx].
    refuse Hc ltac:(eexists; reflexivity).
  - unfold handleCreateProject.
    destruct (getRequiredString _ _) as [? [?|]]; [cbn; intros Hx; now destruct Hx|].
    destruct (getRequiredNumber _ _) as [? [?|]]; [cbn; intros Hx; now destruct Hx|].
    cbv beta iota zeta.
    destruct (marshalMap _) as [? [?|]]; [cbn; intros Hx; now destruct Hx|].
    refuse Hc ltac:(eexists; reflexivity).
  - unfold handleGetProjects.
    destruct (getRequiredNumber _ _) as [? [?|]]; [cbn; intros Hx; now destruct Hx|].
    refuse Hc ltac:(eexists; reflexivity).
Qed.

(** Against the same service [stop_time_entry], when it gets as far as
    its lookup, returns a hard error. *)
Lemma stop_time_entry_hard_error (w : World) :
  refusesAll c ->
  let out := handleStopTimeEntry requestError c w in
  sent (snd out) <> sent w ->
  exists a, firstRefusal c w (snd out) a /\
    fst out = (None, Some (wrapError "parsing current entry: " (apiError a))).
Proof.
  intros Hc out. subst out. unfold handleStopTimeEntry.
  destruct (getRequiredNumber _ _) as [? [?|]]; [cbn; intros Hx; now destruct Hx|].
  refuse Hc ltac:(reflexivity).
Qed.

End Handlers.

(** ** The handlers against the test doubles *)

(** C1 fails in [stop_time_entry].  The lookup of the current entry is
    answered 500; [decodeResponse] yields an [APIError]; the handler
    returns it wrapped, as a hard error, where [get_current_time_entry]
    returns a flagged result for the same answer to the same lookup. *)
Theorem stop_time_entry_lookup_api_error :
  fst (handleStopTimeEntry (Timestamp := Fixture.Timestamp) Fixture.requestError
         (Fixture.always 500 "Internal Server Error") Fixture.workspaceCall)
  = (None,
     Some (wrapError "parsing current entry: "
             (apiError (mkAPIError 500 "Internal Server Error")))) /\
  fst (handleGetCurrentTimeEntry (Timestamp := Fixture.Timestamp) Fixture.requestError
         Fixture.now Fixture.sinceText
         (Fixture.always 500 "Internal Server Error") Fixture.workspaceCall)
  = (Some (mcp.mkResult
             ["Failed to get current entry: API error (status 500): Internal Server Error"]
             true), None).
Proof. split; vm_compute; reflexivity. Qed.

Lemma lookup_not_found_witness :
  fst (handleStopTimeEntry (Timestamp := Fixture.Timestamp) Fixture.requestError
         (Fixture.always 404 "") Fixture.workspaceCall) = noRunningEntry /\
  fst (handleGetCurrentTimeEntry (Timestamp := Fixture.Timestamp) Fixture.requestError
         Fixture.now Fixture.sinceText (Fixture.always 404 "") Fixture.workspaceCall)
  = noRunningEntry.
Proof.
  destruct (lookup_not_found (Timestamp := Fixture.Timestamp) Fixture.requestError
              Fixture.now Fixture.sinceText (Fixture.always 404 "") Fixture.workspaceCall
              (Fixture.respond 404 "") eq_refl eq_refl) as [Hstop Hcur].
  split; [apply (Hstop 456); reflexivity | exact Hcur].
Defined.

Lemma for_day_is_get_time_entries_witness :
  fst (handleGetTimeEntriesForDay (Timestamp := Fixture.Timestamp) Fixture.requestError
         (Fixture.always 200 "[]") Fixture.dayCall)
  = fst (handleGetTimeEntries (Timestamp := Fixture.Timestamp) Fixture.requestError
           (Fixture.always 200 "[]")
           (Fixture.call {[ "start_date" := VString "2025-01-31";
                            "end_date" := VString "2025-02-01" ]})) /\
  sent (snd (handleGetTimeEntriesForDay (Timestamp := Fixture.Timestamp) Fixture.requestError
               (Fixture.always 200 "[]") Scenario.yearEndCall))
  = sent (snd (handleGetTimeEntries (Timestamp := Fixture.Timestamp) Fixture.requestError
                 (Fixture.always 200 "[]")
                 (Fixture.call {[ "start_date" := VString "2025-12-31";
                                  "end_date" := VString "2026-01-01" ]}))) /\
  nextCalendarDay (time.Date 2025 12 31) (time.Date 2026 1 1) /\
  time.Parse "2026-01-01" = inl (time.Date 2026 1 1).
Proof.
  split; [|split; [|split]].
  - exact (proj1 (for_day_is_get_time_entries (Timestamp := Fixture.Timestamp)
                    Fixture.requestError (Fixture.always 200 "[]") Fixture.dayCall
                    "2025-01-31" (time.Date 2025 1 31) eq_refl eq_refl)).
  - exact (proj1 (proj2 (for_day_is_get_time_entries (Timestamp := Fixture.Timestamp)
                    Fixture.requestError (Fixture.always 200 "[]") Scenario.yearEndCall
                    "2025-12-31" (time.Date 2025 12 31) eq_refl eq_refl))).
  - destruct (for_day_is_get_time_entries (Timestamp := Fixture.Timestamp)
                Fixture.requestError (Fixture.always 200 "[]") Scenario.yearEndCall
                "2025-12-31" (time.Date 2025 12 31) eq_refl eq_refl)
      as (_ & _ & _ & _ & _ & _ & Hnext & _).
    exact Hnext.
  - destruct (for_day_is_get_time_entries (Timestamp := Fixture.Timestamp)
                Fixture.requestError (Fixture.always 200 "[]") Scenario.yearEndCall
                "2025-12-31" (time.Date 2025 12 31) eq_refl eq_refl)
      as (_ & _ & _ & _ & _ & _ & _ & _ & _ & _ & _ & Hparse & _).
    apply Hparse. discriminate.
Defined.

Lemma get_time_entries_dates_witness :
  (exists err,
     handleGetTimeEntries (Timestamp := Fixture.Timestamp) Fixture.requestError
       (Fixture.always 200 "[]") Fixture.badDateCall = (hardError err, Fixture.badDateCall)) /\
  fst (handleGetTimeEntries (Timestamp := Fixture.Timestamp) Fixture.requestError
         (Fixture.always 200 "[]") Fixture.sameDateCall)
  = (Some (mcp.mkResult
             ["Found 0 time entries:" +:+ nl +:+ noEntriesText
              +:+ sameDateWarning "2025-01-15" "2025-01-16"] false), None) /\
  nextCalendarDay (time.Date 2025 1 15) (time.Date 2025 1 16) /\
  fst (handleGetTimeEntries (Timestamp := Fixture.Timestamp) Fixture.requestError
         (Fixture.always 200 "[]") Scenario.numberDateCall)
  = fst (handleGetTimeEntries (Timestamp := Fixture.Timestamp) Fixture.requestError
           (Fixture.always 200 "[]") (Fixture.call ∅)).
Proof.
  split; [|split; [|split]].
  - apply (proj1 (get_time_entries_dates (Timestamp := Fixture.Timestamp)
                    Fixture.requestError (Fixture.always 200 "[]") Fixture.badDateCall)
             "start_date"); [now left | discriminate | intros t; discriminate].
  - apply (proj1 (proj1 (proj2 (proj2 (get_time_entries_dates (Timestamp := Fixture.Timestamp)
                    Fixture.requestError (Fixture.always 200 "[]") Fixture.sameDateCall)))
             "2025-01-15" (time.Date 2025 1 15) (Fixture.respond 200 "[]")
             eq_refl eq_refl eq_refl eq_refl eq_refl)).
  - destruct (get_time_entries_dates (Timestamp := Fixture.Timestamp)
                Fixture.requestError (Fixture.always 200 "[]") Fixture.sameDateCall)
      as (_ & _ & _ & _ & _ & _ & Hday & _).
    destruct (Hday "2025-01-15" (time.Date 2025 1 15) eq_refl eq_refl eq_refl)
      as (_ & _ & Hnext & _).
    exact Hnext.
  - destruct (get_time_entries_dates (Timestamp := Fixture.Timestamp)
                Fixture.requestError (Fixture.always 200 "[]") Scenario.numberDateCall)
      as (_ & _ & _ & _ & _ & Hnum & _).
    destruct (Hnum "start_date" (VFloat64 Scenario.f20250115)) as [Hres _].
    + now left.
    + reflexivity.
    + intros [s Hs]. discriminate Hs.
    + exact Hres.
Defined.

(** C6, as stated, fails: a date that is given, is not empty and is not
    of the form YYYY-MM-DD does not always stop the call.  With the
    number 20250115 under [start_date] the request goes out, to the
    endpoint without a query, and the result is the listing. *)
Lemma get_time_entries_number_date_counterexample :
  ~ (forall (w : World) (key : string) (v : Value),
       key = "start_date" \/ key = "end_date" ->
       arguments w !! key = Some v -> v <> VNil -> v <> VString "" ->
       (forall s, v = VString s -> hasDateForm s = false) ->
       exists err,
         handleGetTimeEntries (Timestamp := Fixture.Timestamp) Fixture.requestError
           (Fixture.always 200 "[]") w = (hardError err, w)).
Proof.
  intros Hall.
  destruct (Hall Scenario.numberDateCall "start_date" (VFloat64 Scenario.f20250115))
    as [err Herr].
  - now left.
  - reflexivity.
  - discriminate.
  - discriminate.
  - intros s Hs. discriminate Hs.
  - apply (f_equal fst) in Herr. vm_compute in Herr. discriminate Herr.
Qed.

Example get_time_entries_number_date :
  fst (handleGetTimeEntries (Timestamp := Fixture.Timestamp) Fixture.requestError
         (Fixture.always 200 "[]") Scenario.numberDateCall)
  = (Some (mcp.mkResult ["Found 0 time entries:" +:+ nl +:+ noEntriesText] false), None) /\
  map http.URL
    (sent (snd (handleGetTimeEntries (Timestamp := Fixture.Timestamp) Fixture.requestError
                  (Fixture.always 200 "[]") Scenario.numberDateCall)))
  = ["https://api.track.toggl.com/api/v9/me/time_entries"].
Proof. split; vm_compute; reflexivity. Qed.

Lemma for_day_writes_arguments_witness :
  let after :=
    arguments (snd (handleGetTimeEntriesForDay (Timestamp := Fixture.Timestamp)
                      Fixture.requestError (Fixture.always 200 "[]") Fixture.overriddenCall)) in
  after !! "start_date" = Some (VString "2025-01-31") /\
  after !! "end_date" = Some (VString "2025-02-01") /\
  after !! "limit" = Some (VFloat64 Fixture.f456).
Proof.
  destruct (for_day_writes_arguments (Timestamp := Fixture.Timestamp)
              Fixture.requestError (Fixture.always 200 "[]") Fixture.overriddenCall
              "2025-01-31" (time.Date 2025 1 31) eq_refl eq_refl) as (Hs & He & Hk & _).
  split; [exact Hs|]. split; [exact He|].
  rewrite (Hk "limit"); [reflexivity | discriminate | discriminate].
Defined.

Lemma get_projects_active_not_bool_witness :
  fst (handleGetProjects (Timestamp := Fixture.Timestamp) Fixture.requestError
         (Fixture.always 200 "[]") Fixture.activeTextCall)
  = fst (handleGetProjects (Timestamp := Fixture.Timestamp) Fixture.requestError
           (Fixture.always 200 "[]")
           (setArguments Fixture.activeTextCall (delete "active" (arguments Fixture.activeTextCall)))).
Proof.
  exact (proj1 (get_projects_active_not_bool (Timestamp := Fixture.Timestamp)
                  Fixture.requestError (Fixture.always 200 "[]") Fixture.activeTextCall
                  (VString "true") eq_refl ltac:(discriminate))).
Defined.

(** The cases of the handlers' tests that bear on the properties. *)
Example get_projects_active_text :
  fst (handleGetProjects (Timestamp := Fixture.Timestamp) Fixture.requestError
         (Fixture.always 200 "[]") Fixture.activeTextCall)
  = (Some (mcp.mkResult ["Found 0 projects:" +:+ nl] false), None) /\
  map http.URL
    (sent (snd (handleGetProjects (Timestamp := Fixture.Timestamp) Fixture.requestError
                  (Fixture.always 200 "[]") Fixture.activeTextCall)))
  = ["https://api.track.toggl.com/api/v9/workspaces/456/projects"].
Proof. split; vm_compute; reflexivity. Qed.

Example get_time_entries_for_day_request :
  map http.URL
    (sent (snd (handleGetTimeEntriesForDay (Timestamp := Fixture.Timestamp)
                  Fixture.requestError (Fixture.always 200 "[]")
                  (Fixture.call {[ "date" := VString "2025-01-15" ]}))))
  = ["https://api.track.toggl.com/api/v9/me/time_entries?end_date=2025-01-16&start_date=2025-01-15"].
Proof. vm_compute. reflexivity. Qed.

(** * Further properties *)

(** ** Optional parameters *)

(** X1. The optional number is there exactly when the required one
    succeeds, with the same value; it is missing exactly when the
    required one fails. *)
Theorem optional_number_agrees (params : gmap string Value) (key : string) :
  (forall n, getOptionalNumber params key = Some n <->
             getRequiredNumber params key = (n, None)) /\
  (getOptionalNumber params key = None <-> snd (getRequiredNumber params key) <> None).
Proof.
  unfold getOptionalNumber, getRequiredNumber.
  destruct (assertFloat64 (params !! key)) as [f|]; cbn; split.
  - intros n. split; [intros [= <-]; reflexivity | intros [= <-]; reflexivity].
  - split; [discriminate | intros Hn; now destruct Hn].
  - intros n. split; discriminate.
  - split; [discriminate | reflexivity].
Qed.

(** X2. The required string succeeds exactly when the optional one is
    not empty, with the same value; the optional one is empty exactly
    when the required one fails. *)
Theorem optional_string_agrees (params : gmap string Value) (key : string) :
  (forall s, getRequiredString params key = (s, None) <->
             getOptionalString params key = s /\ s <> "") /\
  (snd (getRequiredString params key) <> None <-> getOptionalString params key = "").
Proof.
  unfold getOptionalString, getRequiredString.
  destruct (assertString (params !! key)) as [val|]; cbn.
  - destruct (String.eqb_spec val "") as [->|Hne]; cbn; split.
    + intros s. split; [discriminate | intros [<- Hs]; now destruct Hs].
    + split; [reflexivity | discriminate].
    + intros s. split; [intros [= <-]; now split | intros [<- _]; reflexivity].
    + split; [intros Hn; now destruct Hn | intros ->; now destruct Hne].
  - split.
    + intros s. split; [discriminate | intros [<- Hs]; now destruct Hs].
    + split; [reflexivity | discriminate].
Qed.

(** ** The running marker *)

Lemma itoa_head (z : Z) :
  0 <= z -> exists ch rest, Go.itoa z = String ch rest /\ time.isDigit ch = true.
Proof.
  intros Hz. unfold Go.itoa.
  assert (Hd : forall d, exists ch rest,
             NilZero.string_of_uint d = String ch rest /\ time.isDigit ch = true).
  { intros d. destruct d; cbn; do 2 eexists; split; reflexivity. }
  destruct z as [|p|p]; [| |lia].
  - do 2 eexists; split; reflexivity.
  - exact (Hd (Pos.to_uint p)).
Qed.

(** X3. [formatDuration] answers "[running]" for the negative durations
    and for no other: an elapsed time is never shown as running. *)
Theorem running_only_when_negative (seconds : Z) :
  formatDuration seconds = "[running]" <-> seconds < 0.
Proof.
  split.
  - intros Hf. destruct (Z_lt_ge_dec seconds 0) as [|Hge]; [assumption|exfalso].
    unfold formatDuration in Hf.
    destruct (Z.ltb_spec seconds 0); [lia|].
    destruct (duration_parts seconds ltac:(lia)) as (Hh & Hm & Hs & _).
    destruct (0 <? seconds ÷ 3600);
      [destruct (itoa_head (seconds ÷ 3600) Hh) as (ch & rest & E & Hd)
      |destruct (0 <? Z.rem seconds 3600 ÷ 60);
        [destruct (itoa_head (Z.rem seconds 3600 ÷ 60) (proj1 Hm)) as (ch & rest & E & Hd)
        |destruct (itoa_head (Z.rem seconds 60) (proj1 Hs)) as (ch & rest & E & Hd)]];
      rewrite E in Hf; cbn in Hf; injection Hf as Hc _; subst ch; discriminate Hd.
  - intros Hs. unfold formatDuration. now destruct (Z.ltb_spec seconds 0); [|lia].
Qed.

(** ** What every tool does and does not do *)

Section Tools.

Context {Timestamp : Type} `{json.Shape Timestamp}.
Variable requestError : string -> string -> option error.
Variable now : Timestamp.
Variable sinceText : Timestamp -> Timestamp -> string.
Variable marshalEntry : TimeEntryRequest Timestamp -> string * option error.
Variable marshalMap : gmap string Scalar -> string * option error.
Variable c : TogglClient.

Local Abbreviation table := (tools requestError now sinceText marshalEntry marshalMap c).

(** *** One request at a time *)

Lemma makeRequest_cases (method endpoint : string) (body : option string) (w : World) :
  (exists e, requestError method (togglAPIBase +:+ endpoint) = Some e /\
     makeRequest requestError c method endpoint body w
     = (inr (wrapError "creating request: " e), w)) \/
  (requestError method (togglAPIBase +:+ endpoint) = None /\
   makeRequest requestError c method endpoint body w
   = (match client c (sent w) (builtRequest c method endpoint body) with
      | inl resp => inl resp
      | inr e => inr (wrapError "executing request: " e)
      end,
      mkWorld (arguments w) (sent w ++ [builtRequest c method endpoint body])
        (logged w ++ [(method, endpoint)]))).
Proof.
  unfold makeRequest, builtRequest.
  destruct (requestError _ _) as [e|]; [left; eauto|right]. split; [reflexivity|].
  now destruct (client c (sent w) _).
Qed.

Lemma requestsAdded_same (w w' : World) :
  sent w' = sent w -> logged w' = logged w -> requestsAdded c w w' [].
Proof.
  intros Hs Hl. split; [now rewrite app_nil_r|].
  exists []. split; [reflexivity|]. cbn. now rewrite app_nil_r.
Qed.

Lemma requestsAdded_refl (w : World) : requestsAdded c w w [].
Proof. now apply requestsAdded_same. Qed.

Lemma requestsAdded_trans (w w1 w2 : World) (new1 new2 : list http.Request) :
  requestsAdded c w w1 new1 -> requestsAdded c w1 w2 new2 ->
  requestsAdded c w w2 (new1 ++ new2).
Proof.
  intros (Hs1 & calls1 & Hn1 & Hl1) (Hs2 & calls2 & Hn2 & Hl2). split.
  - now rewrite Hs2, Hs1, app_assoc.
  - exists (calls1 ++ calls2)%list. split.
    + now rewrite map_app, Hn1, Hn2.
    + now rewrite Hl2, Hl1, map_app, app_assoc.
Qed.

Lemma requestsAdded_setArguments (w w' : World) (a : gmap string Value) (new : list http.Request) :
  requestsAdded c (setArguments w a) w' new -> requestsAdded c w w' new.
Proof. intros Hadd. exact Hadd. Qed.

Lemma requestsAdded_built (w w' : World) (new : list http.Request) :
  requestsAdded c w w' new ->
  Forall (fun req =>
            http.BasicAuth req = Some (APIToken c, "api_token") /\
            http.Header req = [("Content-Type", "application/json")] /\
            exists endpoint, http.URL req = togglAPIBase +:+ endpoint) new.
Proof.
  intros (_ & calls & -> & _). apply List.Forall_forall. intros req Hreq.
  apply in_map_iff in Hreq as (m & <- & _). cbn. repeat split. eauto.
Qed.

Lemma makeRequest_added (method endpoint : string) (body : option string) (w : World) :
  exists new,
    requestsAdded c w (snd (makeRequest requestError c method endpoint body w)) new /\
    (length new <= 1)%nat.
Proof.
  destruct (makeRequest_cases method endpoint body w) as [(e & _ & ->)|[_ ->]]; cbn [snd].
  - exists []. split; [apply requestsAdded_refl | cbn; lia].
  - exists [builtRequest c method endpoint body]. split; [|cbn; lia].
    split; [reflexivity|]. exists [(method, endpoint, body)]. now split.
Qed.

(** After the case analysis of a handler: the world is the one the call
    started with, or the one its request left. *)
Ltac added_leaf :=
  cbn [snd fst];
  first
    [ exists []; split; [apply requestsAdded_same; reflexivity | cbn; lia]
    | match goal with
      | E1 : makeRequest _ _ ?m1 ?e1 ?b1 ?w = (_, ?w1),
        E2 : makeRequest _ _ ?m2 ?e2 ?b2 ?w1 = (_, ?w2)
        |- exists _, requestsAdded _ _ ?w2 _ /\ _ =>
          let n1 := fresh "new" in let n2 := fresh "new" in
          let H1 := fresh "Hadd" in let H2 := fresh "Hadd" in
          let L1 := fresh "Hlen" in let L2 := fresh "Hlen" in
          destruct (makeRequest_added m1 e1 b1 w) as (n1 & H1 & L1);
          destruct (makeRequest_added m2 e2 b2 w1) as (n2 & H2 & L2);
          rewrite E1 in H1; rewrite E2 in H2; cbn [snd] in H1, H2;
          exists (n1 ++ n2)%list; split;
          [exact (requestsAdded_trans _ _ _ _ _ H1 H2) | rewrite length_app; cbn; lia]
      end
    | match goal with
      | E1 : makeRequest _ _ ?m1 ?e1 ?b1 ?w = (_, ?w1)
        |- exists _, requestsAdded _ _ ?w1 _ /\ _ =>
          let n1 := fresh "new" in
          let H1 := fresh "Hadd" in let L1 := fresh "Hlen" in
          destruct (makeRequest_added m1 e1 b1 w) as (n1 & H1 & L1);
          rewrite E1 in H1; cbn [snd] in H1;
          exists n1; split; [exact H1 | cbn; lia]
      end ].

(** X4. Whatever the arguments and whatever the service answers, a tool
    sends at most one request ([stop_time_entry] at most two), after
    those already sent.  Each is the request the client builds: to the
    API base followed by the endpoint, with the JSON content type and
    the token as Basic-auth user name with the password "api_token".
    For each request one record goes to the logger, with the method and
    the endpoint and nothing else. *)
Theorem tools_send_little (decl : ToolDecl) (h : ToolHandler) (w : World) :
  In (decl, h) table ->
  exists new,
    requestsAdded c w (snd (h w)) new /\
    (length new <= maxRequests (declName decl))%nat /\
    Forall (fun req =>
              http.BasicAuth req = Some (APIToken c, "api_token") /\
              http.Header req = [("Content-Type", "application/json")] /\
              exists endpoint, http.URL req = togglAPIBase +:+ endpoint) new.
Proof.
  intros HIn.
  enough (Hnew : exists new, requestsAdded c w (snd (h w)) new /\
                   (length new <= maxRequests (declName decl))%nat).
  { destruct Hnew as (new & Hadd & Hlen). exists new. split; [exact Hadd|]. split; [exact Hlen|].
    now apply (requestsAdded_built w (snd (h w))). }
  cbn in HIn.
  repeat (destruct HIn as [HIn|HIn]; [injection HIn as <- <-; unfold wrapHandler|]);
    [ .. | contradiction ]; cbn [declName maxRequests String.eqb Ascii.eqb Bool.eqb].
  - unfold handleTestConnection. repeat case_match; added_leaf.
  - unfold handleStartTimeEntry. repeat case_match; added_leaf.
  - unfold handleStopTimeEntry. repeat case_match; added_leaf.
  - unfold handleGetCurrentTimeEntry. repeat case_match; added_leaf.
  - unfold handleGetTimeEntries. repeat case_match; added_leaf.
  - unfold handleGetTimeEntriesForDay, handleGetTimeEntries. repeat case_match; added_leaf.
  - unfold handleCreateProject. repeat case_match; added_leaf.
  - unfold handleGetProjects. repeat case_match; added_leaf.
Qed.

(** *** The argument map *)

Ltac kept_leaf :=
  cbn [snd fst];
  repeat match goal with
    | E : makeRequest _ _ ?m ?e ?b ?w = (_, ?w1) |- _ =>
        let Ha := fresh "Ha" in
        pose proof (makeRequest_arguments requestError c m e b w) as Ha;
        rewrite E in Ha; cbn [snd] in Ha; clear E
    end;
  congruence.

(** X5. No tool changes the argument map it is called with, but
    [get_time_entries_for_day]; and that one changes nothing under any
    key other than [start_date] and [end_date]. *)
Theorem tools_keep_arguments (decl : ToolDecl) (h : ToolHandler) (w : World) :
  In (decl, h) table ->
  (declName decl <> "get_time_entries_for_day" -> arguments (snd (h w)) = arguments w) /\
  (forall k, k <> "start_date" -> k <> "end_date" ->
     arguments (snd (h w)) !! k = arguments w !! k).
Proof.
  intros HIn. cbn in HIn.
  repeat (destruct HIn as [HIn|HIn]; [injection HIn as <- <-; unfold wrapHandler|]);
    [ .. | contradiction ]; cbn [declName].
  - enough (arguments (snd (handleTestConnection requestError c w)) = arguments w) as ->
      by now split.
    unfold handleTestConnection. repeat case_match; kept_leaf.
  - enough (arguments (snd (handleStartTimeEntry requestError now marshalEntry c w))
            = arguments w) as -> by now split.
    unfold handleStartTimeEntry. repeat case_match; kept_leaf.
  - enough (arguments (snd (handleStopTimeEntry requestError c w)) = arguments w) as ->
      by now split.
    unfold handleStopTimeEntry. repeat case_match; kept_leaf.
  - enough (arguments (snd (handleGetCurrentTimeEntry requestError now sinceText c w))
            = arguments w) as -> by now split.
    unfold handleGetCurrentTimeEntry. repeat case_match; kept_leaf.
  - rewrite handleGetTimeEntries_arguments. now split.
  - split; [intros Hn; now destruct Hn|]. intros k Hs He.
    unfold handleGetTimeEntriesForDay. repeat case_match; try reflexivity.
    rewrite handleGetTimeEntries_arguments. cbn [arguments setArguments].
    now simplify_map_eq.
  - enough (arguments (snd (handleCreateProject requestError marshalMap c w)) = arguments w)
      as -> by now split.
    unfold handleCreateProject. repeat case_match; kept_leaf.
  - enough (arguments (snd (handleGetProjects requestError c w)) = arguments w) as ->
      by now split.
    unfold handleGetProjects. repeat case_match; kept_leaf.
Qed.

(** *** Validation comes first *)

Lemma unfit_string (a : gmap string Value) (key : string) :
  fits PString (a !! key) = false ->
  getRequiredString a key = ("", Some (errorString (key +:+ " must be a non-empty string"))).
Proof.
  intros Hf. apply getRequiredString_other. intros s Hs. rewrite Hs in Hf. cbn in Hf.
  destruct (String.eqb_spec s ""); [assumption|discriminate].
Qed.

Lemma unfit_number (a : gmap string Value) (key : string) :
  fits PNumber (a !! key) = false ->
  getRequiredNumber a key = (0, Some (errorString (key +:+ " must be a number"))).
Proof.
  intros Hf. apply getRequiredNumber_other. intros f Hs. rewrite Hs in Hf. discriminate.
Qed.

(** X6. The handlers agree with the declarations of [SetupTools]: when a
    parameter declared required is missing or does not fit its declared
    type (a required string must also not be empty), the tool returns a
    hard error and the world is as before: nothing sent, nothing logged,
    no argument changed. *)
Theorem required_parameters_checked (decl : ToolDecl) (h : ToolHandler) (p : Property)
    (w : World) :
  In (decl, h) table ->
  In p (declProperties decl) ->
  propRequired p = true ->
  fits (propType p) (arguments w !! propName p) = false ->
  exists err, h w = (hardError err, w).
Proof.
  intros HIn Hp Hreq Hfit. cbn in HIn.
  repeat (destruct HIn as [HIn|HIn]; [injection HIn as <- <-; unfold wrapHandler|]);
    [ .. | contradiction ]; cbn [declProperties] in Hp;
    repeat (destruct Hp as [<-|Hp]; [cbn in Hreq, Hfit; try discriminate Hreq|]);
    try contradiction.
  - unfold handleStartTimeEntry. rewrite (unfit_string _ _ Hfit). eauto.
  - unfold handleStartTimeEntry. rewrite (unfit_number _ _ Hfit).
    destruct (getRequiredString _ _) as [? [?|]]; eauto.
  - unfold handleStopTimeEntry. rewrite (unfit_number _ _ Hfit). eauto.
  - unfold handleGetTimeEntriesForDay. rewrite (unfit_string _ _ Hfit). eauto.
  - unfold handleCreateProject. rewrite (unfit_string _ _ Hfit). eauto.
  - unfold handleCreateProject. rewrite (unfit_number _ _ Hfit).
    destruct (getRequiredString _ _) as [? [?|]]; eauto.
  - unfold handleGetProjects. rewrite (unfit_number _ _ Hfit). eauto.
Qed.

(** *** Failures that are not the service's refusal *)

(** On a transport that fails, a request made yields no response. *)
Lemma failsAll_no_response (method endpoint : string) (body : option string)
    (w w' : World) (resp : http.Response) :
  failsAll c ->
  makeRequest requestError c method endpoint body w <> (inl resp, w').
Proof.
  intros Hf E.
  destruct (makeRequest_cases method endpoint body w) as [(e & _ & E')|[_ E']];
    rewrite E' in E; [discriminate|].
  destruct (Hf (sent w) (builtRequest c method endpoint body)) as [err Hx].
  rewrite Hx in E. discriminate.
Qed.

Ltac hard_leaf Hf :=
  cbn [fst snd];
  first
    [ eexists; reflexivity
    | exfalso;
      match goal with
      | E : makeRequest _ _ ?m ?e ?b ?w = (inl ?r, ?w1) |- _ =>
          exact (failsAll_no_response m e b w w1 r Hf E)
      end ].

(** X7. When the transport fails on every round trip, every tool returns
    a hard error: never a result, flagged or not. *)
Theorem transport_failure_is_hard_error (decl : ToolDecl) (h : ToolHandler) (w : World) :
  failsAll c ->
  In (decl, h) table ->
  exists err, fst (h w) = (None, Some err).
Proof.
  intros Hf HIn. cbn in HIn.
  repeat (destruct HIn as [HIn|HIn]; [injection HIn as <- <-; unfold wrapHandler|]);
    [ .. | contradiction ].
  - unfold handleTestConnection. repeat case_match; hard_leaf Hf.
  - unfold handleStartTimeEntry. repeat case_match; hard_leaf Hf.
  - unfold handleStopTimeEntry. repeat case_match; hard_leaf Hf.
  - unfold handleGetCurrentTimeEntry. repeat case_match; hard_leaf Hf.
  - unfold handleGetTimeEntries. repeat case_match; hard_leaf Hf.
  - unfold handleGetTimeEntriesForDay, handleGetTimeEntries. repeat case_match; hard_leaf Hf.
  - unfold handleCreateProject. repeat case_match; hard_leaf Hf.
  - unfold handleGetProjects. repeat case_match; hard_leaf Hf.
Qed.

(** A response with a success status whose body is not JSON decodes to
    the wrapped syntax error, whatever the shape. *)
Lemma decodeResponse_garbled {T : Type} `{json.Shape T} (resp : http.Response) :
  http.failure (http.Body resp) = None ->
  successStatus (http.StatusCode resp) ->
  json.parse (http.bytes (http.Body resp)) = None ->
  decodeResponse (T := T) resp
  = (json.zero, Some (wrapError "decoding response: " (jsonError json.SyntaxError))).
Proof.
  intros Hr Hs Hp. rewrite (decodeResponse_success_status resp Hr Hs).
  unfold json.Unmarshal. now rewrite Hp.
Qed.

Ltac garble Hc :=
  let resp := fresh "resp" in
  let E := fresh "E" in
  let Hr := fresh "Hr" in
  let Hs := fresh "Hs" in
  let Hp := fresh "Hp" in
  let Hx := fresh "Hx" in
  unfold makeRequest;
  match goal with
  | |- context [requestError ?m ?u] =>
      destruct (requestError m u);
      [cbn; split; [eexists; reflexivity | intros Hx; now destruct Hx]|]
  end;
  match goal with
  | |- context [client c ?h ?r] =>
      destruct (Hc h r) as (resp & E & Hr & Hs & Hp); rewrite E
  end;
  cbv beta iota zeta;
  try (destruct (Z.eqb_spec (http.StatusCode resp) http.StatusNotFound) as [Hx|_];
       [unfold successStatus, http.StatusNotFound in *; lia|]);
  rewrite (decodeResponse_garbled resp Hr Hs Hp); cbn [fst snd sent];
  split; [eexists; reflexivity | intros _; eexists; reflexivity].

Ltac invalid :=
  let Hx := fresh "Hx" in
  cbn; split; [eexists; reflexivity | intros Hx; now destruct Hx].

(** X8. When the service answers every request with a success status
    and a body that is not JSON, every tool returns a hard error; once
    its request has gone out, that error is the decode error, wrapped,
    and so never taken for a refusal of the service. *)
Theorem undecodable_is_hard_error (decl : ToolDecl) (h : ToolHandler) (w : World) :
  garblesAll c ->
  In (decl, h) table ->
  (exists err, fst (h w) = (None, Some err)) /\
  (sent (snd (h w)) <> sent w ->
   exists prefix,
     fst (h w) = (None, Some (wrapError prefix
                    (wrapError "decoding response: " (jsonError json.SyntaxError))))).
Proof.
  intros Hc HIn. cbn in HIn.
  repeat (destruct HIn as [HIn|HIn]; [injection HIn as <- <-; unfold wrapHandler|]);
    [ .. | contradiction ].
  - unfold handleTestConnection. garble Hc.
  - unfold handleStartTimeEntry.
    destruct (getRequiredString _ _) as [? [?|]]; [invalid|].
    destruct (getRequiredNumber _ _) as [? [?|]]; [invalid|].
    destruct (marshalEntry _) as [? [?|]]; [invalid|].
    garble Hc.
  - unfold handleStopTimeEntry.
    destruct (getRequiredNumber _ _) as [? [?|]]; [invalid|].
    garble Hc.
  - unfold handleGetCurrentTimeEntry. garble Hc.
  - unfold handleGetTimeEntries.
    destruct (if String.eqb (getOptionalString (arguments w) "start_date") "" then _ else _)
      as [params|err]; [|invalid].
    destruct (if String.eqb (getOptionalString (arguments w) "end_date") "" then _ else _)
      as [params'|err]; [|invalid].
    garble Hc.
  - unfold handleGetTimeEntriesForDay.
    destruct (getRequiredString _ _) as [? [?|]]; [invalid|].
    destruct (time.Parse _) as [?|?]; [|invalid].
    cbv beta iota zeta. unfold handleGetTimeEntries.
    destruct (if String.eqb (getOptionalString _ "start_date") "" then _ else _)
      as [params|err]; [|invalid].
    destruct (if String.eqb (getOptionalString _ "end_date") "" then _ else _)
      as [params'|err]; [|invalid].
    garble Hc.
  - unfold handleCreateProject.
    destruct (getRequiredString _ _) as [? [?|]]; [invalid|].
    destruct (getRequiredNumber _ _) as [? [?|]]; [invalid|].
    cbv beta iota zeta.
    destruct (marshalMap _) as [? [?|]]; [invalid|].
    garble Hc.
  - unfold handleGetProjects.
    destruct (getRequiredNumber _ _) as [? [?|]]; [invalid|].
    garble Hc.
Qed.

Ltac reject Hc :=
  let resp := fresh "resp" in
  let E := fresh "E" in
  let Hr := fresh "Hr" in
  let Hs := fresh "Hs" in
  let Hx := fresh "Hx" in
  unfold makeRequest;
  match goal with
  | |- context [requestError ?m ?u] =>
      destruct (requestError m u); [cbn; intros Hx; now destruct Hx|]
  end;
  match goal with
  | |- context [client c ?h ?r] =>
      destruct (Hc h r) as (resp & E & Hr & Hs); rewrite E
  end;
  cbv beta iota zeta;
  rewrite (decodeResponse_api_error resp Hr Hs); cbn [fst snd sent];
  intros _; eexists; split; [do 2 eexists; repeat split; exact E | eexists; reflexivity].

Ltac unsent :=
  let Hx := fresh "Hx" in cbn; intros Hx; now destruct Hx.

(** X9. A 404 is the absence of a running entry only in the lookup of
    the current entry.  For the six tools that make no such lookup, any
    failure status, 404 included, gives a result flagged as an error
    with the status and the body in its text. *)
Theorem not_found_elsewhere_is_flagged (decl : ToolDecl) (h : ToolHandler) (w : World) :
  rejectsAll c ->
  In (decl, h) table ->
  declName decl <> "stop_time_entry" ->
  declName decl <> "get_current_time_entry" ->
  sent (snd (h w)) <> sent w ->
  exists a, firstRefusal c w (snd (h w)) a /\ flaggedWith (fst (h w)) a.
Proof.
  intros Hc HIn Hstop Hcur. cbn in HIn.
  repeat (destruct HIn as [HIn|HIn]; [injection HIn as <- <-; unfold wrapHandler|]);
    [ .. | contradiction ]; cbn [declName] in Hstop, Hcur;
    try (now destruct Hstop); try (now destruct Hcur).
  - unfold handleTestConnection. reject Hc.
  - unfold handleStartTimeEntry.
    destruct (getRequiredString _ _) as [? [?|]]; [unsent|].
    destruct (getRequiredNumber _ _) as [? [?|]]; [unsent|].
    destruct (marshalEntry _) as [? [?|]]; [unsent|].
    reject Hc.
  - unfold handleGetTimeEntries.
    destruct (if String.eqb (getOptionalString (arguments w) "start_date") "" then _ else _)
      as [params|err]; [|unsent].
    destruct (if String.eqb (getOptionalString (arguments w) "end_date") "" then _ else _)
      as [params'|err]; [|unsent].
    reject Hc.
  - unfold handleGetTimeEntriesForDay.
    destruct (getRequiredString _ _) as [? [?|]]; [unsent|].
    destruct (time.Parse _) as [?|?]; [|unsent].
    cbv beta iota zeta. unfold handleGetTimeEntries.
    destruct (if String.eqb (getOptionalString _ "start_date") "" then _ else _)
      as [params|err]; [|unsent].
    destruct (if String.eqb (getOptionalString _ "end_date") "" then _ else _)
      as [params'|err]; [|unsent].
    reject Hc.
  - unfold handleCreateProject.
    destruct (getRequiredString _ _) as [? [?|]]; [unsent|].
    destruct (getRequiredNumber _ _) as [? [?|]]; [unsent|].
    cbv beta iota zeta.
    destruct (marshalMap _) as [? [?|]]; [unsent|].
    reject Hc.
  - unfold handleGetProjects.
    destruct (getRequiredNumber _ _) as [? [?|]]; [unsent|].
    reject Hc.
Qed.

(** *** A request that goes out *)

Lemma makeRequest_sent (method endpoint : string) (body : option string) (w : World) :
  requestError method (togglAPIBase +:+ endpoint) = None ->
  makeRequest requestError c method endpoint body w
  = (match client c (sent w) (builtRequest c method endpoint body) with
     | inl resp => inl resp
     | inr e => inr (wrapError "executing request: " e)
     end,
     mkWorld (arguments w) (sent w ++ [builtRequest c method endpoint body])
       (logged w ++ [(method, endpoint)])).
Proof.
  intros Hreq. destruct (makeRequest_cases method endpoint body w) as [(e & He & _)|[_ E]];
    [congruence | exact E].
Qed.

(** The world after a request: whatever the answer, the request is in
    the list. *)
Lemma makeRequest_sent_world (method endpoint : string) (body : option string) (w : World) :
  requestError method (togglAPIBase +:+ endpoint) = None ->
  sent (snd (makeRequest requestError c method endpoint body w))
  = (sent w ++ [builtRequest c method endpoint body])%list.
Proof. intros Hreq. now rewrite (makeRequest_sent _ _ _ _ Hreq). Qed.

(** *** [stop_time_entry] *)

Lemma stop_after_lookup (w : World) (id : Z) (resp1 : http.Response)
    (current : TimeEntry Timestamp) :
  getRequiredNumber (arguments w) "workspace_id" = (id, None) ->
  requestError "GET" (togglAPIBase +:+ currentEndpoint) = None ->
  client c (sent w) (builtRequest c "GET" currentEndpoint None) = inl resp1 ->
  http.StatusCode resp1 <> 404 ->
  decodeResponse resp1 = (current, None) ->
  handleStopTimeEntry requestError c w
  = let w1 := mkWorld (arguments w) (sent w ++ [builtRequest c "GET" currentEndpoint None])
                (logged w ++ [("GET", currentEndpoint)]) in
    let '(stopResp, w2) :=
      makeRequest requestError c "PATCH" (stopEndpoint id (ID (TimeEntry_Base current))) None w1 in
    match stopResp with
    | inr err => (hardError (wrapError "stopping time entry: " err), w2)
    | inl stopResp =>
        match snd (decodeResponse (T := TimeEntry Timestamp) stopResp) with
        | Some err =>
            (classify "Failed to stop time entry: " "decoding stop response: " err, w2)
        | None =>
            (toolResult (mcp.NewToolResultText
               ("Stopped time entry: " +:+ Description current +:+ " (ID: "
                +:+ Go.itoa (ID (TimeEntry_Base current)) +:+ ")")), w2)
        end
    end.
Proof.
  intros Hid Hreq Hresp Hn Hdec. unfold handleStopTimeEntry. rewrite Hid.
  change "/me/time_entries/current" with currentEndpoint.
  rewrite (makeRequest_sent _ _ _ _ Hreq). unfold http.MethodGet. rewrite Hresp.
  destruct (Z.eqb_spec (http.StatusCode resp1) http.StatusNotFound) as [E|_]; [now destruct Hn|].
  rewrite Hdec. cbv beta iota zeta. unfold stopEndpoint, http.MethodPatch.
  destruct (makeRequest _ _ _ _ _ _) as [[stopResp|err] w2]; [|reflexivity].
  now destruct (decodeResponse stopResp) as [? [?|]].
Qed.

(** X10. [stop_time_entry] with a running entry: the lookup, then a
    PATCH of the stop endpoint made of the workspace id of the arguments
    and the id of the entry the lookup returned; two requests, in that
    order.  The text names the entry as the lookup returned it, not as
    the stop request answered. *)
Theorem stop_time_entry_stops_current (w : World) (id : Z) (resp1 resp2 : http.Response)
    (current stopped : TimeEntry Timestamp) :
  let lookup := builtRequest c "GET" currentEndpoint None in
  let stop := builtRequest c "PATCH" (stopEndpoint id (ID (TimeEntry_Base current))) None in
  getRequiredNumber (arguments w) "workspace_id" = (id, None) ->
  requestError "GET" (togglAPIBase +:+ currentEndpoint) = None ->
  requestError "PATCH" (togglAPIBase +:+ stopEndpoint id (ID (TimeEntry_Base current))) = None ->
  client c (sent w) lookup = inl resp1 ->
  http.StatusCode resp1 <> 404 ->
  decodeResponse resp1 = (current, None) ->
  client c (sent w ++ [lookup]) stop = inl resp2 ->
  decodeResponse resp2 = (stopped, None) ->
  fst (handleStopTimeEntry requestError c w)
  = (Some (mcp.mkResult
             ["Stopped time entry: " +:+ Description current +:+ " (ID: "
              +:+ Go.itoa (ID (TimeEntry_Base current)) +:+ ")"] false), None) /\
  sent (snd (handleStopTimeEntry requestError c w)) = (sent w ++ [lookup; stop])%list.
Proof.
  intros lookup stop Hid Hreq1 Hreq2 Hresp1 Hn Hdec1 Hresp2 Hdec2.
  rewrite (stop_after_lookup w id resp1 current Hid Hreq1 Hresp1 Hn Hdec1).
  cbv zeta. rewrite (makeRequest_sent _ _ _ _ Hreq2). cbn [sent].
  fold lookup stop. rewrite Hresp2, Hdec2. cbn [fst snd sent].
  split; [reflexivity|]. now rewrite <- app_assoc.
Qed.

(** X11. When the entry was found and the stop request is refused, with
    any failure status (404 too: the entry may have been stopped
    meanwhile), the result is flagged as an error with the status and
    body in its text. *)
Theorem stop_time_entry_refused (w : World) (id : Z) (resp1 resp2 : http.Response)
    (current : TimeEntry Timestamp) :
  let lookup := builtRequest c "GET" currentEndpoint None in
  let stop := builtRequest c "PATCH" (stopEndpoint id (ID (TimeEntry_Base current))) None in
  getRequiredNumber (arguments w) "workspace_id" = (id, None) ->
  requestError "GET" (togglAPIBase +:+ currentEndpoint) = None ->
  requestError "PATCH" (togglAPIBase +:+ stopEndpoint id (ID (TimeEntry_Base current))) = None ->
  client c (sent w) lookup = inl resp1 ->
  http.StatusCode resp1 <> 404 ->
  decodeResponse resp1 = (current, None) ->
  client c (sent w ++ [lookup]) stop = inl resp2 ->
  http.failure (http.Body resp2) = None ->
  ~ successStatus (http.StatusCode resp2) ->
  fst (handleStopTimeEntry requestError c w)
  = (Some (mcp.mkResult
             ["Failed to stop time entry: API error (status "
              +:+ Go.itoa (http.StatusCode resp2) +:+ "): " +:+ http.bytes (http.Body resp2)]
             true), None).
Proof.
  intros lookup stop Hid Hreq1 Hreq2 Hresp1 Hn Hdec1 Hresp2 Hr Hs.
  rewrite (stop_after_lookup w id resp1 current Hid Hreq1 Hresp1 Hn Hdec1).
  cbv zeta. rewrite (makeRequest_sent _ _ _ _ Hreq2). cbn [sent].
  fold lookup stop. rewrite Hresp2, (decodeResponse_api_error resp2 Hr Hs). reflexivity.
Qed.

(** *** [start_time_entry] *)

(** X12. [start_time_entry] posts one request to the time entries of the
    workspace; its body is the marshalled entry with the description of
    the arguments, the clock's time, duration -1 (a running entry), the
    project id when one is given as a number, and "toggl-mcp" as creator.
    The text of a success names the entry as the service returned it. *)
Theorem start_time_entry_posts (w : World) (description payload : string) (id : Z) :
  let entry : TimeEntryRequest Timestamp := startPayload (arguments w) description now in
  let endpoint := "/workspaces/" +:+ Go.itoa id +:+ "/time_entries" in
  getRequiredString (arguments w) "description" = (description, None) ->
  getRequiredNumber (arguments w) "workspace_id" = (id, None) ->
  marshalEntry entry = (payload, None) ->
  requestError "POST" (togglAPIBase +:+ endpoint) = None ->
  Req_Duration entry = -1 /\
  Req_ProjectID entry = getOptionalNumber (arguments w) "project_id" /\
  sent (snd (handleStartTimeEntry requestError now marshalEntry c w))
  = (sent w ++ [builtRequest c "POST" endpoint (Some payload)])%list /\
  (forall resp result,
     client c (sent w) (builtRequest c "POST" endpoint (Some payload)) = inl resp ->
     decodeResponse resp = (result, None) ->
     fst (handleStartTimeEntry requestError now marshalEntry c w)
     = (Some (mcp.mkResult
                ["Started time entry: " +:+ Description result +:+ " (ID: "
                 +:+ Go.itoa (ID (TimeEntry_Base result)) +:+ ")"] false), None)).
Proof.
  intros entry endpoint Hd Hid Hm Hreq.
  split; [reflexivity|]. split; [reflexivity|].
  unfold handleStartTimeEntry. rewrite Hd, Hid.
  fold (startPayload (arguments w) description now). fold entry. rewrite Hm.
  fold endpoint. unfold http.MethodPost. rewrite (makeRequest_sent _ _ _ _ Hreq). split.
  - destruct (client c _ _) as [resp|err]; [|reflexivity].
    now destruct (decodeResponse resp) as [? [?|]].
  - intros resp result Hresp Hdec. now rewrite Hresp, Hdec.
Qed.

(** *** [create_project] *)

Lemma projectPayload_lookups (a : gmap string Value) (name : string) :
  projectPayload a name !! "name" = Some (SString name) /\
  projectPayload a name !! "active" = Some (SBool true) /\
  projectPayload a name !! "color"
  = (if String.eqb (getOptionalString a "color") "" then None
     else Some (SString (getOptionalString a "color"))) /\
  projectPayload a name !! "client_id" = SInt <$> getOptionalNumber a "client_id" /\
  (forall k, k <> "name" -> k <> "active" -> k <> "color" -> k <> "client_id" ->
     projectPayload a name !! k = None).
Proof.
  unfold projectPayload.
  destruct (String.eqb (getOptionalString a "color") ""),
           (getOptionalNumber a "client_id") as [n|];
    repeat split; intros; now simplify_map_eq.
Qed.

(** X13. [create_project] posts to the projects of the workspace the
    marshalled map holding the name and [active] set to true, the color
    only when it is a non-empty string, the client id only when it is a
    number, and no other key. *)
Theorem create_project_posts (w : World) (name payload : string) (id : Z) :
  let project := projectPayload (arguments w) name in
  let endpoint := "/workspaces/" +:+ Go.itoa id +:+ "/projects" in
  getRequiredString (arguments w) "name" = (name, None) ->
  getRequiredNumber (arguments w) "workspace_id" = (id, None) ->
  marshalMap project = (payload, None) ->
  requestError "POST" (togglAPIBase +:+ endpoint) = None ->
  sent (snd (handleCreateProject requestError marshalMap c w))
  = (sent w ++ [builtRequest c "POST" endpoint (Some payload)])%list /\
  project !! "name" = Some (SString name) /\
  project !! "active" = Some (SBool true) /\
  project !! "color"
  = (if String.eqb (getOptionalString (arguments w) "color") "" then None
     else Some (SString (getOptionalString (arguments w) "color"))) /\
  project !! "client_id" = SInt <$> getOptionalNumber (arguments w) "client_id" /\
  (forall k, k <> "name" -> k <> "active" -> k <> "color" -> k <> "client_id" ->
     project !! k = None).
Proof.
  intros project endpoint Hn Hid Hm Hreq.
  split; [|apply projectPayload_lookups].
  unfold handleCreateProject. rewrite Hn, Hid. cbv beta iota zeta.
  fold (projectPayload (arguments w) name). fold project. rewrite Hm.
  fold endpoint. unfold http.MethodPost. rewrite (makeRequest_sent _ _ _ _ Hreq).
  destruct (client c _ _) as [resp|err]; [|reflexivity].
  now destruct (decodeResponse resp) as [? [?|]].
Qed.

(** *** [get_projects] *)

(** X14. With [active] a boolean, [get_projects] asks for the projects of
    the workspace with the query [active=true] or [active=false]. *)
Theorem get_projects_active_query (w : World) (b : bool) (id : Z) :
  let endpoint :=
    "/workspaces/" +:+ Go.itoa id +:+ "/projects?active=" +:+ (if b then "true" else "false") in
  arguments w !! "active" = Some (VBool b) ->
  getRequiredNumber (arguments w) "workspace_id" = (id, None) ->
  requestError "GET" (togglAPIBase +:+ endpoint) = None ->
  sent (snd (handleGetProjects requestError c w))
  = (sent w ++ [builtRequest c "GET" endpoint None])%list.
Proof.
  intros endpoint Ha Hid Hreq. unfold handleGetProjects. rewrite Hid, Ha.
  cbv beta iota zeta. cbn [assertBool url.Set_].
  assert (He : ("/workspaces/" +:+ Go.itoa id +:+ "/projects") +:+ "?"
               +:+ url.Encode [("active", Go.FormatBool b)] = endpoint).
  { unfold endpoint. rewrite !append_assoc. now destruct b. }
  cbv beta iota. rewrite He. unfold http.MethodGet.
  rewrite (makeRequest_sent _ _ _ _ Hreq).
  destruct (client c _ _) as [resp|err]; [|reflexivity].
  now destruct (decodeResponse resp) as [? [?|]].
Qed.

(** *** [get_time_entries] *)

(** X15. The query of [get_time_entries] holds the dates that are given
    as non-empty strings, and only those.  A date that is absent, empty
    or not a string (a number, say) is left out without any error: with
    neither date the request goes to the bare endpoint, with one date the
    query holds that one alone. *)
Theorem get_time_entries_query (w : World) :
  (noDate (arguments w) "start_date" -> noDate (arguments w) "end_date" ->
   requestError "GET" (togglAPIBase +:+ "/me/time_entries") = None ->
   sent (snd (handleGetTimeEntries requestError c w))
   = (sent w ++ [builtRequest c "GET" "/me/time_entries" None])%list) /\
  (forall d t,
     getOptionalString (arguments w) "start_date" = d -> time.Parse d = inl t ->
     noDate (arguments w) "end_date" ->
     requestError "GET" (togglAPIBase +:+ "/me/time_entries?start_date=" +:+ d) = None ->
     sent (snd (handleGetTimeEntries requestError c w))
     = (sent w ++ [builtRequest c "GET" ("/me/time_entries?start_date=" +:+ d) None])%list) /\
  (forall e t,
     noDate (arguments w) "start_date" ->
     getOptionalString (arguments w) "end_date" = e -> time.Parse e = inl t ->
     requestError "GET" (togglAPIBase +:+ "/me/time_entries?end_date=" +:+ e) = None ->
     sent (snd (handleGetTimeEntries requestError c w))
     = (sent w ++ [builtRequest c "GET" ("/me/time_entries?end_date=" +:+ e) None])%list).
Proof.
  unfold noDate. split; [|split].
  - intros Hs He Hreq. unfold handleGetTimeEntries. rewrite Hs, He. cbn [String.eqb].
    cbv beta iota zeta. unfold http.MethodGet. rewrite (makeRequest_sent _ _ _ _ Hreq).
    destruct (client c _ _) as [resp|err]; [|reflexivity].
    now destruct (decodeResponse resp) as [? [?|]].
  - intros d t Hs Hp He Hreq. unfold handleGetTimeEntries. rewrite Hs, He.
    assert (Hd : String.eqb d "" = false) by (apply String.eqb_neq; intros ->; discriminate).
    rewrite Hd, Hp. cbn [String.eqb]. cbv beta iota zeta. cbn [url.Set_ url.Encode].
    rewrite (Parse_QueryEscape d t Hp).
    change ("/me/time_entries" +:+ "?" +:+ url.QueryEscape "start_date" +:+ "=" +:+ d)
      with ("/me/time_entries?start_date=" +:+ d).
    unfold http.MethodGet. rewrite (makeRequest_sent _ _ _ _ Hreq).
    destruct (client c _ _) as [resp|err]; [|reflexivity].
    now destruct (decodeResponse resp) as [? [?|]].
  - intros e t Hs He Hp Hreq. unfold handleGetTimeEntries. rewrite Hs, He.
    assert (Hd : String.eqb e "" = false) by (apply String.eqb_neq; intros ->; discriminate).
    rewrite Hd, Hp. cbn [String.eqb]. cbv beta iota zeta. cbn [url.Set_ url.Encode].
    rewrite (Parse_QueryEscape e t Hp).
    change ("/me/time_entries" +:+ "?" +:+ url.QueryEscape "end_date" +:+ "=" +:+ e)
      with ("/me/time_entries?end_date=" +:+ e).
    unfold http.MethodGet. rewrite (makeRequest_sent _ _ _ _ Hreq).
    destruct (client c _ _) as [resp|err]; [|reflexivity].
    now destruct (decodeResponse resp) as [? [?|]].
Qed.

(** *** [get_current_time_entry] and [test_connection] *)

(** X20. [get_current_time_entry] with an entry found: the lookup is the
    only request, and the text holds the description and the id the
    service returned and the time since the entry's start, as the clock
    gives it.  The duration and the stop time of the entry play no part. *)
Theorem get_current_reports_entry (w : World) (resp : http.Response)
    (current : TimeEntry Timestamp) :
  let lookup := builtRequest c "GET" currentEndpoint None in
  requestError "GET" (togglAPIBase +:+ currentEndpoint) = None ->
  client c (sent w) lookup = inl resp ->
  http.StatusCode resp <> 404 ->
  decodeResponse resp = (current, None) ->
  fst (handleGetCurrentTimeEntry requestError now sinceText c w)
  = (Some (mcp.mkResult
             ["Current time entry: " +:+ Description current +:+ " (ID: "
              +:+ Go.itoa (ID (TimeEntry_Base current)) +:+ ", Running for: "
              +:+ sinceText now (Start current) +:+ ")"] false), None) /\
  sent (snd (handleGetCurrentTimeEntry requestError now sinceText c w))
  = (sent w ++ [lookup])%list.
Proof.
  intros lookup Hreq Hresp Hn Hdec. unfold handleGetCurrentTimeEntry.
  change "/me/time_entries/current" with currentEndpoint.
  rewrite (makeRequest_sent _ _ _ _ Hreq). unfold http.MethodGet. fold lookup. rewrite Hresp.
  destruct (Z.eqb_spec (http.StatusCode resp) http.StatusNotFound) as [E|_]; [now destruct Hn|].
  rewrite Hdec. split; reflexivity.
Qed.

(** X21. [test_connection] and [get_current_time_entry] do not read
    their arguments: with the same requests sent before, any two argument
    maps give the same result and the same requests. *)
Theorem arguments_not_read (decl : ToolDecl) (h : ToolHandler) (w : World)
    (a : gmap string Value) :
  In (decl, h) table ->
  declProperties decl = [] ->
  fst (h (setArguments w a)) = fst (h w) /\
  sent (snd (h (setArguments w a))) = sent (snd (h w)) /\
  logged (snd (h (setArguments w a))) = logged (snd (h w)).
Proof.
  intros HIn Hp. cbn in HIn.
  repeat (destruct HIn as [HIn|HIn]; [injection HIn as <- <-; unfold wrapHandler|]);
    [ .. | contradiction ]; cbn [declProperties] in Hp; try discriminate Hp.
  - unfold handleTestConnection, makeRequest. cbn [sent logged setArguments].
    destruct (requestError _ _); [now repeat split|].
    destruct (client c _ _) as [resp|err]; [|now repeat split].
    destruct (decodeResponse resp) as [? [?|]]; now repeat split.
  - unfold handleGetCurrentTimeEntry, makeRequest. cbn [sent logged setArguments].
    destruct (requestError _ _); [now repeat split|].
    destruct (client c _ _) as [resp|err]; [|now repeat split].
    destruct (http.StatusCode resp =? http.StatusNotFound); [now repeat split|].
    destruct (decodeResponse resp) as [? [?|]]; now repeat split.
Qed.

End Tools.

(** ** The end date of [get_time_entries_for_day] *)

Section ForDay.

Context {Timestamp : Type} `{json.Shape Timestamp}.
Variable requestError : string -> string -> option error.
Variable c : TogglClient.

(** X16. The end date [get_time_entries_for_day] computes is one that
    [get_time_entries] accepts: for every date but 9999-12-31 the call
    reaches the service, with the date and the day after in the query.
    For 9999-12-31 the day after has a five-digit year: the call ends in
    the hard error of a malformed end date with nothing sent, and the
    dates it has already written stay in the argument map. *)
Theorem for_day_reaches_service (w : World) (d : string) (t : time.Time) :
  arguments w !! "date" = Some (VString d) ->
  time.Parse d = inl t ->
  let next := time.Format (time.AddDay t) in
  let out := handleGetTimeEntriesForDay requestError c w in
  (d <> "9999-12-31" ->
   requestError "GET" (togglAPIBase +:+ dateEndpoint d next) = None ->
   sent (snd out) = (sent w ++ [builtRequest c "GET" (dateEndpoint d next) None])%list) /\
  (d = "9999-12-31" ->
   (exists err,
      fst out = (None, Some (wrapError "invalid end_date format (use YYYY-MM-DD): " err))) /\
   sent (snd out) = sent w /\
   arguments (snd out) !! "start_date" = Some (VString "9999-12-31") /\
   arguments (snd out) !! "end_date" = Some (VString "10000-01-01")).
Proof.
  intros Hd Hp next out. subst out next.
  rewrite (handleGetTimeEntriesForDay_valid requestError c w d t Hd Hp). split.
  - intros Hne Hreq.
    pose proof (next_day_parses d t Hp Hne) as Hnext.
    unfold handleGetTimeEntries, dayArguments. cbn [arguments setArguments].
    unfold getOptionalString. simplify_map_eq. cbn [assertString].
    remember (time.Format (time.AddDay t)) as next eqn:En.
    assert (E1 : String.eqb d "" = false) by (apply String.eqb_neq; intros ->; discriminate).
    assert (E2 : String.eqb next "" = false)
      by (apply String.eqb_neq; intros E; rewrite E in Hnext; discriminate).
    rewrite E1, E2, Hp, Hnext. cbv beta iota zeta.
    change (url.Set_ [("start_date", d)] "end_date" next)
      with [("end_date", next); ("start_date", d)].
    cbv beta iota. rewrite (date_query d next t (time.AddDay t) Hp Hnext).
    unfold http.MethodGet. rewrite (makeRequest_sent requestError c _ _ _ _ Hreq).
    destruct (client c _ _) as [resp|err]; [|reflexivity].
    now destruct (decodeResponse resp) as [? [?|]].
  - intros ->. injection Hp as <-.
    unfold handleGetTimeEntries, dayArguments. cbn [arguments setArguments].
    unfold getOptionalString. simplify_map_eq. cbn [assertString].
    change (time.Format (time.AddDay (time.Date 9999 12 31))) with "10000-01-01".
    cbn. repeat split; [eexists; reflexivity | now simplify_map_eq ..].
Qed.

End ForDay.

(** ** Construction of the client *)

Lemma applyOptions_chosen (os : list construct.Opt) (c c' : construct.TogglClient)
    (h h' : gmap positive construct.Client) :
  construct.applyOptions (map construct.option_of os) c h = Some (c', h') ->
  construct.APIToken c' = construct.APIToken c /\
  construct.logger c' = chosenLogger os (construct.logger c) /\
  construct.client c' = chosenClient os (construct.client c) /\
  (forall q, Some q <> construct.client c -> ~ In q (passedClients os) -> h' !! q = h !! q).
Proof.
  revert c h. induction os as [|o os IH]; intros c h Hrun.
  - cbn in Hrun. injection Hrun as <- <-. now repeat split.
  - cbn [map construct.applyOptions] in Hrun.
    destruct o as [p|l|t]; cbn [construct.option_of] in Hrun.
    + unfold construct.WithHTTPClient in Hrun.
      destruct (IH _ _ Hrun) as (Ht & Hl & Hc & Hf). cbn in Ht, Hl, Hc, Hf.
      repeat split; auto. intros q Hq Hin. apply Hf.
      * intros E. destruct p as [p|]; [|discriminate]. injection E as ->.
        apply Hin. now left.
      * intros Hp. apply Hin. destruct p; [now right|exact Hp].
    + unfold construct.WithLogger in Hrun.
      destruct (IH _ _ Hrun) as (Ht & Hl & Hc & Hf). now repeat split.
    + unfold construct.WithTimeout in Hrun.
      destruct (construct.client c) as [p|] eqn:Ep; [|discriminate].
      destruct (h !! p) as [obj|] eqn:Eo; [|discriminate].
      destruct (IH _ _ Hrun) as (Ht & Hl & Hc & Hf).
      split; [exact Ht|]. split; [exact Hl|]. split; [rewrite Hc, Ep; reflexivity|].
      intros q Hq Hin. rewrite (Hf q); [|rewrite Ep; exact Hq|exact Hin].
      apply lookup_insert_ne. intros ->. now apply Hq.
Qed.

(** X17. [NewTogglClient] keeps the token it is given; the options act
    in order, so that the logger and the HTTP client are the last ones
    given, or else the default logger and a new HTTP client.  Of the
    [http.Client] objects that existed before, only those handed in by
    [WithHTTPClient] can have been written to. *)
Theorem options_in_order (tr : positive) (lg : option positive) (tok : string)
    (os : list construct.Opt) (h h' : gmap positive construct.Client)
    (cl : construct.TogglClient) :
  construct.NewTogglClient tr lg tok (map construct.option_of os) h = Some (cl, h') ->
  construct.APIToken cl = tok /\
  construct.logger cl = chosenLogger os lg /\
  construct.client cl = chosenClient os (Some (fresh (dom h))) /\
  (forall q, q ∈ dom h -> ~ In q (passedClients os) -> h' !! q = h !! q) /\
  (os = [] ->
   exists obj, h' !! fresh (dom h) = Some obj /\
     construct.Timeout obj = 30 * construct.Second).
Proof.
  unfold construct.NewTogglClient. intros Hrun.
  pose proof (is_fresh (dom h)) as Hfresh.
  destruct (applyOptions_chosen os _ _ _ _ Hrun) as (Ht & Hl & Hc & Hf).
  cbn in Ht, Hl, Hc, Hf. repeat split; auto.
  - intros q Hq Hin. rewrite (Hf q); [|congruence|exact Hin].
    apply lookup_insert_ne. intros <-. now apply Hfresh.
  - intros ->. cbn in Hrun. injection Hrun as <- <-.
    eexists. split; [apply lookup_insert_eq | reflexivity].
Qed.

(** X18. [WithTimeout] writes through the pointer of the client in use
    at that point.  After [WithHTTPClient p] it changes the caller's own
    object [p]; before it, it changes the default client, which
    [WithHTTPClient p] then discards, so that [p] keeps the timeout it
    had; after [WithHTTPClient nil] it is a nil dereference. *)
Theorem timeout_follows_the_pointer (tr : positive) (lg : option positive) (tok : string)
    (p : positive) (obj : construct.Client) (timeout : Z)
    (h : gmap positive construct.Client) :
  h !! p = Some obj ->
  (exists cl h',
     construct.NewTogglClient tr lg tok
       [construct.WithHTTPClient (Some p); construct.WithTimeout timeout] h = Some (cl, h') /\
     construct.client cl = Some p /\
     h' !! p = Some (construct.mkHTTPClient timeout (construct.Transport obj))) /\
  (exists cl h',
     construct.NewTogglClient tr lg tok
       [construct.WithTimeout timeout; construct.WithHTTPClient (Some p)] h = Some (cl, h') /\
     construct.client cl = Some p /\
     h' !! p = Some obj) /\
  construct.NewTogglClient tr lg tok
    [construct.WithHTTPClient None; construct.WithTimeout timeout] h = None.
Proof.
  intros Hp. pose proof (is_fresh (dom h)) as Hfresh.
  assert (Hne : fresh (dom h) <> p).
  { intros E. apply Hfresh. rewrite E. apply elem_of_dom. eauto. }
  unfold construct.NewTogglClient. split; [|split].
  - cbn. unfold construct.WithTimeout. cbn.
    rewrite lookup_insert_ne by exact Hne. rewrite Hp.
    do 2 eexists. split; [reflexivity|]. split; [reflexivity|]. apply lookup_insert_eq.
  - cbn. unfold construct.WithTimeout. cbn. rewrite lookup_insert_eq. cbn.
    do 2 eexists. split; [reflexivity|]. split; [reflexivity|].
    rewrite lookup_insert_ne by exact Hne. rewrite lookup_insert_ne by exact Hne. exact Hp.
  - reflexivity.
Qed.

(** ** The registry *)

Section Registered.

Context {Timestamp : Type} `{json.Shape Timestamp}.
Variable requestError : string -> string -> option error.
Variable now : Timestamp.
Variable sinceText : Timestamp -> Timestamp -> string.
Variable marshalEntry : TimeEntryRequest Timestamp -> string * option error.
Variable marshalMap : gmap string Scalar -> string * option error.
Variable c : TogglClient.

Local Abbreviation table := (tools requestError now sinceText marshalEntry marshalMap c).

(** X19. [SetupTools] never fails.  After it, each tool of its table is
    found under its own name with its own declaration and handler (no
    name is used twice, so none hides another), and what the server held
    under other names is still there. *)
Theorem SetupTools_registers (s : gmap string (ToolDecl * ToolHandler)) :
  let out := SetupTools requestError now sinceText marshalEntry marshalMap s c in
  snd out = None /\
  List.NoDup (map (fun t => declName (fst t)) table) /\
  (forall decl h, In (decl, h) table -> fst out !! declName decl = Some (decl, h)) /\
  (forall name, ~ In name (map (fun t => declName (fst t)) table) ->
     fst out !! name = s !! name).
Proof.
  intros out. subst out. split; [reflexivity|]. split; [|split].
  - cbn. repeat (apply List.NoDup_cons; [cbn; intuition discriminate|]). apply List.NoDup_nil.
  - intros decl h HIn. unfold SetupTools. cbn [fst].
    cbn in HIn.
    repeat (destruct HIn as [HIn|HIn]; [injection HIn as <- <-|]); [ .. | contradiction ];
      cbn [fold_left tools fst snd]; unfold AddTool; cbn [declName]; now simplify_map_eq.
  - intros name Hname. unfold SetupTools. cbn [fst].
    cbn [fold_left tools fst snd]. unfold AddTool. cbn [declName].
    cbn in Hname.
    repeat (rewrite lookup_insert_ne; [|intros E; apply Hname; rewrite <- E; tauto]).
    reflexivity.
Qed.

End Registered.

(** ** The properties on the test doubles *)

Lemma optional_number_agrees_witness :
  getOptionalNumber (arguments Fixture.workspaceCall) "workspace_id" = Some 456.
Proof.
  apply (proj1 (optional_number_agrees (arguments Fixture.workspaceCall) "workspace_id")).
  reflexivity.
Defined.

Lemma optional_string_agrees_witness :
  getOptionalString (arguments Fixture.dayCall) "date" = "2025-01-31" /\ "2025-01-31" <> "".
Proof.
  apply (proj1 (optional_string_agrees (arguments Fixture.dayCall) "date")).
  reflexivity.
Defined.

Lemma running_only_when_negative_witness : formatDuration (-1) = "[running]".
Proof. apply (running_only_when_negative (-1)). lia. Defined.

Lemma tools_send_little_witness :
  exists new,
    requestsAdded Scenario.goneOnStop Fixture.workspaceCall
      (snd (handleStopTimeEntry (Timestamp := Fixture.Timestamp) Fixture.requestError
              Scenario.goneOnStop Fixture.workspaceCall)) new /\
    (length new <= 2)%nat /\
    Forall (fun req =>
              http.BasicAuth req = Some ("test-token", "api_token") /\
              http.Header req = [("Content-Type", "application/json")] /\
              exists endpoint, http.URL req = togglAPIBase +:+ endpoint) new.
Proof.
  apply (tools_send_little (Timestamp := Fixture.Timestamp) Fixture.requestError Fixture.now
           Fixture.sinceText Fixture.marshalEntry Fixture.marshalMap Scenario.goneOnStop
           (mkToolDecl "stop_time_entry" "Stop the current running time entry"
              [WithNumber "workspace_id" true])
           (wrapHandler Scenario.goneOnStop (handleStopTimeEntry Fixture.requestError))
           Fixture.workspaceCall).
  do 2 right. left. reflexivity.
Defined.

Lemma tools_keep_arguments_witness :
  arguments (snd (handleGetTimeEntriesForDay (Timestamp := Fixture.Timestamp)
                    Fixture.requestError (Fixture.always 200 "[]") Fixture.overriddenCall))
    !! "limit"
  = arguments Fixture.overriddenCall !! "limit".
Proof.
  apply (tools_keep_arguments (Timestamp := Fixture.Timestamp) Fixture.requestError Fixture.now
           Fixture.sinceText Fixture.marshalEntry Fixture.marshalMap (Fixture.always 200 "[]")
           (mkToolDecl "get_time_entries_for_day"
              "Get time entries for a specific day (automatically handles the date range correctly)"
              [WithString "date" true])
           (wrapHandler (Fixture.always 200 "[]") (handleGetTimeEntriesForDay Fixture.requestError))
           Fixture.overriddenCall).
  - do 5 right. left. reflexivity.
  - discriminate.
  - discriminate.
Defined.

Lemma required_parameters_checked_witness :
  exists err,
    handleCreateProject (Timestamp := Fixture.Timestamp) Fixture.requestError Fixture.marshalMap
      (Fixture.always 200 "{}") Fixture.workspaceCall
    = (hardError err, Fixture.workspaceCall).
Proof.
  apply (required_parameters_checked (Timestamp := Fixture.Timestamp) Fixture.requestError
           Fixture.now Fixture.sinceText Fixture.marshalEntry Fixture.marshalMap
           (Fixture.always 200 "{}")
           (mkToolDecl "create_project" "Create a new project"
              [WithString "name" true; WithNumber "workspace_id" true;
               WithString "color" false; WithNumber "client_id" false])
           (wrapHandler (Fixture.always 200 "{}")
              (handleCreateProject Fixture.requestError Fixture.marshalMap))
           (WithString "name" true) Fixture.workspaceCall).
  - do 6 right. left. reflexivity.
  - left. reflexivity.
  - reflexivity.
  - reflexivity.
Defined.

Lemma transport_failure_is_hard_error_witness :
  exists err,
    fst (handleGetProjects (Timestamp := Fixture.Timestamp) Fixture.requestError
           Scenario.unreachable Fixture.workspaceCall) = (None, Some err).
Proof.
  apply (transport_failure_is_hard_error (Timestamp := Fixture.Timestamp) Fixture.requestError
           Fixture.now Fixture.sinceText Fixture.marshalEntry Fixture.marshalMap
           Scenario.unreachable
           (mkToolDecl "get_projects" "Get projects in a workspace"
              [WithNumber "workspace_id" true; WithBoolean "active" false])
           (wrapHandler Scenario.unreachable (handleGetProjects Fixture.requestError))
           Fixture.workspaceCall).
  - intros history req. eexists. reflexivity.
  - do 7 right. left. reflexivity.
Defined.

Lemma undecodable_is_hard_error_witness :
  exists err,
    fst (handleTestConnection Fixture.requestError (Fixture.always 200 "invalid json")
           (Fixture.call ∅)) = (None, Some err).
Proof.
  apply (undecodable_is_hard_error (Timestamp := Fixture.Timestamp) Fixture.requestError
           Fixture.now Fixture.sinceText Fixture.marshalEntry Fixture.marshalMap
           (Fixture.always 200 "invalid json")
           (mkToolDecl "test_connection" "Test the Toggl API connection and authentication" [])
           (wrapHandler (Fixture.always 200 "invalid json")
              (handleTestConnection Fixture.requestError))
           (Fixture.call ∅)).
  - intros history req. exists (Fixture.respond 200 "invalid json").
    split; [reflexivity|]. split; [reflexivity|]. split; [unfold successStatus; cbn; lia|].
    vm_compute. reflexivity.
  - left. reflexivity.
Defined.

Lemma not_found_elsewhere_is_flagged_witness :
  exists a,
    firstRefusal (Fixture.always 404 "Not Found") Fixture.workspaceCall
      (snd (handleGetProjects (Timestamp := Fixture.Timestamp) Fixture.requestError
              (Fixture.always 404 "Not Found") Fixture.workspaceCall)) a /\
    flaggedWith
      (fst (handleGetProjects (Timestamp := Fixture.Timestamp) Fixture.requestError
              (Fixture.always 404 "Not Found") Fixture.workspaceCall)) a.
Proof.
  apply (not_found_elsewhere_is_flagged (Timestamp := Fixture.Timestamp) Fixture.requestError
           Fixture.now Fixture.sinceText Fixture.marshalEntry Fixture.marshalMap
           (Fixture.always 404 "Not Found")
           (mkToolDecl "get_projects" "Get projects in a workspace"
              [WithNumber "workspace_id" true; WithBoolean "active" false])
           (wrapHandler (Fixture.always 404 "Not Found") (handleGetProjects Fixture.requestError))
           Fixture.workspaceCall).
  - intros history req. exists (Fixture.respond 404 "Not Found").
    split; [reflexivity|]. split; [reflexivity|]. unfold successStatus; cbn; lia.
  - do 7 right. left. reflexivity.
  - discriminate.
  - discriminate.
  - vm_compute. discriminate.
Defined.

Lemma stop_time_entry_stops_current_witness :
  fst (handleStopTimeEntry (Timestamp := Fixture.Timestamp) Fixture.requestError
         (Fixture.always 200 Scenario.entryBody) Fixture.workspaceCall)
  = (Some (mcp.mkResult ["Stopped time entry: Test task (ID: 789)"] false), None) /\
  sent (snd (handleStopTimeEntry (Timestamp := Fixture.Timestamp) Fixture.requestError
               (Fixture.always 200 Scenario.entryBody) Fixture.workspaceCall))
  = [builtRequest (Fixture.always 200 Scenario.entryBody) "GET" currentEndpoint None;
     builtRequest (Fixture.always 200 Scenario.entryBody) "PATCH" (stopEndpoint 456 789) None].
Proof.
  apply (stop_time_entry_stops_current (Timestamp := Fixture.Timestamp) Fixture.requestError
           (Fixture.always 200 Scenario.entryBody) Fixture.workspaceCall 456
           (Fixture.respond 200 Scenario.entryBody) (Fixture.respond 200 Scenario.entryBody)
           Scenario.runningEntry Scenario.runningEntry).
  - reflexivity.
  - reflexivity.
  - reflexivity.
  - reflexivity.
  - cbn. lia.
  - vm_compute. reflexivity.
  - reflexivity.
  - vm_compute. reflexivity.
Defined.

Lemma stop_time_entry_refused_witness :
  fst (handleStopTimeEntry (Timestamp := Fixture.Timestamp) Fixture.requestError
         Scenario.goneOnStop Fixture.workspaceCall)
  = (Some (mcp.mkResult ["Failed to stop time entry: API error (status 404): Not Found"] true),
     None).
Proof.
  apply (stop_time_entry_refused (Timestamp := Fixture.Timestamp) Fixture.requestError
           Scenario.goneOnStop Fixture.workspaceCall 456
           (Fixture.respond 200 Scenario.entryBody) (Fixture.respond 404 "Not Found")
           Scenario.runningEntry).
  - reflexivity.
  - reflexivity.
  - reflexivity.
  - reflexivity.
  - cbn. lia.
  - vm_compute. reflexivity.
  - reflexivity.
  - reflexivity.
  - unfold successStatus. cbn. lia.
Defined.

Lemma start_time_entry_posts_witness :
  sent (snd (handleStartTimeEntry (Timestamp := Fixture.Timestamp) Fixture.requestError
               Fixture.now Fixture.marshalEntry (Fixture.always 200 Scenario.entryBody)
               Scenario.startCall))
  = [builtRequest (Fixture.always 200 Scenario.entryBody) "POST"
       "/workspaces/456/time_entries" (Some "{}")].
Proof.
  apply (start_time_entry_posts (Timestamp := Fixture.Timestamp) Fixture.requestError
           Fixture.now Fixture.marshalEntry (Fixture.always 200 Scenario.entryBody)
           Scenario.startCall "Test task" "{}" 456); reflexivity.
Defined.

Lemma create_project_posts_witness :
  sent (snd (handleCreateProject (Timestamp := Fixture.Timestamp) Fixture.requestError
               Fixture.marshalMap (Fixture.always 200 "{}") Scenario.projectCall))
  = [builtRequest (Fixture.always 200 "{}") "POST" "/workspaces/456/projects" (Some "{}")].
Proof.
  apply (create_project_posts (Timestamp := Fixture.Timestamp) Fixture.requestError
           Fixture.marshalMap (Fixture.always 200 "{}") Scenario.projectCall
           "Test Project" "{}" 456); reflexivity.
Defined.

Lemma get_projects_active_query_witness :
  sent (snd (handleGetProjects (Timestamp := Fixture.Timestamp) Fixture.requestError
               (Fixture.always 200 "[]") Scenario.activeCall))
  = [builtRequest (Fixture.always 200 "[]") "GET" "/workspaces/456/projects?active=true" None].
Proof.
  apply (get_projects_active_query (Timestamp := Fixture.Timestamp) Fixture.requestError
           (Fixture.always 200 "[]") Scenario.activeCall true 456); reflexivity.
Defined.

Lemma get_time_entries_query_witness :
  sent (snd (handleGetTimeEntries (Timestamp := Fixture.Timestamp) Fixture.requestError
               (Fixture.always 200 "[]") Fixture.workspaceCall))
  = [builtRequest (Fixture.always 200 "[]") "GET" "/me/time_entries" None].
Proof.
  apply (get_time_entries_query (Timestamp := Fixture.Timestamp) Fixture.requestError
           (Fixture.always 200 "[]") Fixture.workspaceCall); reflexivity.
Defined.

Lemma for_day_reaches_service_witness :
  sent (snd (handleGetTimeEntriesForDay (Timestamp := Fixture.Timestamp) Fixture.requestError
               (Fixture.always 200 "[]") Fixture.dayCall))
  = [builtRequest (Fixture.always 200 "[]") "GET"
       "/me/time_entries?end_date=2025-02-01&start_date=2025-01-31" None].
Proof.
  apply (for_day_reaches_service (Timestamp := Fixture.Timestamp) Fixture.requestError
           (Fixture.always 200 "[]") Fixture.dayCall "2025-01-31" (time.Date 2025 1 31)).
  - reflexivity.
  - reflexivity.
  - discriminate.
  - reflexivity.
Defined.

Lemma options_in_order_witness :
  construct.logger
    {| construct.APIToken := "test-token"; construct.client := Some 1%positive;
       construct.logger := Some 5%positive |} = Some 5%positive.
Proof.
  apply (options_in_order 1 (Some 2%positive) "test-token"
           [construct.OptLogger (Some 3%positive); construct.OptTimeout 10;
            construct.OptLogger (Some 5%positive)]
           ∅ {[ 1%positive := construct.mkHTTPClient 10 1 ]}).
  vm_compute. reflexivity.
Defined.

Lemma timeout_follows_the_pointer_witness :
  construct.NewTogglClient 1 None "test-token"
    [construct.WithHTTPClient None; construct.WithTimeout 10]
    {[ 7%positive := construct.mkHTTPClient 0 1 ]} = None.
Proof.
  apply (timeout_follows_the_pointer 1 None "test-token" 7 (construct.mkHTTPClient 0 1) 10
           {[ 7%positive := construct.mkHTTPClient 0 1 ]}).
  reflexivity.
Defined.

Lemma get_current_reports_entry_witness :
  fst (handleGetCurrentTimeEntry (Timestamp := Fixture.Timestamp) Fixture.requestError
         Fixture.now Fixture.sinceText (Fixture.always 200 Scenario.entryBody)
         (Fixture.call ∅))
  = (Some (mcp.mkResult ["Current time entry: Test task (ID: 789, Running for: 30m0s)"] false),
     None).
Proof.
  apply (get_current_reports_entry (Timestamp := Fixture.Timestamp) Fixture.requestError
           Fixture.now Fixture.sinceText (Fixture.always 200 Scenario.entryBody)
           (Fixture.call ∅) (Fixture.respond 200 Scenario.entryBody) Scenario.runningEntry).
  - reflexivity.
  - reflexivity.
  - cbn. lia.
  - vm_compute. reflexivity.
Defined.

Lemma arguments_not_read_witness :
  fst (handleTestConnection Fixture.requestError (Fixture.always 401 "Unauthorized")
         (setArguments (Fixture.call ∅) (arguments Fixture.workspaceCall)))
  = fst (handleTestConnection Fixture.requestError (Fixture.always 401 "Unauthorized")
           (Fixture.call ∅)).
Proof.
  apply (arguments_not_read (Timestamp := Fixture.Timestamp) Fixture.requestError Fixture.now
           Fixture.sinceText Fixture.marshalEntry Fixture.marshalMap
           (Fixture.always 401 "Unauthorized")
           (mkToolDecl "test_connection" "Test the Toggl API connection and authentication" [])
           (wrapHandler (Fixture.always 401 "Unauthorized")
              (handleTestConnection Fixture.requestError))
           (Fixture.call ∅) (arguments Fixture.workspaceCall)).
  - left. reflexivity.
  - reflexivity.
Defined.

Lemma SetupTools_registers_witness :
  snd (SetupTools (Timestamp := Fixture.Timestamp) Fixture.requestError Fixture.now
         Fixture.sinceText Fixture.marshalEntry Fixture.marshalMap ∅
         (Fixture.always 200 "{}")) = None.
Proof.
  apply (SetupTools_registers (Timestamp := Fixture.Timestamp) Fixture.requestError Fixture.now
           Fixture.sinceText Fixture.marshalEntry Fixture.marshalMap (Fixture.always 200 "{}") ∅).
Defined.
